(** * Readwise Reader remote MCP server: a shallow embedding

  The development follows the two TypeScript modules of the server:
  - [ReaderMcp]: the tool handlers registered by [MyMCP.init]
    ([listDocuments], [createDocument], [deleteDocument], [tagList]);
  - [ReaderHandler]: the Hono handler of [POST /authorize].

  The JavaScript primitives the handlers rely on live in [JS]; the
  interaction with the outside world ([fetch], the OAuth provider, the
  clock) is explicit state passing in [Runtime]. *)

From Stdlib Require Import ZArith List String Ascii Bool Lia.
From Stdlib Require Import DecimalString DecimalZ.
From Stdlib Require Import PrimFloat FloatOps SpecFloat.
From Stdlib Require Import QArith Qround Lqa.
From Stdlib Require Import Sorted.
Import ListNotations.

Set Warnings "-inexact-float,-register-all".
Open Scope string_scope.
Open Scope list_scope.
Open Scope Z_scope.

(** ** JavaScript primitives *)

Module JS.

(** JSON values, as built by object literals and handed to
    [JSON.stringify].  An object keeps its keys in insertion order.  A
    number is a whole number, or is given as the binary64 number it is. *)
Inductive Json : Type :=
| JNull
| JBool (b : bool)
| JNum (n : Z)
| JFloat (x : float)
| JStr (s : string)
| JArr (items : list Json)
| JObj (fields : list (string * Json)).

(** A value of type [string | null | undefined]: [None] is null or
    undefined.  [if (s)] holds for a non-empty string only. *)
Definition truthy (s : option string) : bool :=
  match s with
  | Some v => negb (v =? "")%string
  | None => false
  end.

(** [a || b] on strings. *)
Definition orElse (s : option string) (dflt : string) : string :=
  match s with
  | Some v => if (v =? "")%string then dflt else v
  | None => dflt
  end.

(** [String.prototype.substring(indexStart, indexEnd)]: both indices are
    clamped to [0, length] and swapped when out of order.  One [ascii]
    stands for one UTF-16 code unit. *)
Definition substring (s : string) (indexStart indexEnd : Z) : string :=
  let len := Z.of_nat (String.length s) in
  let a := Z.min (Z.max indexStart 0) len in
  let b := Z.min (Z.max indexEnd 0) len in
  let from := Z.min a b in
  let to := Z.max a b in
  String.substring (Z.to_nat from) (Z.to_nat (to - from)) s.

(** [Array.prototype.slice(start, end)]: a negative index counts from the
    end of the array. *)
Definition slice {A : Type} (l : list A) (start end_ : Z) : list A :=
  let len := Z.of_nat (List.length l) in
  let k := if start <? 0 then Z.max (len + start) 0 else Z.min start len in
  let final := if end_ <? 0 then Z.max (len + end_) 0 else Z.min end_ len in
  firstn (Z.to_nat (final - k)) (skipn (Z.to_nat k) l).

(** Template-literal rendering of an integer number ([`${n}`]), in the
    range where JavaScript prints plain decimal digits. *)
Definition numberToString (n : Z) : string :=
  NilZero.string_of_int (Z.to_int n).

(** [Math.round] on a binary64 number, computed exactly: the nearest
    integer, ties going up.  The result is what [JSON.stringify] prints:
    an integer, or [None] (printed [null]) for NaN and the infinities. *)
Definition Math_round (x : float) : option Z :=
  match Prim2SF x with
  | S754_zero _ => Some 0
  | S754_infinity _ => None
  | S754_nan => None
  | S754_finite s m e =>
      let n := if s then Z.neg m else Z.pos m in
      if 0 <=? e then Some (n * 2 ^ e)
      else Some ((2 * n + 2 ^ (- e)) / 2 ^ (1 - e))
  end.

(** [URLSearchParams]: an ordered list of name/value pairs. *)
Definition URLSearchParams : Type := list (string * string).

Definition append (p : URLSearchParams) (name value : string)
  : URLSearchParams :=
  p ++ [(name, value)].

(** [set] overwrites the first pair called [name] and drops the others,
    or appends a new pair when there is none. *)
Fixpoint set (p : URLSearchParams) (name value : string)
  : URLSearchParams :=
  match p with
  | [] => [(name, value)]
  | (n, v) :: rest =>
      if (n =? name)%string
      then (name, value) :: filter (fun nv => negb (fst nv =? name)%string) rest
      else (n, v) :: set rest name value
  end.

(** Property lookup in an object. *)
Fixpoint lookup (key : string) (fields : list (string * Json))
  : option Json :=
  match fields with
  | [] => None
  | (k, v) :: rest => if (k =? key)%string then Some v else lookup key rest
  end.

Definition property (key : string) (j : Json) : option Json :=
  match j with
  | JObj fields => lookup key fields
  | _ => None
  end.

Definition hasKey (key : string) (j : Json) : bool :=
  match property key j with
  | Some _ => true
  | None => false
  end.

(** A property whose value is [undefined] is left out by
    [JSON.stringify]. *)
Definition optionalField (key : string) (v : option string)
  : list (string * Json) :=
  match v with
  | Some s => [(key, JStr s)]
  | None => []
  end.

(** An array index: the key is the decimal numeral, written without a
    sign or a leading zero, of a whole number from 0 to 2^32 - 2. *)
Definition arrayIndex (key : string) : option Z :=
  match NilZero.uint_of_string key with
  | Some digits =>
      let n := Z.of_uint digits in
      if (numberToString n =? key)%string && (n <=? 4294967294)
      then Some n
      else None
  | None => None
  end.

Definition isArrayIndex (key : string) : bool :=
  match arrayIndex key with
  | Some _ => true
  | None => false
  end.

(** The keys of an object that is given by its properties in the order in
    which they were created: a key that comes again names the property
    created before. *)
Fixpoint createdKeys (keys : list string) : list string :=
  match keys with
  | [] => []
  | k :: rest =>
      k :: filter (fun k' => negb (k' =? k)%string) (createdKeys rest)
  end.

Fixpoint insertIndex (n : Z) (sorted : list Z) : list Z :=
  match sorted with
  | [] => [n]
  | m :: rest =>
      if n <? m then n :: sorted
      else if n =? m then sorted
      else m :: insertIndex n rest
  end.

Definition indicesOf (keys : list string) : list Z :=
  flat_map (fun k => match arrayIndex k with
                     | Some n => [n]
                     | None => []
                     end) keys.

(** [Object.keys(o)]: the keys that are array indices first, in ascending
    numeric order, then the other keys in the order of their creation. *)
Definition Object_keys (o : list (string * Json)) : list string :=
  let keys := createdKeys (map fst o) in
  map numberToString (fold_right insertIndex [] (indicesOf keys))
  ++ filter (fun k => negb (isArrayIndex k)) keys.

End JS.

Import JS.

(** ** The runtime: upstream HTTP, OAuth provider, clock *)

Module Runtime.

Inductive Method : Type := GET | POST | PATCH | DELETE.

(** The body of an outgoing request: [JSON.stringify(payload)], kept as
    the value that is serialised. *)
Record Request : Type := mkRequest {
  method : Method;
  url : string;                       (* the part before [?] *)
  search : URLSearchParams;           (* the query string, parsed *)
  headers : list (string * string);
  body : option Json
}.

Record ReaderCreateResponse : Type := mkCreateResponse {
  created_id : string;
  created_url : string
}.

Record ReaderTag : Type := mkTag {
  key : string;
  name : string
}.

Record ReaderTagsResponse : Type := mkTagsResponse {
  tags_count : Z;
  tags_nextPageCursor : option string;
  tags_results : list ReaderTag
}.

(** [interface ReaderDocument].  The fields the code tests for
    truthiness ([author], [summary], [tags]) may be missing. *)
Record ReaderDocument : Type := mkDocument {
  id : string;
  doc_url : string;
  source_url : string;
  title : string;
  author : option string;
  source : string;
  category : string;
  location : string;
  tags : option (list (string * Json));
  site_name : string;
  word_count : Z;
  created_at : string;
  updated_at : string;
  notes : string;
  published_date : option string;
  summary : option string;
  image_url : string;
  parent_id : option string;
  reading_progress : float;
  first_opened_at : option string;
  last_opened_at : option string;
  saved_at : string;
  last_moved_at : string
}.

Record ReaderListResponse : Type := mkListResponse {
  count : Z;
  nextPageCursor : option string;
  results : list ReaderDocument
}.

(** The body of a response: no JSON at all, a body of one of the shapes
    the interfaces describe, or any other JSON value. *)
Inductive Body : Type :=
| NoBody
| ListBody (r : ReaderListResponse)
| TagsBody (r : ReaderTagsResponse)
| CreateBody (r : ReaderCreateResponse)
| JsonBody (value : Json).

(** The JSON value that a body is.  A record stands for the object with
    the fields of its interface, in their order, a missing value for
    [null]. *)
Definition nullable (v : option string) : Json :=
  match v with
  | Some s => JStr s
  | None => JNull
  end.

Definition createResponseValue (r : ReaderCreateResponse) : Json :=
  JObj [ ("id", JStr (created_id r)); ("url", JStr (created_url r)) ].

Definition tagValue (t : ReaderTag) : Json :=
  JObj [ ("key", JStr (key t)); ("name", JStr (name t)) ].

Definition documentValue (d : ReaderDocument) : Json :=
  JObj
    [ ("id", JStr (id d));
      ("url", JStr (doc_url d));
      ("source_url", JStr (source_url d));
      ("title", JStr (title d));
      ("author", nullable (author d));
      ("source", JStr (source d));
      ("category", JStr (category d));
      ("location", JStr (location d));
      ("tags", match tags d with
               | Some entries => JObj entries
               | None => JNull
               end);
      ("site_name", JStr (site_name d));
      ("word_count", JNum (word_count d));
      ("created_at", JStr (created_at d));
      ("updated_at", JStr (updated_at d));
      ("notes", JStr (notes d));
      ("published_date", nullable (published_date d));
      ("summary", nullable (summary d));
      ("image_url", JStr (image_url d));
      ("parent_id", nullable (parent_id d));
      ("reading_progress", JFloat (reading_progress d));
      ("first_opened_at", nullable (first_opened_at d));
      ("last_opened_at", nullable (last_opened_at d));
      ("saved_at", JStr (saved_at d));
      ("last_moved_at", JStr (last_moved_at d)) ].

Definition bodyValue (b : Body) : option Json :=
  match b with
  | NoBody => None
  | ListBody r =>
      Some (JObj [ ("count", JNum (count r));
                   ("nextPageCursor", nullable (nextPageCursor r));
                   ("results", JArr (map documentValue (results r))) ])
  | TagsBody r =>
      Some (JObj [ ("count", JNum (tags_count r));
                   ("nextPageCursor", nullable (tags_nextPageCursor r));
                   ("results", JArr (map tagValue (tags_results r))) ])
  | CreateBody r => Some (createResponseValue r)
  | JsonBody value => Some value
  end.

Record Response : Type := mkResponse {
  status : Z;
  statusText : string;
  json : Body
}.

(** [response.ok]: a status in 200..299. *)
Definition ok (r : Response) : bool :=
  (200 <=? status r) && (status r <=? 299).

(** A thrown value: an [Error] with its message, or anything else. *)
Inductive Exn : Type :=
| JsError (message : string)
| JsValue.

Inductive FetchOutcome : Type :=
| Responds (r : Response)
| Rejects (e : Exn).

(** The upstream service answers a request knowing the requests it has
    received before (oldest first). *)
Definition Upstream : Type := list Request -> Request -> FetchOutcome.

(** [AuthRequest] of the OAuth provider. *)
Record AuthRequest : Type := mkAuthRequest {
  responseType : string;
  clientId : string;
  redirectUri : string;
  scope : list string;
  state : string
}.

Record Props : Type := mkProps { apiToken : string }.

(** The options passed to [completeAuthorization]. *)
Record CompleteAuthorizationOptions : Type := mkOptions {
  metadata_label : string;
  props : Props;
  request : AuthRequest;
  opt_scope : list string;
  userId : string
}.

Record Env : Type := mkEnv {
  upstream : Upstream;
  (* [OAUTH_PROVIDER.completeAuthorization]: the redirect target, or a
     rejection *)
  provider : CompleteAuthorizationOptions -> Exn + string;
  (* [Date.now()], in milliseconds *)
  now : Z
}.

(** What a run leaves behind: the upstream requests issued and the
    authorizations completed, oldest first. *)
Record World : Type := mkWorld {
  requests : list Request;
  completions : list CompleteAuthorizationOptions
}.

Definition emptyWorld : World := mkWorld [] [].

(** The result of a computation: a value, a thrown exception, or a loop
    that has not finished within the fuel it was given. *)
Inductive Res (A : Type) : Type :=
| Val (a : A)
| Throw (e : Exn)
| OutOfFuel.

Arguments Val {A} a.
Arguments Throw {A} e.
Arguments OutOfFuel {A}.

Definition M (A : Type) : Type := Env -> World -> Res A * World.

Definition ret {A : Type} (a : A) : M A := fun _ w => (Val a, w).

Definition bind {A B : Type} (m : M A) (k : A -> M B) : M B :=
  fun env w =>
    match m env w with
    | (Val a, w') => k a env w'
    | (Throw e, w') => (Throw e, w')
    | (OutOfFuel, w') => (OutOfFuel, w')
    end.

Definition throw {A : Type} (e : Exn) : M A := fun _ w => (Throw e, w).

Definition outOfFuel {A : Type} : M A := fun _ w => (OutOfFuel, w).

(** [try { body } catch (error) { handler }] *)
Definition tryCatch {A : Type} (body : M A) (handler : Exn -> M A) : M A :=
  fun env w =>
    match body env w with
    | (Throw e, w') => handler e env w'
    | r => r
    end.

(** [await fetch(...)]: the request is recorded, the upstream decides. *)
Definition fetch (req : Request) : M Response :=
  fun env w =>
    let w' := mkWorld (requests w ++ [req]) (completions w) in
    match upstream env (requests w) req with
    | Responds r => (Val r, w')
    | Rejects e => (Throw e, w')
    end.

Definition completeAuthorization (o : CompleteAuthorizationOptions)
  : M string :=
  fun env w =>
    let w' := mkWorld (requests w) (completions w ++ [o]) in
    match provider env o with
    | inr redirectTo => (Val redirectTo, w')
    | inl e => (Throw e, w')
    end.

Definition Date_now : M Z := fun env w => (Val (now env), w).

(** [await response.json() as ReaderListResponse] and the like. *)
Definition jsonList (r : Response) : M ReaderListResponse :=
  match json r with
  | ListBody b => ret b
  | _ => throw (JsError "Unexpected end of JSON input")
  end.

Definition jsonTags (r : Response) : M ReaderTagsResponse :=
  match json r with
  | TagsBody b => ret b
  | _ => throw (JsError "Unexpected end of JSON input")
  end.

(** [await response.json() as ReaderCreateResponse]: the cast checks
    nothing, and the handlers that use it read no field of the value; any
    JSON value passes. *)
Definition jsonCreate (r : Response) : M Json :=
  match bodyValue (json r) with
  | Some data => ret data
  | None => throw (JsError "Unexpected end of JSON input")
  end.

(** [new Error(`API request failed: ${response.status} ${response.statusText}`)] *)
Definition apiRequestFailed (r : Response) : Exn :=
  JsError ("API request failed: " ++ numberToString (status r)
           ++ " " ++ statusText r)%string.

(** [error instanceof Error ? error.message : "Unknown error occurred"] *)
Definition errorMessage (error : Exn) : string :=
  match error with
  | JsError message => message
  | JsValue => "Unknown error occurred"
  end.

End Runtime.

Import Runtime.

Declare Scope js_scope.
Delimit Scope js_scope with js.
Notation "x <- c1 ;; c2" := (bind c1 (fun x => c2))
(at level 61, c1 at next level, right associativity) : js_scope.
Open Scope js_scope.

(** ** The tool handlers of [MyMCP] *)

Module ReaderMcp.

(** The single text item of a tool result: a plain message, or
    [JSON.stringify(value, null, 2)] of the value given. *)
Inductive ToolText : Type :=
| Plain (text : string)
| Stringified (value : Json).

(** [{ content: [{ type: "text", text }], isError }]; [isError] is [false]
    when the property is not set. *)
Record ToolResult : Type := mkResult {
  content : ToolText;
  isError : bool
}.

(** [headers: { "Authorization": `Token ${this.props.apiToken}` }] *)
Definition authorization (this_props : Props) : list (string * string) :=
  [("Authorization", ("Token " ++ apiToken this_props)%string)].

(** [if (v) params.append(name, v)] *)
Definition appendIf (params : URLSearchParams) (name : string)
  (v : option string) : URLSearchParams :=
  match v with
  | Some s => if truthy v then append params name s else params
  | None => params
  end.

(** [if (nextPageCursor) params.set("pageCursor", nextPageCursor)] *)
Definition setIf (params : URLSearchParams) (name : string)
  (v : option string) : URLSearchParams :=
  match v with
  | Some s => if truthy v then set params name s else params
  | None => params
  end.

(** *** listDocuments *)

Record ListDocumentsArgs : Type := mkListArgs {
  list_location : option string;
  list_category : option string;
  list_tag : option string;
  list_updatedAfter : option string;
  limit : Z            (* a whole number; the default 20 is already filled in *)
}.

Definition inEnum (values : list string) (v : option string) : bool :=
  match v with
  | Some s => existsb (String.eqb s) values
  | None => true
  end.

Definition categoryEnum : list string :=
  ["article"; "email"; "rss"; "highlight"; "note"; "pdf"; "epub"; "tweet";
   "video"].

(** [z.number().min(1).max(100)], at a whole number.  The tools of this
    module are the listing tools called with a whole limit; [NumberLimit]
    below has them at any number the schema admits. *)
Definition limitSchema (n : Z) : bool := (1 <=? n) && (n <=? 100).

(** The input schema of the tool; a call reaches the handler only when its
    arguments pass. *)
Definition listDocumentsSchema (a : ListDocumentsArgs) : bool :=
  inEnum ["new"; "later"; "shortlist"; "archive"; "feed"] (list_location a)
  && inEnum categoryEnum (list_category a)
  && limitSchema (limit a).

Definition listEndpoint : string := "https://readwise.io/api/v3/list/".

(** The [do { ... } while (true)] loop of [listDocuments]; the loop
    variables are the arguments.  [params] is the one object built before
    the loop and updated in place. *)
Fixpoint listDocumentsLoop (fuel : nat) (this_props : Props) (limit : Z)
  (params : URLSearchParams) (allDocuments : list ReaderDocument)
  (nextPageCursor : option string) (totalFetched : Z)
  : M (list ReaderDocument) :=
  match fuel with
  | O => outOfFuel
  | S fuel' =>
      let params := setIf params "pageCursor" nextPageCursor in
      response <-
        fetch (mkRequest GET listEndpoint params (authorization this_props)
                 None) ;;
      if negb (ok response) then throw (apiRequestFailed response)
      else
        data <- jsonList response ;;
        let remainingSpace := limit - totalFetched in
        let documentsToAdd := slice (results data) 0 remainingSpace in
        let allDocuments := allDocuments ++ documentsToAdd in
        let totalFetched :=
          totalFetched + Z.of_nat (List.length documentsToAdd) in
        if (totalFetched >=? limit)
           || negb (truthy (Runtime.nextPageCursor data))
        then ret allDocuments
        else
          listDocumentsLoop fuel' this_props limit params allDocuments
            (Runtime.nextPageCursor data) totalFetched
  end.

(** [doc.summary ? doc.summary.substring(0, 100) + "..." : "No summary"] *)
Definition formatSummary (summary : option string) : string :=
  match summary with
  | Some s =>
      if truthy summary then (substring s 0 100 ++ "...")%string
      else "No summary"
  | None => "No summary"
  end.

(** [Math.round(doc.reading_progress * 100)] *)
Definition formatReadingProgress (reading_progress : float) : Json :=
  match Math_round (reading_progress * 100)%float with
  | Some n => JNum n
  | None => JNull
  end.

(** [Object.keys(doc.tags || {})] *)
Definition tagKeys (tags : option (list (string * Json))) : list Json :=
  match tags with
  | Some t => map JStr (Object_keys t)
  | None => []
  end.

(** The callback of [allDocuments.map]. *)
Definition formatDocument (doc : ReaderDocument) : Json :=
  JObj
    [ ("id", JStr (id doc));
      ("title", JStr (title doc));
      ("author", JStr (orElse (author doc) "Unknown"));
      ("url", JStr (doc_url doc));
      ("source_url", JStr (source_url doc));
      ("category", JStr (category doc));
      ("location", JStr (location doc));
      ("word_count", JNum (word_count doc));
      ("reading_progress", formatReadingProgress (reading_progress doc));
      ("summary", JStr (formatSummary (summary doc)));
      ("saved_at", JStr (saved_at doc));
      ("tags", JArr (tagKeys (tags doc))) ].

Definition listDocumentsOutput (a : ListDocumentsArgs)
  (allDocuments : list ReaderDocument) : Json :=
  let formattedDocuments := map formatDocument allDocuments in
  JObj
    [ ("documents", JArr formattedDocuments);
      ("count", JNum (Z.of_nat (List.length formattedDocuments)));
      ("filters",
       JObj (optionalField "location" (list_location a)
             ++ optionalField "category" (list_category a)
             ++ optionalField "tag" (list_tag a)
             ++ optionalField "updatedAfter" (list_updatedAfter a))) ].

Definition listDocuments (fuel : nat) (this_props : Props)
  (a : ListDocumentsArgs) : M ToolResult :=
  tryCatch
    (let params : URLSearchParams := [] in
     let params := appendIf params "location" (list_location a) in
     let params := appendIf params "category" (list_category a) in
     let params := appendIf params "tag" (list_tag a) in
     let params := appendIf params "updatedAfter" (list_updatedAfter a) in
     let params := append params "withHtmlContent" "true" in
     allDocuments <-
       listDocumentsLoop fuel this_props (limit a) params [] None 0 ;;
     ret (mkResult (Stringified (listDocumentsOutput a allDocuments)) false))
    (fun error =>
       ret (mkResult
              (Plain ("Error fetching documents: " ++ errorMessage error)%string)
              true)).

(** *** createDocument *)

Record CreateDocumentArgs : Type := mkCreateArgs {
  create_url : string;
  create_html : option string;
  create_should_clean_html : option bool;
  create_title : option string;
  create_author : option string;
  create_summary : option string;
  create_published_date : option string;
  create_image_url : option string;
  create_location : option string;
  create_category : option string;
  create_saved_using : option string;
  create_tags : option (list string);
  create_notes : option string
}.

(** [payload.key = value]: overwrite the property, or add it last. *)
Fixpoint assign (payload : list (string * Json)) (key : string)
  (value : Json) : list (string * Json) :=
  match payload with
  | [] => [(key, value)]
  | (k, v) :: rest =>
      if (k =? key)%string then (k, value) :: rest
      else (k, v) :: assign rest key value
  end.

(** [if (v) payload.key = v] for a string [v] *)
Definition assignIf (payload : list (string * Json)) (key : string)
  (v : option string) : list (string * Json) :=
  match v with
  | Some s => if truthy v then assign payload key (JStr s) else payload
  | None => payload
  end.

(** The object handed to [JSON.stringify] in [createDocument]. *)
Definition createPayload (a : CreateDocumentArgs) : list (string * Json) :=
  let payload := [("url", JStr (create_url a))] in
  let payload := assignIf payload "html" (create_html a) in
  let payload :=
    match create_should_clean_html a with
    | Some b => assign payload "should_clean_html" (JBool b)
    | None => payload
    end in
  let payload := assignIf payload "title" (create_title a) in
  let payload := assignIf payload "author" (create_author a) in
  let payload := assignIf payload "summary" (create_summary a) in
  let payload := assignIf payload "published_date" (create_published_date a) in
  let payload := assignIf payload "image_url" (create_image_url a) in
  let payload := assignIf payload "location" (create_location a) in
  let payload := assignIf payload "category" (create_category a) in
  let payload := assignIf payload "saved_using" (create_saved_using a) in
  let payload :=
    match create_tags a with
    | Some tags => assign payload "tags" (JArr (map JStr tags))
    | None => payload
    end in
  let payload := assignIf payload "notes" (create_notes a) in
  payload.

Definition saveEndpoint : string := "https://readwise.io/api/v3/save/".

Definition createDocument (this_props : Props) (a : CreateDocumentArgs)
  : M ToolResult :=
  tryCatch
    (let payload := createPayload a in
     response <-
       fetch (mkRequest POST saveEndpoint []
                (authorization this_props
                 ++ [("Content-Type", "application/json")])
                (Some (JObj payload))) ;;
     if negb (ok response) then throw (apiRequestFailed response)
     else
       data <- jsonCreate response ;;
       ret (mkResult
              (Stringified
                 (JObj
                    [ ("success", JBool true);
                      ("message", JStr "Document created successfully");
                      ("document", data) ]))
              false))
    (fun error =>
       ret (mkResult
              (Plain ("Error creating document: " ++ errorMessage error)%string)
              true)).

(** *** updateDocument *)

Record UpdateDocumentArgs : Type := mkUpdateArgs {
  update_documentId : string;
  update_title : option string;
  update_author : option string;
  update_summary : option string;
  update_published_date : option string;
  update_image_url : option string;
  update_location : option string;
  update_category : option string
}.

(** The object handed to [JSON.stringify] in [updateDocument]. *)
Definition updatePayload (a : UpdateDocumentArgs) : list (string * Json) :=
  let payload : list (string * Json) := [] in
  let payload := assignIf payload "title" (update_title a) in
  let payload := assignIf payload "author" (update_author a) in
  let payload := assignIf payload "summary" (update_summary a) in
  let payload := assignIf payload "published_date" (update_published_date a) in
  let payload := assignIf payload "image_url" (update_image_url a) in
  let payload := assignIf payload "location" (update_location a) in
  let payload := assignIf payload "category" (update_category a) in
  payload.

(** [`https://readwise.io/api/v3/update/${documentId}/`] *)
Definition updateEndpoint (documentId : string) : string :=
  ("https://readwise.io/api/v3/update/" ++ documentId ++ "/")%string.

(** [interface ReaderUpdateResponse] has the fields of
    [ReaderCreateResponse]; the body is read the same way. *)
Definition updateDocument (this_props : Props) (a : UpdateDocumentArgs)
  : M ToolResult :=
  tryCatch
    (let payload := updatePayload a in
     response <-
       fetch (mkRequest PATCH (updateEndpoint (update_documentId a)) []
                (authorization this_props
                 ++ [("Content-Type", "application/json")])
                (Some (JObj payload))) ;;
     if negb (ok response) then throw (apiRequestFailed response)
     else
       data <- jsonCreate response ;;
       ret (mkResult
              (Stringified
                 (JObj
                    [ ("success", JBool true);
                      ("message", JStr "Document updated successfully");
                      ("document", data) ]))
              false))
    (fun error =>
       ret (mkResult
              (Plain ("Error updating document: " ++ errorMessage error)%string)
              true)).

(** *** getDocument *)

(** The text item of a [getDocument] result: a plain message, or
    [JSON.stringify(doc, null, 2)] of the document given. *)
Inductive DocumentText : Type :=
| Message (text : string)
| StringifiedDocument (doc : ReaderDocument).

Record DocumentResult : Type := mkDocumentResult {
  document_content : DocumentText;
  document_isError : bool
}.

(** [`https://readwise.io/api/v3/list/?id=${documentId}&withHtmlContent=true`]:
    the template writes the query into the URL, which is kept whole here. *)
Definition documentUrl (documentId : string) : string :=
  ("https://readwise.io/api/v3/list/?id=" ++ documentId
   ++ "&withHtmlContent=true")%string.

Definition getDocument (this_props : Props) (documentId : string)
  : M DocumentResult :=
  tryCatch
    (response <-
       fetch (mkRequest GET (documentUrl documentId) []
                (authorization this_props) None) ;;
     if negb (ok response) then throw (apiRequestFailed response)
     else
       data <- jsonList response ;;
       match results data with
       | [] => ret (mkDocumentResult (Message "Document not found") true)
       | doc :: _ => ret (mkDocumentResult (StringifiedDocument doc) false)
       end)
    (fun error =>
       ret (mkDocumentResult
              (Message ("Error fetching document: " ++ errorMessage error)%string)
              true)).

(** *** deleteDocument *)

Definition deleteDocument (this_props : Props) (documentId : string)
  : M ToolResult :=
  tryCatch
    (response <-
       fetch (mkRequest DELETE
                ("https://readwise.io/api/v3/delete/" ++ documentId ++ "/")%string
                [] (authorization this_props) None) ;;
     if negb (ok response) then throw (apiRequestFailed response)
     else
       ret (mkResult
              (Stringified
                 (JObj
                    [ ("success", JBool true);
                      ("message", JStr "Document deleted successfully");
                      ("documentId", JStr documentId) ]))
              false))
    (fun error =>
       ret (mkResult
              (Plain ("Error deleting document: " ++ errorMessage error)%string)
              true)).

(** *** tagList *)

Definition tagsEndpoint : string := "https://readwise.io/api/v3/tags/".

(** The loop of [tagList]; [params] is a fresh object in every round. *)
Fixpoint tagListLoop (fuel : nat) (this_props : Props) (limit : Z)
  (allTags : list ReaderTag) (nextPageCursor : option string)
  (totalFetched : Z) : M (list ReaderTag) :=
  match fuel with
  | O => outOfFuel
  | S fuel' =>
      let params : URLSearchParams := [] in
      let params := setIf params "pageCursor" nextPageCursor in
      response <-
        fetch (mkRequest GET tagsEndpoint params (authorization this_props)
                 None) ;;
      if negb (ok response) then throw (apiRequestFailed response)
      else
        data <- jsonTags response ;;
        let remainingSpace := limit - totalFetched in
        let tagsToAdd := slice (tags_results data) 0 remainingSpace in
        let allTags := allTags ++ tagsToAdd in
        let totalFetched := totalFetched + Z.of_nat (List.length tagsToAdd) in
        if (totalFetched >=? limit)
           || negb (truthy (tags_nextPageCursor data))
        then ret allTags
        else
          tagListLoop fuel' this_props limit allTags
            (tags_nextPageCursor data) totalFetched
  end.

Definition tagJson (t : ReaderTag) : Json :=
  JObj [ ("key", JStr (key t)); ("name", JStr (name t)) ].

Definition tagList (fuel : nat) (this_props : Props) (limit : Z)
  : M ToolResult :=
  tryCatch
    (allTags <- tagListLoop fuel this_props limit [] None 0 ;;
     ret (mkResult
            (Stringified
               (JObj [ ("tags", JArr (map tagJson allTags));
                       ("count", JNum (Z.of_nat (List.length allTags))) ]))
            false))
    (fun error =>
       ret (mkResult
              (Plain ("Error fetching tags: " ++ errorMessage error)%string)
              true)).

End ReaderMcp.

(** ** The listing tools at any limit the schema admits *)

(** The schema of [limit] is [z.number().min(1).max(100)]: any number from
    1 to 100 passes, 2.5 as well as 3.  The two listing tools are given
    here with [limit] a number.  A rational stands for the binary64 number:
    for a limit that passes the schema and a count of items, the
    subtraction [limit - totalFetched] and the comparison
    [totalFetched >= limit] are exact. *)
Module NumberLimit.

Import ReaderMcp.

(** [z.number().min(1).max(100)] *)
Definition limitSchema (n : Q) : bool := Qle_bool 1 n && Qle_bool n 100.

(** The integer [slice] makes of its end index: the number without its
    fraction. *)
Definition toInteger (x : Q) : Z :=
  if Qle_bool 0 x then Qfloor x else Qceiling x.

Record ListDocumentsArgs : Type := mkListArgs {
  list_location : option string;
  list_category : option string;
  list_tag : option string;
  list_updatedAfter : option string;
  limit : Q
}.

(** The loop of [listDocuments]. *)
Fixpoint listDocumentsLoop (fuel : nat) (this_props : Props) (limit : Q)
  (params : URLSearchParams) (allDocuments : list ReaderDocument)
  (nextPageCursor : option string) (totalFetched : Z)
  : M (list ReaderDocument) :=
  match fuel with
  | O => outOfFuel
  | S fuel' =>
      let params := setIf params "pageCursor" nextPageCursor in
      response <-
        fetch (mkRequest GET listEndpoint params (authorization this_props)
                 None) ;;
      if negb (ok response) then throw (apiRequestFailed response)
      else
        data <- jsonList response ;;
        let remainingSpace := (limit - inject_Z totalFetched)%Q in
        let documentsToAdd :=
          slice (results data) 0 (toInteger remainingSpace) in
        let allDocuments := allDocuments ++ documentsToAdd in
        let totalFetched :=
          totalFetched + Z.of_nat (List.length documentsToAdd) in
        if Qle_bool limit (inject_Z totalFetched)
           || negb (truthy (Runtime.nextPageCursor data))
        then ret allDocuments
        else
          listDocumentsLoop fuel' this_props limit params allDocuments
            (Runtime.nextPageCursor data) totalFetched
  end.

Definition listDocumentsOutput (a : ListDocumentsArgs)
  (allDocuments : list ReaderDocument) : Json :=
  let formattedDocuments := map formatDocument allDocuments in
  JObj
    [ ("documents", JArr formattedDocuments);
      ("count", JNum (Z.of_nat (List.length formattedDocuments)));
      ("filters",
       JObj (optionalField "location" (list_location a)
             ++ optionalField "category" (list_category a)
             ++ optionalField "tag" (list_tag a)
             ++ optionalField "updatedAfter" (list_updatedAfter a))) ].

Definition listDocuments (fuel : nat) (this_props : Props)
  (a : ListDocumentsArgs) : M ToolResult :=
  tryCatch
    (let params : URLSearchParams := [] in
     let params := appendIf params "location" (list_location a) in
     let params := appendIf params "category" (list_category a) in
     let params := appendIf params "tag" (list_tag a) in
     let params := appendIf params "updatedAfter" (list_updatedAfter a) in
     let params := append params "withHtmlContent" "true" in
     allDocuments <-
       listDocumentsLoop fuel this_props (limit a) params [] None 0 ;;
     ret (mkResult (Stringified (listDocumentsOutput a allDocuments)) false))
    (fun error =>
       ret (mkResult
              (Plain ("Error fetching documents: " ++ errorMessage error)%string)
              true)).

(** The loop of [tagList]. *)
Fixpoint tagListLoop (fuel : nat) (this_props : Props) (limit : Q)
  (allTags : list ReaderTag) (nextPageCursor : option string)
  (totalFetched : Z) : M (list ReaderTag) :=
  match fuel with
  | O => outOfFuel
  | S fuel' =>
      let params : URLSearchParams := [] in
      let params := setIf params "pageCursor" nextPageCursor in
      response <-
        fetch (mkRequest GET tagsEndpoint params (authorization this_props)
                 None) ;;
      if negb (ok response) then throw (apiRequestFailed response)
      else
        data <- jsonTags response ;;
        let remainingSpace := (limit - inject_Z totalFetched)%Q in
        let tagsToAdd :=
          slice (tags_results data) 0 (toInteger remainingSpace) in
        let allTags := allTags ++ tagsToAdd in
        let totalFetched := totalFetched + Z.of_nat (List.length tagsToAdd) in
        if Qle_bool limit (inject_Z totalFetched)
           || negb (truthy (tags_nextPageCursor data))
        then ret allTags
        else
          tagListLoop fuel' this_props limit allTags
            (tags_nextPageCursor data) totalFetched
  end.

Definition tagList (fuel : nat) (this_props : Props) (limit : Q)
  : M ToolResult :=
  tryCatch
    (allTags <- tagListLoop fuel this_props limit [] None 0 ;;
     ret (mkResult
            (Stringified
               (JObj [ ("tags", JArr (map tagJson allTags));
                       ("count", JNum (Z.of_nat (List.length allTags))) ]))
            false))
    (fun error =>
       ret (mkResult
              (Plain ("Error fetching tags: " ++ errorMessage error)%string)
              true)).

(** The call of the whole-number model that a call with a whole limit
    amounts to. *)
Definition ofWhole (a : ReaderMcp.ListDocumentsArgs) : ListDocumentsArgs :=
  mkListArgs (ReaderMcp.list_location a) (ReaderMcp.list_category a)
    (ReaderMcp.list_tag a) (ReaderMcp.list_updatedAfter a)
    (inject_Z (ReaderMcp.limit a)).

End NumberLimit.

(** ** The earlier [MyMCP], kept beside the current one *)

Module LegacyMcp.

Import ReaderMcp.

(** [listDocuments] of the earlier module: the query has no
    [withHtmlContent]; the loop, the formatting and the [catch] clause have
    the text of the current ones. *)
Definition listDocuments (fuel : nat) (this_props : Props)
  (a : ListDocumentsArgs) : M ToolResult :=
  tryCatch
    (let params : URLSearchParams := [] in
     let params := appendIf params "location" (list_location a) in
     let params := appendIf params "category" (list_category a) in
     let params := appendIf params "tag" (list_tag a) in
     let params := appendIf params "updatedAfter" (list_updatedAfter a) in
     allDocuments <-
       listDocumentsLoop fuel this_props (limit a) params [] None 0 ;;
     ret (mkResult (Stringified (listDocumentsOutput a allDocuments)) false))
    (fun error =>
       ret (mkResult
              (Plain ("Error fetching documents: " ++ errorMessage error)%string)
              true)).

(** [`https://readwise.io/api/v3/list/?id=${documentId}`] *)
Definition documentUrl (documentId : string) : string :=
  ("https://readwise.io/api/v3/list/?id=" ++ documentId)%string.

Definition getDocument (this_props : Props) (documentId : string)
  : M DocumentResult :=
  tryCatch
    (response <-
       fetch (mkRequest GET (documentUrl documentId) []
                (authorization this_props) None) ;;
     if negb (ok response) then throw (apiRequestFailed response)
     else
       data <- jsonList response ;;
       match results data with
       | [] => ret (mkDocumentResult (Message "Document not found") true)
       | doc :: _ => ret (mkDocumentResult (StringifiedDocument doc) false)
       end)
    (fun error =>
       ret (mkDocumentResult
              (Message ("Error fetching document: " ++ errorMessage error)%string)
              true)).

End LegacyMcp.

(** ** The handler of [POST /authorize] *)

Module ReaderHandler.

(** [FormData]: the entries of the submitted form, in order. *)
Definition FormData : Type := list (string * string).

(** [formData.get(name)]: the first value under [name], or null. *)
Fixpoint get (formData : FormData) (name : string) : option string :=
  match formData with
  | [] => None
  | (k, v) :: rest => if (k =? name)%string then Some v else get rest name
  end.

(** The incoming request.  [form] is [None] when the body does not parse
    as form data, in which case [c.req.formData()] rejects. *)
Record HttpRequest : Type := mkHttpRequest {
  cookie : string;
  form : option FormData
}.

(** The HTML of the token entry page; the only part that varies is the
    request embedded in its hidden [state] field. *)
Inductive Page : Type :=
| TokenEntryHtml (oauthReqInfo : AuthRequest).

Inductive HttpResponse : Type :=
| Text (body : string) (status : Z)          (* [c.text(body, status)] *)
| Redirect (redirectTo : string)             (* [Response.redirect(redirectTo)] *)
| Html (body : Page) (headers : list (string * string)).

(** [renderTokenEntryPage] *)
Definition renderTokenEntryPage (oauthReqInfo : AuthRequest) : HttpResponse :=
  Html (TokenEntryHtml oauthReqInfo)
    [("Content-Type", "text/html; charset=utf-8")].

(** [{ ...headers, "Content-Type": value }] *)
Fixpoint withHeader (headers : list (string * string)) (name value : string)
  : list (string * string) :=
  match headers with
  | [] => [(name, value)]
  | (k, v) :: rest =>
      if (k =? name)%string then (k, value) :: rest
      else (k, v) :: withHeader rest name value
  end.

Definition liftExn {A : Type} (r : Exn + A) : M A :=
  match r with
  | inr a => ret a
  | inl e => throw e
  end.

Definition verifyRequest (apiToken : string) : Request :=
  mkRequest GET "https://readwise.io/api/v2/auth/" []
    [("Authorization", ("Token " ++ apiToken)%string)] None.

Definition userRequest (apiToken : string) : Request :=
  mkRequest GET "https://readwise.io/api/v3/list/" [("pageCursor", "")]
    [("Authorization", ("Token " ++ apiToken)%string)] None.

Section Handler.

(** [JSON.parse(atob(state)) as AuthRequest], which throws on a value that
    does not decode. *)
Variable decodeState : option string -> Exn + AuthRequest.

(** [parseRedirectApproval(request, env.COOKIE_ENCRYPTION_KEY)] of
    [workers-oauth-utils]: the recovered [state.oauthReqInfo] and the
    headers to set, or a rejection.  It is handed the request and the
    cookie key only. *)
Variable parseRedirectApproval :
  HttpRequest -> Exn + (option AuthRequest * list (string * string)).

(** The token submission branch, entered with a truthy [apiToken]. *)
Definition tokenSubmission (formData : FormData) (apiToken : string)
  : M HttpResponse :=
  let state := get formData "state" in
  oauthReqInfo <- liftExn (decodeState state) ;;
  verifyResponse <- fetch (verifyRequest apiToken) ;;
  if negb (status verifyResponse =? 204) then ret (Text "Invalid API token" 400)
  else
    userResponse <- fetch (userRequest apiToken) ;;
    if negb (ok userResponse) then ret (Text "Failed to fetch user data" 500)
    else
      t <- Date_now ;;
      redirectTo <-
        completeAuthorization
          (mkOptions "Readwise Reader User" (mkProps apiToken) oauthReqInfo
             (scope oauthReqInfo)
             ("reader_user_" ++ numberToString t)%string) ;;
      ret (Redirect redirectTo).

(** The approval submission branch. *)
Definition approvalSubmission (request : HttpRequest) : M HttpResponse :=
  approval <- liftExn (parseRedirectApproval request) ;;
  match fst approval with
  | None => ret (Text "Invalid request" 400)
  | Some oauthReqInfo =>
      (* the body of [renderTokenEntryPage(state.oauthReqInfo)] under the
         approval headers *)
      ret (Html (TokenEntryHtml oauthReqInfo)
             (withHeader (snd approval) "Content-Type"
                "text/html; charset=utf-8"))
  end.

(** [app.post("/authorize", ...)] *)
Definition postAuthorize (c_req : HttpRequest) : M HttpResponse :=
  let request := c_req in
  let formData := form c_req in
  let apiToken :=
    match formData with
    | Some f => get f "apiToken"
    | None => None
    end in
  match apiToken, formData with
  | Some token, Some f =>
      if truthy apiToken then tokenSubmission f token
      else approvalSubmission request
  | _, _ => approvalSubmission request
  end.

End Handler.

End ReaderHandler.

(** ** Scripted upstreams *)

Module Mock.

Import ReaderMcp.

(** An upstream that answers the k-th request with the k-th page of a
    listing, status 200, and refuses the connection once the pages are
    used up. *)
Definition servePages {A : Type} (wrap : A -> Body) (pages : list A)
  : Upstream :=
  fun earlier _ =>
    match nth_error pages (List.length earlier) with
    | Some page => Responds (mkResponse 200 "OK" (wrap page))
    | None => Rejects (JsError "fetch failed")
    end.

(** An upstream that serves the pages of a listing and answers [after]
    to every request that follows. *)
Definition servePagesThen {A : Type} (wrap : A -> Body) (pages : list A)
  (after : FetchOutcome) : Upstream :=
  fun earlier _ =>
    match nth_error pages (List.length earlier) with
    | Some page => Responds (mkResponse 200 "OK" (wrap page))
    | None => after
    end.

(** An upstream that gives the same response to every request. *)
Definition always (r : Response) : Upstream := fun _ _ => Responds r.

(** An upstream fixed by the statuses of its successive responses. *)
Definition statuses (codes : list Z) : Upstream :=
  fun earlier _ =>
    match nth_error codes (List.length earlier) with
    | Some code => Responds (mkResponse code "" NoBody)
    | None => Rejects (JsError "fetch failed")
    end.

Definition env (u : Upstream) : Env :=
  mkEnv u (fun o => inr ("https://client.example/callback?user=" ++ userId o)%string)
    1700000000000.

Definition document (id : string) (summary : option string)
  (reading_progress : float) : ReaderDocument :=
  mkDocument id "https://example.com/a" "https://example.com/a" "A title"
    (Some "An author") "reader" "article" "new" None "example.com" 1200
    "2024-01-01T00:00:00Z" "2024-01-02T00:00:00Z" "" None summary "" None
    reading_progress None None "2024-01-01T00:00:00Z" "2024-01-01T00:00:00Z".

Definition docs (ids : list string) : list ReaderDocument :=
  map (fun i => document i None 0%float) ids.

Definition listArgs (limit : Z) : ListDocumentsArgs :=
  mkListArgs None None None None limit.

Definition props : Props := mkProps "readwise_token".

End Mock.

(** ** The shape of the two listing loops *)

(** The two listing loops differ in the endpoint, in how the query string
    of the next request is made and in the type of the items; [paginateLoop]
    is their common shape, over which the loop is analysed once. *)
Section Pagination.

Context {P A : Type}.
Variable endpoint : string.
Variable nextParams : URLSearchParams -> option string -> URLSearchParams.
Variable parse : Response -> M P.
Variable cursorOf : P -> option string.
Variable itemsOf : P -> list A.

Fixpoint paginateLoop (fuel : nat) (this_props : Props) (limit : Z)
  (params : URLSearchParams) (all : list A) (nextPageCursor : option string)
  (totalFetched : Z) : M (list A) :=
  match fuel with
  | O => outOfFuel
  | S fuel' =>
      let params := nextParams params nextPageCursor in
      response <-
        fetch (mkRequest GET endpoint params
                 (ReaderMcp.authorization this_props) None) ;;
      if negb (ok response) then throw (apiRequestFailed response)
      else
        data <- parse response ;;
        let remainingSpace := limit - totalFetched in
        let toAdd := slice (itemsOf data) 0 remainingSpace in
        let all := all ++ toAdd in
        let totalFetched := totalFetched + Z.of_nat (List.length toAdd) in
        if (totalFetched >=? limit) || negb (truthy (cursorOf data))
        then ret all
        else
          paginateLoop fuel' this_props limit params all (cursorOf data)
            totalFetched
  end.

(** The items of the pages up to page [k], in page order. *)
Definition itemsThrough (pages : list P) (k : nat) : list A :=
  List.concat (map itemsOf (firstn (S k) pages)).

(** The loop is done with page [k]: the items read so far fill the limit,
    or the page has no cursor to a next one. *)
Definition stopsAt (limit : Z) (pages : list P) (k : nat) : Prop :=
  limit <= Z.of_nat (List.length (itemsThrough pages k))
  \/ exists page : P,
       nth_error pages k = Some page /\ truthy (cursorOf page) = false.

End Pagination.

(** The requests the loop issues while it reads [pages] one after the
    other, starting from the query [params] and the cursor [cursor]. *)
Section LoopRequests.

Context {P : Type}.
Variable endpoint : string.
Variable nextParams : URLSearchParams -> option string -> URLSearchParams.
Variable cursorOf : P -> option string.

Fixpoint requestsFor (this_props : Props) (params : URLSearchParams)
  (cursor : option string) (pages : list P) : list Request :=
  match pages with
  | [] => []
  | page :: rest =>
      let params := nextParams params cursor in
      mkRequest GET endpoint params (ReaderMcp.authorization this_props) None
      :: requestsFor this_props params (cursorOf page) rest
  end.

End LoopRequests.

(** The common shape of the two loops of [NumberLimit]. *)
Section PaginationAt.

Context {P A : Type}.
Variable endpoint : string.
Variable nextParams : URLSearchParams -> option string -> URLSearchParams.
Variable parse : Response -> M P.
Variable cursorOf : P -> option string.
Variable itemsOf : P -> list A.

Fixpoint paginateLoopAt (fuel : nat) (this_props : Props) (limit : Q)
  (params : URLSearchParams) (all : list A) (nextPageCursor : option string)
  (totalFetched : Z) : M (list A) :=
  match fuel with
  | O => outOfFuel
  | S fuel' =>
      let params := nextParams params nextPageCursor in
      response <-
        fetch (mkRequest GET endpoint params
                 (ReaderMcp.authorization this_props) None) ;;
      if negb (ok response) then throw (apiRequestFailed response)
      else
        data <- parse response ;;
        let remainingSpace := (limit - inject_Z totalFetched)%Q in
        let toAdd :=
          slice (itemsOf data) 0 (NumberLimit.toInteger remainingSpace) in
        let all := all ++ toAdd in
        let totalFetched := totalFetched + Z.of_nat (List.length toAdd) in
        if Qle_bool limit (inject_Z totalFetched)
           || negb (truthy (cursorOf data))
        then ret all
        else
          paginateLoopAt fuel' this_props limit params all (cursorOf data)
            totalFetched
  end.

(** What the loop has accumulated when it is through with page [k]: of
    the items of the pages up to [k], as many as the whole part of the
    limit allows. *)
Definition keptThrough (limit : Q) (pages : list P) (k : nat) : list A :=
  firstn (Z.to_nat (Qfloor limit)) (itemsThrough itemsOf pages k).

(** The loop is done with page [k]: the count of the items accumulated has
    reached the limit, or the page has no cursor to a next one. *)
Definition doneAt (limit : Q) (pages : list P) (k : nat) : Prop :=
  (limit <= inject_Z (Z.of_nat (List.length (keptThrough limit pages k))))%Q
  \/ exists page : P,
       nth_error pages k = Some page /\ truthy (cursorOf page) = false.

End PaginationAt.

(** ** Vocabulary of the statements *)

Module Spec.

Import ReaderMcp ReaderHandler.

(** The caller passed the optional argument. *)
Definition isSupplied {A : Type} (v : option A) : bool :=
  match v with
  | Some _ => true
  | None => false
  end.

(** The optional parameters of [createDocument], each under the key it
    takes in the payload, with whether the caller supplied it. *)
Definition suppliedOptional (a : CreateDocumentArgs) : list (string * bool) :=
  [ ("html", isSupplied (create_html a));
    ("should_clean_html", isSupplied (create_should_clean_html a));
    ("title", isSupplied (create_title a));
    ("author", isSupplied (create_author a));
    ("summary", isSupplied (create_summary a));
    ("published_date", isSupplied (create_published_date a));
    ("image_url", isSupplied (create_image_url a));
    ("location", isSupplied (create_location a));
    ("category", isSupplied (create_category a));
    ("saved_using", isSupplied (create_saved_using a));
    ("tags", isSupplied (create_tags a));
    ("notes", isSupplied (create_notes a)) ].

(** The request [deleteDocument] sends. *)
Definition deleteRequest (this_props : Props) (documentId : string)
  : Request :=
  mkRequest DELETE
    ("https://readwise.io/api/v3/delete/" ++ documentId ++ "/")%string
    [] (authorization this_props) None.

(** A list request that asks for the HTML content. *)
Definition asksForHtml (r : Request) : Prop :=
  method r = GET
  /\ url r = "https://readwise.io/api/v3/list/"
  /\ In ("withHtmlContent", "true") (search r).

Definition documentPages : Type := list ReaderListResponse.
Definition tagPages : Type := list ReaderTagsResponse.

(** [listDocuments] is done with page [k] of the listing. *)
Definition documentsStopAt (limit : Z) (pages : documentPages) (k : nat)
  : Prop :=
  stopsAt nextPageCursor results limit pages k.

(** [tagList] is done with page [k] of the tags. *)
Definition tagsStopAt (limit : Z) (pages : tagPages) (k : nat) : Prop :=
  stopsAt tags_nextPageCursor tags_results limit pages k.

(** The authorization that a verified submission of [token] completes. *)
Definition grantFor (token : string) (info : AuthRequest) (env : Env)
  : CompleteAuthorizationOptions :=
  mkOptions "Readwise Reader User" (mkProps token) info (scope info)
    ("reader_user_" ++ numberToString (now env))%string.

(** The optional string parameters of [createDocument], under their
    payload keys. *)
Definition createStrings (a : CreateDocumentArgs)
  : list (string * option string) :=
  [ ("html", create_html a);
    ("title", create_title a);
    ("author", create_author a);
    ("summary", create_summary a);
    ("published_date", create_published_date a);
    ("image_url", create_image_url a);
    ("location", create_location a);
    ("category", create_category a);
    ("saved_using", create_saved_using a);
    ("notes", create_notes a) ].

(** The parameters of [updateDocument] that go into the payload. *)
Definition updateStrings (a : UpdateDocumentArgs)
  : list (string * option string) :=
  [ ("title", update_title a);
    ("author", update_author a);
    ("summary", update_summary a);
    ("published_date", update_published_date a);
    ("image_url", update_image_url a);
    ("location", update_location a);
    ("category", update_category a) ].

(** The request [updateDocument] sends, for a given body. *)
Definition updateRequest (this_props : Props) (documentId : string)
  (payload : Json) : Request :=
  mkRequest PATCH
    ("https://readwise.io/api/v3/update/" ++ documentId ++ "/")%string []
    (authorization this_props ++ [("Content-Type", "application/json")])
    (Some payload).

(** The request [createDocument] sends, for a given body. *)
Definition createRequest (this_props : Props) (payload : Json) : Request :=
  mkRequest POST "https://readwise.io/api/v3/save/" []
    (authorization this_props ++ [("Content-Type", "application/json")])
    (Some payload).

(** The request [getDocument] sends. *)
Definition documentRequest (this_props : Props) (documentId : string)
  : Request :=
  mkRequest GET
    ("https://readwise.io/api/v3/list/?id=" ++ documentId
     ++ "&withHtmlContent=true")%string
    [] (authorization this_props) None.

(** The result a tool returns from its [catch] clause: the message
    behind the tool's own prefix, flagged as an error. *)
Definition toolError (prefix message : string) : ToolResult :=
  mkResult (Plain (prefix ++ ": " ++ message)%string) true.

(** [`API request failed: ${status} ${statusText}`] for a response. *)
Definition failureMessage (r : Response) : string :=
  ("API request failed: " ++ numberToString (status r) ++ " "
   ++ statusText r)%string.

(** The object [createDocument] and [updateDocument] return on success. *)
Definition savedOutput (message : string) (data : Json) : Json :=
  JObj [ ("success", JBool true);
         ("message", JStr message);
         ("document", data) ].

(** The pair a request carries for the cursor of the page before it:
    none when there is no page before it. *)
Definition cursorPair (cursor : option string) : URLSearchParams :=
  match cursor with
  | Some c => if (c =? "")%string then [] else [("pageCursor", c)]
  | None => []
  end.

(** The pair a request of [listDocuments] carries for a filter. *)
Definition filterPair (name : string) (v : option string) : URLSearchParams :=
  match v with
  | Some s => if (s =? "")%string then [] else [(name, s)]
  | None => []
  end.

(** The query common to the requests of a call of [listDocuments]. *)
Definition filterQuery (a : ListDocumentsArgs) : URLSearchParams :=
  filterPair "location" (list_location a)
  ++ filterPair "category" (list_category a)
  ++ filterPair "tag" (list_tag a)
  ++ filterPair "updatedAfter" (list_updatedAfter a)
  ++ [("withHtmlContent", "true")].

(** All the pages of a listing carry a cursor to a next page. *)
Definition allPointOn {P : Type} (cursorOf : P -> option string)
  (pages : list P) : Prop :=
  Forall (fun page => truthy (cursorOf page) = true) pages.

(** The output of [tagList] for the tags found. *)
Definition tagListOutput (found : list ReaderTag) : Json :=
  JObj [ ("tags", JArr (map tagJson found));
         ("count", JNum (Z.of_nat (List.length found))) ].

(** The request goes to the Reader API and bears the token of the
    session in its one [Authorization] header. *)
Definition bearsToken (this_props : Props) (r : Request) : Prop :=
  String.prefix "https://readwise.io/api/v3/" (url r) = true
  /\ exists others : list (string * string),
       headers r
       = ("Authorization", ("Token " ++ apiToken this_props)%string) :: others
       /\ Forall (fun h => fst h <> "Authorization") others.

(** No pair of the query is called [name]. *)
Definition lacks (name : string) (params : URLSearchParams) : Prop :=
  Forall (fun pair => (fst pair =? name)%string = false) params.

(** The upstream answers by the number of requests it has received, without
    looking at them. *)
Definition answersByTurn (u : Upstream) : Prop :=
  forall (h1 h2 : list Request) (r1 r2 : Request),
    List.length h1 = List.length h2 -> u h1 r1 = u h2 r2.

(** The request to delete or fetch goes without a body to the list
    endpoint and has no [withHtmlContent] pair. *)
Definition plainListRequest (r : Request) : Prop :=
  method r = GET
  /\ url r = "https://readwise.io/api/v3/list/"
  /\ forall v : string, ~ In ("withHtmlContent", v) (search r).

(** A request of a listing loop: a GET of the endpoint, with the session's
    token and no body. *)
Definition loopRequest (endpoint : string) (this_props : Props)
  (r : Request) : Prop :=
  method r = GET /\ url r = endpoint
  /\ headers r = authorization this_props /\ body r = None.

(** The request the earlier [getDocument] sends. *)
Definition legacyDocumentRequest (this_props : Props) (documentId : string)
  : Request :=
  mkRequest GET ("https://readwise.io/api/v3/list/?id=" ++ documentId)%string
    [] (authorization this_props) None.

(** The limit has no fraction. *)
Definition isWhole (limit : Q) : Prop :=
  (limit == inject_Z (Qfloor limit))%Q.

(** [listDocuments], at any limit, is done with page [k]. *)
Definition documentsDoneAt (limit : Q) (pages : documentPages) (k : nat)
  : Prop :=
  doneAt nextPageCursor results limit pages k.

(** [tagList], at any limit, is done with page [k]. *)
Definition tagsDoneAt (limit : Q) (pages : tagPages) (k : nat) : Prop :=
  doneAt tags_nextPageCursor tags_results limit pages k.

End Spec.

(** ** Sample inputs *)

Module Sample.

Import ReaderMcp ReaderHandler.

Definition onlyUrl : CreateDocumentArgs :=
  mkCreateArgs "https://example.com/post" None None None None None None None
    None None None None None.

(** Three pages of a listing: two documents, two documents, one document. *)
Definition page1 : ReaderListResponse :=
  mkListResponse 5 (Some "cursor-1") (Mock.docs ["a"; "b"]).
Definition page2 : ReaderListResponse :=
  mkListResponse 5 (Some "cursor-2") (Mock.docs ["c"; "d"]).
Definition page3 : ReaderListResponse :=
  mkListResponse 5 None (Mock.docs ["e"]).

Definition tagPage1 : ReaderTagsResponse :=
  mkTagsResponse 3 (Some "cursor-1") [mkTag "rocq" "Rocq"; mkTag "ts" "TS"].
Definition tagPage2 : ReaderTagsResponse :=
  mkTagsResponse 3 None [mkTag "mcp" "MCP"].

Definition listingEnv : Env :=
  Mock.env (Mock.servePages ListBody ([page1; page2] ++ [page3])).

Definition tagsEnv : Env :=
  Mock.env (Mock.servePages TagsBody ([tagPage1] ++ [tagPage2])).

(** The ids of the documents in a result of [listDocuments]. *)
Definition listedIds (r : Res ToolResult) : list (option Json) :=
  match r with
  | Val (mkResult (Stringified out) _) =>
      match property "documents" out with
      | Some (JArr documents) => map (property "id") documents
      | _ => []
      end
  | _ => []
  end.

(** A summary of 105 characters. *)
Definition longSummary : string :=
  String.concat "" (repeat "abcde" 21).

(** A page without items that points to a next page. *)
Definition endlessPage : ReaderListResponse :=
  mkListResponse 0 (Some "again") [].

Definition sampleAuthRequest : AuthRequest :=
  mkAuthRequest "code" "client-1" "https://client.example/callback"
    ["read"] "xyz".

(** A decoder that recovers [sampleAuthRequest] from any state, and an
    approval parser that rejects: the examples submit tokens only. *)
Definition sampleDecode (state : option string) : Exn + AuthRequest :=
  inr sampleAuthRequest.

Definition noApproval (r : HttpRequest)
  : Exn + (option AuthRequest * list (string * string)) :=
  inl (JsError "Invalid request").

Definition tokenForm (token : string) : HttpRequest :=
  mkHttpRequest "" (Some [("state", "eyJ9"); ("apiToken", token)]).

(** The world after two token submissions handled one after the other:
    two users, each with a token the upstream accepts. *)
Definition twoVerifications (env : Env) : World :=
  snd (postAuthorize sampleDecode noApproval (tokenForm "readwise_bob") env
         (snd (postAuthorize sampleDecode noApproval
                 (tokenForm "readwise_alice") env emptyWorld))).

(** A call of [createDocument] with a title, an empty author, cleaning
    switched off and an empty list of tags. *)
Definition articleToSave : CreateDocumentArgs :=
  mkCreateArgs "https://example.com/post" None (Some false)
    (Some "On pagination") (Some "") None None None None None None (Some [])
    None.

(** Answers to a [getDocument] request: two documents, and none. *)
Definition twoFound : ReaderListResponse :=
  mkListResponse 2 None (Mock.docs ["b"; "c"]).
Definition noneFound : ReaderListResponse := mkListResponse 0 None [].



(** An upstream that serves two pages and then fails. *)
Definition failingEnv : Env :=
  Mock.env
    (Mock.servePagesThen ListBody [page1; page2]
       (Responds (mkResponse 502 "Bad Gateway" NoBody))).

(** A call of [listDocuments] without filters, at a limit that may have a
    fraction. *)
Definition listArgsAt (limit : Q) : NumberLimit.ListDocumentsArgs :=
  NumberLimit.mkListArgs None None None None limit.


End Sample.

Import Spec Sample.

(** * Properties *)

(** ** Facts about the JavaScript primitives *)

Section JsFacts.

Lemma stdlib_substring_all (s : string) (n : nat) :
  (String.length s <= n)%nat -> String.substring 0 n s = s.
Proof.
  revert n. induction s as [| c s IH]; intros n Hn.
  - destruct n; reflexivity.
  - destruct n as [| n]; simpl in *; [lia |].
    rewrite IH by lia. reflexivity.
Qed.

Lemma stdlib_substring_length (s : string) (n : nat) :
  (n <= String.length s)%nat -> String.length (String.substring 0 n s) = n.
Proof.
  revert n. induction s as [| c s IH]; intros n Hn.
  - destruct n; simpl in *; [reflexivity | lia].
  - destruct n as [| n]; simpl in *; [reflexivity |].
    rewrite IH by lia. reflexivity.
Qed.

(** [s.substring(0, n)] keeps the first [n] code units, or all of [s]. *)
Lemma substring_prefix (s : string) (n : Z) :
  0 <= n ->
  substring s 0 n = String.substring 0 (Z.to_nat n) s.
Proof.
  intros Hn. unfold substring.
  set (len := Z.of_nat (String.length s)).
  assert (Hlen : 0 <= len) by (unfold len; lia).
  replace (Z.min (Z.max 0 0) len) with 0 by lia.
  replace (Z.max n 0) with n by lia.
  replace (Z.min 0 (Z.min n len)) with 0 by lia.
  replace (Z.max 0 (Z.min n len)) with (Z.min n len) by lia.
  rewrite Z.sub_0_r. change (Z.to_nat 0) with 0%nat.
  destruct (Z.le_gt_cases n len) as [Hle | Hgt].
  - rewrite Z.min_l by lia. reflexivity.
  - rewrite Z.min_r by lia. unfold len. rewrite Nat2Z.id.
    rewrite !stdlib_substring_all by lia. reflexivity.
Qed.

(** [l.slice(0, n)] with [n >= 0] keeps the first [n] items. *)
Lemma slice_prefix {A : Type} (l : list A) (n : Z) :
  0 <= n -> slice l 0 n = firstn (Z.to_nat n) l.
Proof.
  intros Hn. unfold slice.
  destruct (0 <? 0) eqn:E0; [apply Z.ltb_lt in E0; lia |].
  destruct (n <? 0) eqn:En; [apply Z.ltb_lt in En; lia |].
  replace (Z.min 0 (Z.of_nat (List.length l))) with 0 by lia.
  rewrite Z.sub_0_r. change (Z.to_nat 0) with 0%nat. simpl skipn.
  destruct (Z.le_gt_cases n (Z.of_nat (List.length l))) as [Hle | Hgt].
  - rewrite Z.min_l by lia. reflexivity.
  - rewrite Z.min_r by lia. rewrite Nat2Z.id.
    rewrite firstn_all. symmetry. apply firstn_all2. lia.
Qed.

Lemma lookup_assign (payload : list (string * Json)) (k key : string)
  (value : Json) :
  lookup k (ReaderMcp.assign payload key value) =
  if (key =? k)%string then Some value else lookup k payload.
Proof.
  induction payload as [| [k0 v0] rest IH]; cbn [ReaderMcp.assign lookup].
  - reflexivity.
  - destruct (k0 =? key)%string eqn:E0; cbn [lookup].
    + apply String.eqb_eq in E0. subst k0.
      destruct (key =? k)%string; reflexivity.
    + rewrite IH. destruct (k0 =? k)%string eqn:E1; [| reflexivity].
      apply String.eqb_eq in E1. subst k0.
      rewrite String.eqb_sym, E0. reflexivity.
Qed.

Lemma lookup_assignIf (payload : list (string * Json)) (k key : string)
  (v : option string) :
  (key =? k)%string = false \/ v = None ->
  lookup k (ReaderMcp.assignIf payload key v) = lookup k payload.
Proof.
  intros H. unfold ReaderMcp.assignIf.
  destruct v as [s |]; [| reflexivity].
  destruct (truthy (Some s)); [| reflexivity].
  destruct H as [H | H]; [| discriminate].
  rewrite lookup_assign, H. reflexivity.
Qed.

Lemma set_keeps (p : URLSearchParams) (name value n v : string) :
  (n =? name)%string = false -> In (n, v) p -> In (n, v) (set p name value).
Proof.
  intros Hn. induction p as [| [n0 v0] rest IH]; cbn [set In]; intros Hin.
  - contradiction.
  - destruct (n0 =? name)%string eqn:E0; cbn [In].
    + right. apply filter_In. destruct Hin as [Heq | Hin].
      * inversion Heq; subst. congruence.
      * split; [exact Hin |]. cbn [fst]. rewrite Hn. reflexivity.
    + destruct Hin as [Heq | Hin]; [left; exact Heq | right; auto].
Qed.

(** Distinct integers print differently. *)
Lemma numberToString_inj (n m : Z) :
  numberToString n = numberToString m -> n = m.
Proof.
  unfold numberToString. intros H.
  assert (Hnil : forall z : Z,
             Z.to_int z <> Decimal.Pos Decimal.Nil
             /\ Z.to_int z <> Decimal.Neg Decimal.Nil).
  { intros [| q | q]; cbn; split; try discriminate;
      intros Hq; injection Hq as Hq;
      exact (DecimalPos.Unsigned.to_uint_nonnil q Hq). }
  apply DecimalZ.to_int_inj.
  apply (f_equal NilZero.int_of_string) in H.
  rewrite !NilZero.isi in H by apply Hnil.
  injection H as H. exact H.
Qed.

Lemma append_cancel (prefix a b : string) :
  (prefix ++ a)%string = (prefix ++ b)%string -> a = b.
Proof.
  induction prefix as [| c prefix IH]; cbn; intros H.
  - exact H.
  - injection H as H. apply IH, H.
Qed.

End JsFacts.

(** ** Formatting of a listed document *)

Section Formatting.

Import ReaderMcp.

(** C9.  A document whose upstream [reading_progress] is the fraction 0.734
    is listed with the [reading_progress] field equal to the whole number
    73: the fraction times 100, rounded to the nearest integer. *)
Theorem reading_progress_rounded (doc : ReaderDocument) :
  reading_progress doc = 0.734%float ->
  property "reading_progress" (formatDocument doc) = Some (JNum 73).
Proof.
  intros H. unfold formatDocument. cbn [property].
  unfold formatReadingProgress. rewrite H.
  vm_compute. reflexivity.
Qed.

Lemma reading_progress_rounded_witness :
  reading_progress (Mock.document "d1" None 0.734%float) = 0.734%float
  /\ property "reading_progress"
       (formatDocument (Mock.document "d1" None 0.734%float))
     = Some (JNum 73).
Proof.
  split; [reflexivity |].
  apply (reading_progress_rounded (Mock.document "d1" None 0.734%float)).
  reflexivity.
Defined.

Lemma formatted_summary_field (doc : ReaderDocument) :
  property "summary" (formatDocument doc)
  = Some (JStr (formatSummary (summary doc))).
Proof. reflexivity. Qed.

(** C6, as the spec states it, fails: a summary of at most 100 characters
    is not listed unchanged, the three dots are added to it as well. *)
Lemma short_summary_gets_dots :
  (String.length "A short summary" <= 100)%nat
  /\ property "summary"
       (formatDocument (Mock.document "d1" (Some "A short summary") 0%float))
     = Some (JStr "A short summary...")
  /\ property "summary"
       (formatDocument (Mock.document "d1" (Some "A short summary") 0%float))
     <> Some (JStr "A short summary").
Proof.
  split; [vm_compute; lia |]. split; [reflexivity | discriminate].
Qed.

(** C6, amended.  In the listing, a document with a non-empty summary shows
    the first 100 characters of the summary (the whole summary when it has
    at most 100 characters) followed by three dots; a document whose summary
    is absent or empty shows the literal "No summary". *)
Theorem summary_rendering (doc : ReaderDocument) :
  (forall s : string,
      summary doc = Some s -> s <> "" ->
      property "summary" (formatDocument doc)
      = Some (JStr (String.substring 0 100 s ++ "..."))
      /\ ((100 < String.length s)%nat ->
          String.length (String.substring 0 100 s) = 100%nat)
      /\ ((String.length s <= 100)%nat ->
          property "summary" (formatDocument doc)
          = Some (JStr (s ++ "..."))))
  /\ (summary doc = None \/ summary doc = Some "" ->
      property "summary" (formatDocument doc) = Some (JStr "No summary")).
Proof.
  rewrite formatted_summary_field. split.
  - intros s Hs Hne. rewrite Hs. unfold formatSummary, truthy.
    destruct (s =? "")%string eqn:E;
      [apply String.eqb_eq in E; contradiction |].
    cbn [negb]. rewrite substring_prefix by lia.
    change (Z.to_nat 100) with 100%nat.
    split; [reflexivity |]. split.
    + intros Hlong. apply stdlib_substring_length. lia.
    + intros Hshort. rewrite stdlib_substring_all by exact Hshort.
      reflexivity.
  - intros [H | H]; rewrite H; reflexivity.
Qed.

Lemma summary_rendering_witness :
  property "summary"
    (formatDocument (Mock.document "d1" (Some longSummary) 0%float))
  = Some (JStr (String.substring 0 100 longSummary ++ "..."))
  /\ String.length (String.substring 0 100 longSummary) = 100%nat
  /\ property "summary" (formatDocument (Mock.document "d2" None 0%float))
     = Some (JStr "No summary").
Proof.
  destruct (summary_rendering (Mock.document "d1" (Some longSummary) 0%float))
    as [Hsome _].
  destruct (Hsome longSummary eq_refl) as (Hout & Hlen & _);
    [discriminate |].
  destruct (summary_rendering (Mock.document "d2" None 0%float))
    as [_ Hnone].
  split; [exact Hout |].
  split; [apply Hlen; vm_compute; lia | apply Hnone; left; reflexivity].
Defined.

End Formatting.

(** ** createDocument and deleteDocument *)

Section SingleCallTools.

Import ReaderMcp.

Lemma createDocument_request (this_props : Props) (a : CreateDocumentArgs)
  (env : Env) (w : World) :
  requests (snd (createDocument this_props a env w))
  = requests w
    ++ [ mkRequest POST saveEndpoint []
           (authorization this_props ++ [("Content-Type", "application/json")])
           (Some (JObj (createPayload a))) ].
Proof.
  unfold createDocument, tryCatch, bind, fetch.
  destruct (upstream env (requests w) _) as [r | e]; [| reflexivity].
  destruct (negb (ok r)); [reflexivity |].
  unfold jsonCreate. destruct (json r); reflexivity.
Qed.

Ltac skip_assign :=
  repeat first
    [ rewrite lookup_assignIf
        by (first [left; reflexivity | right; reflexivity | right; assumption])
    | rewrite lookup_assign; cbn [String.eqb Ascii.eqb Bool.eqb] ].

Lemma payload_url (a : CreateDocumentArgs) :
  lookup "url" (createPayload a) = Some (JStr (create_url a)).
Proof.
  unfold createPayload.
  destruct (create_should_clean_html a), (create_tags a);
    skip_assign; reflexivity.
Qed.

Lemma payload_omits (a : CreateDocumentArgs) (key : string) :
  In (key, false) (suppliedOptional a) ->
  lookup key (createPayload a) = None.
Proof.
  unfold suppliedOptional. cbn [In].
  intros H.
  repeat match goal with
         | H : _ \/ _ |- _ => destruct H as [H | H]
         | H : False |- _ => contradiction
         end;
    injection H as <- Hs;
    match type of Hs with
    | isSupplied ?v = false =>
        destruct v eqn:Hv; [discriminate Hs | clear Hs]
    end;
    unfold createPayload; try rewrite Hv;
    destruct (create_should_clean_html a), (create_tags a);
    try discriminate;
    skip_assign; reflexivity.
Qed.

(** C7.  Whatever the arguments of [createDocument], the one request it
    sends is a POST to /api/v3/save/ whose JSON payload always has the key
    [url], and has no key at all for an optional parameter the caller did
    not supply. *)
Theorem createDocument_omits_unsupplied (this_props : Props)
  (a : CreateDocumentArgs) (env : Env) (w : World) (key : string) :
  In (key, false) (suppliedOptional a) ->
  exists payload : Json,
    requests (snd (createDocument this_props a env w))
    = requests w
      ++ [ mkRequest POST "https://readwise.io/api/v3/save/" []
             (authorization this_props
              ++ [("Content-Type", "application/json")])
             (Some payload) ]
    /\ property "url" payload = Some (JStr (create_url a))
    /\ hasKey key payload = false.
Proof.
  intros Hkey. exists (JObj (createPayload a)).
  split; [apply createDocument_request |].
  unfold hasKey. cbn [property].
  rewrite payload_url, (payload_omits a key Hkey). split; reflexivity.
Qed.

Lemma createDocument_omits_unsupplied_witness :
  exists payload : Json,
    requests (snd (createDocument Mock.props onlyUrl
                     (Mock.env (Mock.always (mkResponse 201 "Created" NoBody)))
                     emptyWorld))
    = requests emptyWorld
      ++ [ mkRequest POST "https://readwise.io/api/v3/save/" []
             (authorization Mock.props
              ++ [("Content-Type", "application/json")])
             (Some payload) ]
    /\ property "url" payload = Some (JStr (create_url onlyUrl))
    /\ hasKey "title" payload = false.
Proof.
  apply (createDocument_omits_unsupplied Mock.props onlyUrl
           (Mock.env (Mock.always (mkResponse 201 "Created" NoBody)))
           emptyWorld "title").
  simpl. tauto.
Defined.

End SingleCallTools.

Section DeleteDocument.

Import ReaderMcp.

Lemma deleteDocument_run (this_props : Props) (documentId : string)
  (env : Env) (w : World) (r : Response) :
  upstream env (requests w) (deleteRequest this_props documentId)
  = Responds r ->
  fst (deleteDocument this_props documentId env w)
  = if ok r
    then Val (mkResult
                (Stringified
                   (JObj [ ("success", JBool true);
                           ("message", JStr "Document deleted successfully");
                           ("documentId", JStr documentId) ]))
                false)
    else Val (mkResult
                (Plain ("Error deleting document: API request failed: "
                        ++ numberToString (status r) ++ " "
                        ++ statusText r)%string)
                true).
Proof.
  intros Hup. unfold deleteDocument, tryCatch, bind, fetch.
  fold (deleteRequest this_props documentId). rewrite Hup.
  destruct (ok r); reflexivity.
Qed.

(** C8.  When the upstream answers the DELETE with a success status,
    [deleteDocument] returns a result that is not an error and whose JSON
    has [success] true and [documentId] equal to the id the caller gave.
    When the upstream answers 404, it returns (it does not throw) a result
    flagged [isError] whose message contains the status code 404. *)
Theorem deleteDocument_results (this_props : Props) (documentId : string)
  (env : Env) (w : World) (r : Response) :
  upstream env (requests w) (deleteRequest this_props documentId)
  = Responds r ->
  (ok r = true ->
   exists out : Json,
     fst (deleteDocument this_props documentId env w)
     = Val (mkResult (Stringified out) false)
     /\ property "success" out = Some (JBool true)
     /\ property "documentId" out = Some (JStr documentId))
  /\ (status r = 404 ->
      exists before after : string,
        fst (deleteDocument this_props documentId env w)
        = Val (mkResult (Plain (before ++ "404" ++ after)%string) true)).
Proof.
  intros Hup. rewrite (deleteDocument_run _ _ _ _ _ Hup). split.
  - intros Hok. rewrite Hok. eexists. split; [reflexivity |].
    split; reflexivity.
  - intros H404. unfold ok. rewrite H404. cbn [Z.leb Z.compare andb].
    exists "Error deleting document: API request failed: ".
    exists (" " ++ statusText r)%string.
    reflexivity.
Qed.

Lemma deleteDocument_results_witness :
  (exists out : Json,
     fst (deleteDocument Mock.props "doc42"
            (Mock.env (Mock.always (mkResponse 204 "No Content" NoBody)))
            emptyWorld)
     = Val (mkResult (Stringified out) false)
     /\ property "success" out = Some (JBool true)
     /\ property "documentId" out = Some (JStr "doc42"))
  /\ (exists before after : string,
        fst (deleteDocument Mock.props "doc42"
               (Mock.env (Mock.always (mkResponse 404 "Not Found" NoBody)))
               emptyWorld)
        = Val (mkResult (Plain (before ++ "404" ++ after)%string) true)).
Proof.
  split.
  - apply (deleteDocument_results Mock.props "doc42"
             (Mock.env (Mock.always (mkResponse 204 "No Content" NoBody)))
             emptyWorld (mkResponse 204 "No Content" NoBody));
      reflexivity.
  - apply (deleteDocument_results Mock.props "doc42"
             (Mock.env (Mock.always (mkResponse 404 "Not Found" NoBody)))
             emptyWorld (mkResponse 404 "Not Found" NoBody));
      reflexivity.
Defined.

End DeleteDocument.

(** ** What listDocuments asks of the upstream *)

Section ListRequests.

Import ReaderMcp.

(** The world a handler leaves is the one its body leaves: neither the
    final [return] nor the [catch] clause touches it. *)
Lemma wrapped_world {A B : Type} (m : M A) (f : A -> B) (g : Exn -> B)
  (env : Env) (w : World) :
  snd (tryCatch (bind m (fun x => ret (f x))) (fun e => ret (g e)) env w)
  = snd (m env w).
Proof.
  unfold tryCatch, bind, ret.
  destruct (m env w) as [[a | e |] w']; reflexivity.
Qed.

Lemma wrapped_value {A B : Type} (m : M A) (f : A -> B) (g : Exn -> B)
  (env : Env) (w : World) (a : A) (w' : World) :
  m env w = (Val a, w') ->
  tryCatch (bind m (fun x => ret (f x))) (fun e => ret (g e)) env w
  = (Val (f a), w').
Proof.
  intros H. unfold tryCatch, bind, ret. rewrite H. reflexivity.
Qed.

Lemma setIf_keeps_html (params : URLSearchParams) (cursor : option string) :
  In ("withHtmlContent", "true") params ->
  In ("withHtmlContent", "true") (setIf params "pageCursor" cursor).
Proof.
  intros H. unfold setIf. destruct cursor as [c |]; [| exact H].
  destruct (truthy (Some c)); [| exact H].
  apply set_keeps; [reflexivity | exact H].
Qed.

Lemma listDocumentsLoop_requests (fuel : nat) (this_props : Props)
  (limit : Z) :
  forall (params : URLSearchParams) (acc : list ReaderDocument)
         (cursor : option string) (total : Z) (env : Env) (w : World),
    In ("withHtmlContent", "true") params ->
    exists issued : list Request,
      requests (snd (listDocumentsLoop fuel this_props limit params acc
                       cursor total env w))
      = requests w ++ issued
      /\ Forall asksForHtml issued
      /\ (fuel <> 0%nat -> issued <> []).
Proof.
  induction fuel as [| fuel IH]; intros params acc cursor total env w Hin.
  - exists []. cbn. rewrite app_nil_r. repeat split; auto; congruence.
  - cbn [listDocumentsLoop].
    set (params' := setIf params "pageCursor" cursor).
    set (req := mkRequest GET listEndpoint params'
                  (authorization this_props) None).
    assert (Hreq : asksForHtml req).
    { repeat split. apply setIf_keeps_html, Hin. }
    assert (Hone : forall (X : Type) (res : Res X),
               exists issued : list Request,
                 requests
                   (snd (res, mkWorld (requests w ++ [req]) (completions w)))
                 = requests w ++ issued
                 /\ Forall asksForHtml issued
                 /\ (S fuel <> 0%nat -> issued <> [])).
    { intros X res. exists [req]. cbn.
      repeat split; [constructor; [exact Hreq | constructor] | discriminate]. }
    unfold bind at 1. unfold fetch.
    destruct (upstream env (requests w) req) as [r | e]; [| apply Hone].
    destruct (negb (ok r)); [apply Hone |].
    unfold bind at 1. unfold jsonList.
    destruct (json r) as [| b | b | b | b]; try apply Hone.
    cbn [ret].
    match goal with
    | |- context [if ?c then _ else _] => destruct c
    end; [apply Hone |].
    match goal with
    | |- context [listDocumentsLoop fuel this_props limit params' ?a ?c ?t
                    env ?w1] =>
        destruct (IH params' a c t env w1 (setIf_keeps_html _ _ Hin))
          as (issued & Hw & Hall & _)
    end.
    exists (req :: issued). rewrite Hw. cbn [requests].
    rewrite <- app_assoc. repeat split.
    + constructor; assumption.
    + discriminate.
Qed.

(** C10.  Whatever the arguments (and whatever the upstream answers),
    every request [listDocuments] issues is a GET of /api/v3/list/ whose
    query string carries [withHtmlContent=true]; the arguments offer no
    way to leave it out. *)
Theorem listDocuments_always_asks_for_html (fuel : nat) (this_props : Props)
  (a : ListDocumentsArgs) (env : Env) (w : World) :
  exists issued : list Request,
    requests (snd (listDocuments fuel this_props a env w))
    = requests w ++ issued
    /\ Forall asksForHtml issued
    /\ (fuel <> 0%nat -> issued <> []).
Proof.
  unfold listDocuments. rewrite wrapped_world.
  apply listDocumentsLoop_requests.
  unfold append. apply in_or_app. right. left. reflexivity.
Qed.

End ListRequests.

(** ** The token submission of POST /authorize *)

Ltac run_handler :=
  cbv beta iota zeta
      delta [bind ret throw ReaderHandler.liftExn fetch Date_now
             completeAuthorization negb];
  cbn [requests completions snd fst].

Section Authorize.

Import ReaderHandler.

Variable decodeState : option string -> Exn + AuthRequest.
Variable parseRedirectApproval :
  HttpRequest -> Exn + (option AuthRequest * list (string * string)).

Local Abbreviation handler :=
  (postAuthorize decodeState parseRedirectApproval).

(** A form with a non-empty [apiToken] field is a token submission. *)
Lemma postAuthorize_token (c_req : HttpRequest) (f : FormData)
  (token : string) :
  form c_req = Some f -> get f "apiToken" = Some token -> token <> "" ->
  handler c_req = tokenSubmission decodeState f token.
Proof.
  intros Hf Htok Hne. unfold postAuthorize. rewrite Hf, Htok.
  unfold truthy. destruct (token =? "")%string eqn:E; [| reflexivity].
  apply String.eqb_eq in E. contradiction.
Qed.

(** The approval submission never reaches the provider. *)
Lemma approvalSubmission_world (c_req : HttpRequest) (env : Env) (w : World) :
  snd (approvalSubmission parseRedirectApproval c_req env w) = w.
Proof.
  unfold approvalSubmission, bind, liftExn.
  destruct (parseRedirectApproval c_req) as [e | [[info |] hs]]; reflexivity.
Qed.

(** The world after a token submission, by cases on what the upstream
    answers. *)
Lemma tokenSubmission_world (f : FormData) (token : string) (env : Env)
  (w : World) :
  let w' := snd (tokenSubmission decodeState f token env w) in
  (completions w' = completions w)
  \/ (exists (info : AuthRequest) (r1 r2 : Response),
         decodeState (get f "state") = inr info
         /\ upstream env (requests w) (verifyRequest token) = Responds r1
         /\ status r1 = 204
         /\ upstream env (requests w ++ [verifyRequest token])
              (userRequest token) = Responds r2
         /\ ok r2 = true
         /\ w' = mkWorld (requests w ++ [verifyRequest token; userRequest token])
                   (completions w ++ [grantFor token info env])).
Proof.
  unfold tokenSubmission. run_handler.
  destruct (decodeState (get f "state")) as [e | info] eqn:Hdec;
    [left; reflexivity |].
  run_handler.
  destruct (upstream env (requests w) (verifyRequest token)) as [r1 | e]
    eqn:Hup1; [| left; reflexivity].
  destruct (status r1 =? 204) eqn:H204; run_handler; [| left; reflexivity].
  apply Z.eqb_eq in H204.
  destruct (upstream env (requests w ++ [verifyRequest token])
              (userRequest token)) as [r2 | e] eqn:Hup2;
    [| left; reflexivity].
  destruct (ok r2) eqn:Hok; run_handler; [| left; reflexivity].
  right. exists info, r1, r2.
  repeat (split; [assumption || reflexivity |]).
  unfold grantFor. rewrite <- app_assoc.
  destruct (provider env _); reflexivity.
Qed.

(** C1.  For a POST /authorize whose form has a non-empty [apiToken]: when
    the upstream answers GET /api/v2/auth/ with status 204 the handler goes
    on to the next stage, the list request sent with the same token; for
    any other status it responds 400 "Invalid API token", issues no further
    request and completes no authorization. *)
Theorem token_verification (c_req : HttpRequest) (f : FormData)
  (token : string) (info : AuthRequest) (r : Response) (env : Env)
  (w : World) :
  form c_req = Some f -> get f "apiToken" = Some token -> token <> "" ->
  decodeState (get f "state") = inr info ->
  upstream env (requests w) (verifyRequest token) = Responds r ->
  (status r = 204 ->
   requests (snd (handler c_req env w))
   = requests w ++ [verifyRequest token; userRequest token])
  /\ (status r <> 204 ->
      handler c_req env w
      = (Val (Text "Invalid API token" 400),
         mkWorld (requests w ++ [verifyRequest token]) (completions w))).
Proof.
  intros Hf Htok Hne Hdec Hup.
  rewrite (postAuthorize_token c_req f token Hf Htok Hne).
  unfold tokenSubmission. run_handler. rewrite Hdec. run_handler.
  rewrite Hup. split.
  - intros H204. rewrite H204. cbn [Z.eqb Pos.eqb]. run_handler.
    rewrite <- app_assoc. cbn [app].
    destruct (upstream env _ (userRequest token)) as [r2 | e];
      [| reflexivity].
    destruct (ok r2); [| reflexivity].
    destruct (provider env _); reflexivity.
  - intros Hbad. apply Z.eqb_neq in Hbad. rewrite Hbad. reflexivity.
Qed.

(** C2.  A POST /authorize either leaves the completed authorizations as
    they were or adds exactly one, and it adds one only when the token
    verification answered 204 and the list request that followed
    succeeded.  When the verification answers 204 and the list request
    does not succeed, the response is 500 "Failed to fetch user data" and
    nothing is added. *)
Theorem no_partial_grant (c_req : HttpRequest) (env : Env) (w : World) :
  (completions (snd (handler c_req env w)) = completions w
   \/ exists (o : CompleteAuthorizationOptions) (token : string)
             (r1 r2 : Response),
       completions (snd (handler c_req env w)) = completions w ++ [o]
       /\ apiToken (props o) = token
       /\ requests (snd (handler c_req env w))
          = requests w ++ [verifyRequest token; userRequest token]
       /\ upstream env (requests w) (verifyRequest token) = Responds r1
       /\ status r1 = 204
       /\ upstream env (requests w ++ [verifyRequest token])
            (userRequest token) = Responds r2
       /\ ok r2 = true)
  /\ (forall (f : FormData) (token : string) (info : AuthRequest)
             (r1 r2 : Response),
         form c_req = Some f -> get f "apiToken" = Some token ->
         token <> "" ->
         decodeState (get f "state") = inr info ->
         upstream env (requests w) (verifyRequest token) = Responds r1 ->
         status r1 = 204 ->
         upstream env (requests w ++ [verifyRequest token])
           (userRequest token) = Responds r2 ->
         ok r2 = false ->
         handler c_req env w
         = (Val (Text "Failed to fetch user data" 500),
            mkWorld (requests w ++ [verifyRequest token; userRequest token])
              (completions w))).
Proof.
  split.
  - unfold postAuthorize.
    destruct (form c_req) as [f |];
      [| left; rewrite approvalSubmission_world; reflexivity].
    destruct (get f "apiToken") as [token |];
      [| left; rewrite approvalSubmission_world; reflexivity].
    destruct (truthy (Some token));
      [| left; rewrite approvalSubmission_world; reflexivity].
    destruct (tokenSubmission_world f token env w)
      as [Hsame | (info & r1 & r2 & Hdec & Hup1 & H204 & Hup2 & Hok & Hw)].
    + left. exact Hsame.
    + right. exists (grantFor token info env), token, r1, r2.
      rewrite Hw. repeat (split; [assumption || reflexivity |]).
      exact Hok.
  - intros f token info r1 r2 Hf Htok Hne Hdec Hup1 H204 Hup2 Hok.
    rewrite (postAuthorize_token c_req f token Hf Htok Hne).
    unfold tokenSubmission. run_handler. rewrite Hdec. run_handler.
    rewrite Hup1, H204. cbn [Z.eqb Pos.eqb]. run_handler.
    rewrite Hup2, Hok. rewrite <- app_assoc. reflexivity.
Qed.

(** Every authorization the handler completes carries the user id made of
    the clock reading, and of nothing else. *)
Lemma userId_is_clock_reading (c_req : HttpRequest) (env : Env) (w : World)
  (o : CompleteAuthorizationOptions) :
  completions (snd (handler c_req env w)) = completions w ++ [o] ->
  userId o = ("reader_user_" ++ numberToString (now env))%string.
Proof.
  unfold postAuthorize.
  assert (Hstay : forall w0 : World,
             completions w0 = completions w ->
             completions w0 = completions w ++ [o] -> False).
  { intros w0 H0 H1. rewrite H0 in H1.
    apply (f_equal (@List.length _)) in H1.
    rewrite length_app in H1. cbn in H1. lia. }
  destruct (form c_req) as [f |];
    [| intros H; exfalso;
       apply (Hstay _ (f_equal completions
                         (approvalSubmission_world c_req env w)) H)].
  destruct (get f "apiToken") as [token |];
    [| intros H; exfalso;
       apply (Hstay _ (f_equal completions
                         (approvalSubmission_world c_req env w)) H)].
  destruct (truthy (Some token));
    [| intros H; exfalso;
       apply (Hstay _ (f_equal completions
                         (approvalSubmission_world c_req env w)) H)].
  destruct (tokenSubmission_world f token env w)
    as [Hsame | (info & r1 & r2 & _ & _ & _ & _ & _ & Hw)].
  - intros H. exfalso. exact (Hstay _ Hsame H).
  - rewrite Hw. cbn [completions]. intros H.
    apply app_inj_tail in H. destruct H as [_ H]. subst o. reflexivity.
Qed.

(** Two authorizations completed under different clock readings carry
    different user ids. *)
Lemma userId_differs_with_clock (c_req1 c_req2 : HttpRequest)
  (env1 env2 : Env) (w1 w2 : World) (o1 o2 : CompleteAuthorizationOptions) :
  now env1 <> now env2 ->
  completions (snd (handler c_req1 env1 w1)) = completions w1 ++ [o1] ->
  completions (snd (handler c_req2 env2 w2)) = completions w2 ++ [o2] ->
  userId o1 <> userId o2.
Proof.
  intros Hclock H1 H2 Heq.
  rewrite (userId_is_clock_reading _ _ _ _ H1) in Heq.
  rewrite (userId_is_clock_reading _ _ _ _ H2) in Heq.
  apply append_cancel, numberToString_inj in Heq. contradiction.
Qed.

End Authorize.

Section AuthorizeExamples.

Import ReaderHandler.

Lemma token_verification_witness :
  requests
    (snd (postAuthorize sampleDecode noApproval (tokenForm "readwise_good")
            (Mock.env (Mock.statuses [204; 200])) emptyWorld))
  = [verifyRequest "readwise_good"; userRequest "readwise_good"]
  /\ postAuthorize sampleDecode noApproval (tokenForm "readwise_bad")
       (Mock.env (Mock.statuses [401])) emptyWorld
     = (Val (Text "Invalid API token" 400),
        mkWorld [verifyRequest "readwise_bad"] []).
Proof.
  split.
  - apply (token_verification sampleDecode noApproval
             (tokenForm "readwise_good")
             [("state", "eyJ9"); ("apiToken", "readwise_good")]
             "readwise_good" sampleAuthRequest (mkResponse 204 "" NoBody)
             (Mock.env (Mock.statuses [204; 200])) emptyWorld);
      try reflexivity.
    discriminate.
  - apply (token_verification sampleDecode noApproval
             (tokenForm "readwise_bad")
             [("state", "eyJ9"); ("apiToken", "readwise_bad")]
             "readwise_bad" sampleAuthRequest (mkResponse 401 "" NoBody)
             (Mock.env (Mock.statuses [401])) emptyWorld);
      try reflexivity; discriminate.
Defined.

(** The list request fails after a good verification: 500, no grant. *)
Lemma no_partial_grant_witness :
  postAuthorize sampleDecode noApproval (tokenForm "readwise_good")
    (Mock.env (Mock.statuses [204; 503])) emptyWorld
  = (Val (Text "Failed to fetch user data" 500),
     mkWorld [verifyRequest "readwise_good"; userRequest "readwise_good"] []).
Proof.
  apply (proj2 (no_partial_grant sampleDecode noApproval
                  (tokenForm "readwise_good")
                  (Mock.env (Mock.statuses [204; 503])) emptyWorld)
           [("state", "eyJ9"); ("apiToken", "readwise_good")]
           "readwise_good" sampleAuthRequest (mkResponse 204 "" NoBody)
           (mkResponse 503 "" NoBody));
    try reflexivity.
  discriminate.
Defined.

(** C5 fails on the code.  Two distinct successful verifications handled
    while the clock reads the same millisecond complete two authorizations,
    for two different tokens, under one and the same [userId]. *)
Theorem userId_collision :
  map (fun o => (apiToken (props o), userId o))
    (completions
       (twoVerifications (Mock.env (Mock.statuses [204; 200; 204; 200]))))
  = [ ("readwise_alice", "reader_user_1700000000000");
      ("readwise_bob", "reader_user_1700000000000") ].
Proof. vm_compute. reflexivity. Qed.

End AuthorizeExamples.

Section PaginationFacts.

Context {P A : Type}.
Variable endpoint : string.
Variable nextParams : URLSearchParams -> option string -> URLSearchParams.
Variable parse : Response -> M P.
Variable cursorOf : P -> option string.
Variable itemsOf : P -> list A.

(** The upstream serves [pages], and each served body parses back. *)
Variable wrap : P -> Body.
Hypothesis parse_wrap :
  forall page : P, parse (mkResponse 200 "OK" (wrap page)) = ret page.

Local Abbreviation loop :=
  (paginateLoop endpoint nextParams parse cursorOf itemsOf).
Local Abbreviation through := (itemsThrough itemsOf).
Local Abbreviation stops := (stopsAt cursorOf itemsOf).

Lemma firstn_fill (acc items : list A) (limit : Z) :
  Z.of_nat (List.length acc) <= limit ->
  acc ++ firstn (Z.to_nat (limit - Z.of_nat (List.length acc))) items
  = firstn (Z.to_nat limit) (acc ++ items).
Proof.
  intros Hle. rewrite firstn_app.
  rewrite (firstn_all2 acc) by lia.
  f_equal. f_equal. lia.
Qed.

Lemma firstn_served (done rest : list P) (p : P) :
  firstn (S (List.length done)) (done ++ p :: rest) = done ++ [p].
Proof.
  rewrite firstn_app, firstn_all2 by lia.
  replace (S (List.length done) - List.length done)%nat with 1%nat by lia.
  reflexivity.
Qed.

Lemma through_served (done rest : list P) (p : P) :
  through (done ++ p :: rest) (List.length done)
  = List.concat (map itemsOf done) ++ itemsOf p.
Proof.
  unfold itemsThrough. rewrite firstn_served, map_app, concat_app.
  cbn [map List.concat]. rewrite app_nil_r. reflexivity.
Qed.

(** One round of the loop against the page the upstream serves next. *)
Lemma loop_round (fuel : nat) (this_props : Props) (limit : Z)
  (params : URLSearchParams) (acc : list A) (cursor : option string)
  (env : Env) (w : World) (pages : list P) (p : P) :
  upstream env = Mock.servePages wrap pages ->
  nth_error pages (List.length (requests w)) = Some p ->
  Z.of_nat (List.length acc) < limit ->
  let w1 :=
    mkWorld
      (requests w
       ++ [mkRequest GET endpoint (nextParams params cursor)
             (ReaderMcp.authorization this_props) None])
      (completions w) in
  loop (S fuel) this_props limit params acc cursor
    (Z.of_nat (List.length acc)) env w
  = if (limit <=? Z.of_nat (List.length (acc ++ itemsOf p)))
       || negb (truthy (cursorOf p))
    then (Val (firstn (Z.to_nat limit) (acc ++ itemsOf p)), w1)
    else loop fuel this_props limit (nextParams params cursor)
           (acc ++ itemsOf p) (cursorOf p)
           (Z.of_nat (List.length (acc ++ itemsOf p))) env w1.
Proof.
  intros Hup Hnth Hlt w1. cbn [paginateLoop].
  unfold bind at 1. unfold fetch. rewrite Hup. unfold Mock.servePages.
  rewrite Hnth. fold w1.
  change (ok (mkResponse 200 "OK" (wrap p))) with true. cbn [negb].
  unfold bind at 1. rewrite parse_wrap. cbn [ret].
  rewrite slice_prefix by lia.
  set (toAdd := firstn _ (itemsOf p)).
  assert (Hlen : List.length toAdd
                 = Nat.min (Z.to_nat (limit - Z.of_nat (List.length acc)))
                     (List.length (itemsOf p)))
    by apply length_firstn.
  assert (Hfill : acc ++ toAdd = firstn (Z.to_nat limit) (acc ++ itemsOf p))
    by (apply firstn_fill; lia).
  rewrite length_app.
  destruct (limit <=? Z.of_nat (List.length acc + List.length (itemsOf p)))
    eqn:Hfull.
  - apply Z.leb_le in Hfull.
    replace (Z.of_nat (List.length acc) + Z.of_nat (List.length toAdd)
             >=? limit) with true
      by (symmetry; apply Z.geb_le; lia).
    cbn [orb]. rewrite Hfill. reflexivity.
  - apply Z.leb_gt in Hfull.
    replace (Z.of_nat (List.length acc) + Z.of_nat (List.length toAdd)
             >=? limit) with false
      by (symmetry; rewrite Z.geb_leb; apply Z.leb_gt; lia).
    cbn [orb].
    destruct (negb (truthy (cursorOf p))).
    + rewrite Hfill. reflexivity.
    + assert (Hall : toAdd = itemsOf p)
        by (apply firstn_all2; lia).
      rewrite Hall. f_equal. lia.
Qed.

Lemma concat_snoc (done : list P) (p : P) :
  List.concat (map itemsOf (done ++ [p]))
  = List.concat (map itemsOf done) ++ itemsOf p.
Proof.
  rewrite map_app, concat_app. cbn [map List.concat].
  rewrite app_nil_r. reflexivity.
Qed.

Lemma nth_error_served (done rest : list P) (p : P) :
  nth_error (done ++ p :: rest) (List.length done) = Some p.
Proof.
  rewrite nth_error_app2 by lia. rewrite Nat.sub_diag. reflexivity.
Qed.

(** The loop against an upstream that serves [done ++ front ++ [lastPage]],
    entered when the pages of [done] have been read in full: it returns,
    after reading up to the first page at which it is done. *)
Lemma loop_serves (this_props : Props) (limit : Z) (lastPage : P) :
  truthy (cursorOf lastPage) = false ->
  forall (front done : list P) (fuel : nat) (params : URLSearchParams)
         (cursor : option string) (env : Env) (w : World) (pages : list P),
    pages = done ++ front ++ [lastPage] ->
    upstream env = Mock.servePages wrap pages ->
    List.length (requests w) = List.length done ->
    (List.length front < fuel)%nat ->
    Z.of_nat (List.length (List.concat (map itemsOf done))) < limit ->
    exists (n : nat) (w' : World),
      (n <= List.length front)%nat
      /\ loop fuel this_props limit params (List.concat (map itemsOf done))
           cursor (Z.of_nat (List.length (List.concat (map itemsOf done))))
           env w
         = (Val (firstn (Z.to_nat limit)
                   (through pages (List.length done + n))), w')
      /\ List.length (requests w') = (List.length done + S n)%nat
      /\ completions w' = completions w
      /\ stops limit pages (List.length done + n)
      /\ (forall j : nat,
             (List.length done <= j < List.length done + n)%nat ->
             ~ stops limit pages j).
Proof.
  intros Hlast front.
  induction front as [| p front IH];
    intros done fuel params cursor env w pages Hpages Hup Hreq Hfuel Hroom;
    (destruct fuel as [| fuel]; [cbn in Hfuel; lia |]).
  - cbn [app] in Hpages.
    assert (Hnth : nth_error pages (List.length (requests w)) = Some lastPage)
      by (rewrite Hreq, Hpages; apply nth_error_served).
    rewrite (loop_round fuel this_props limit params _ cursor env w pages
               lastPage Hup Hnth Hroom).
    rewrite Hlast. cbn [negb]. rewrite orb_true_r.
    eexists 0%nat, _. rewrite Nat.add_0_r.
    split; [cbn; lia |]. split.
    { rewrite Hpages, through_served. reflexivity. }
    split; [cbn [requests]; rewrite length_app; cbn [List.length]; lia |].
    split; [reflexivity |]. split.
    + right. exists lastPage. rewrite Hpages.
      split; [apply nth_error_served | exact Hlast].
    + intros j Hj. lia.
  - cbn [app] in Hpages.
    assert (Hnth : nth_error pages (List.length (requests w)) = Some p)
      by (rewrite Hreq, Hpages; apply nth_error_served).
    assert (Hthrough : through pages (List.length done)
                       = List.concat (map itemsOf done) ++ itemsOf p)
      by (rewrite Hpages; apply through_served).
    rewrite (loop_round fuel this_props limit params _ cursor env w pages
               p Hup Hnth Hroom).
    destruct ((limit <=? Z.of_nat
                 (List.length (List.concat (map itemsOf done) ++ itemsOf p)))
              || negb (truthy (cursorOf p))) eqn:Hcond.
    + eexists 0%nat, _. rewrite Nat.add_0_r.
      split; [lia |]. split.
      { rewrite Hthrough. reflexivity. }
      split; [cbn [requests]; rewrite length_app; cbn [List.length]; lia |].
      split; [reflexivity |]. split.
      * apply orb_true_iff in Hcond. destruct Hcond as [Hfull | Hcur].
        -- left. rewrite Hthrough. apply Z.leb_le. exact Hfull.
        -- right. exists p. rewrite <- Hreq. split; [exact Hnth |].
           destruct (truthy (cursorOf p)); [discriminate | reflexivity].
      * intros j Hj. lia.
    + apply orb_false_iff in Hcond. destruct Hcond as [Hfull Hcur].
      apply Z.leb_gt in Hfull.
      rewrite <- concat_snoc in Hfull |- *.
      set (w1 := mkWorld _ _).
      assert (Hpages' : pages = (done ++ [p]) ++ front ++ [lastPage])
        by (rewrite Hpages, <- app_assoc; reflexivity).
      assert (Hreq' : List.length (requests w1) = List.length (done ++ [p]))
        by (unfold w1; cbn [requests]; rewrite !length_app;
            cbn [List.length]; lia).
      assert (Hfuel' : (List.length front < fuel)%nat)
        by (cbn [List.length] in Hfuel; lia).
      destruct (IH (done ++ [p]) fuel (nextParams params cursor)
                  (cursorOf p) env w1 pages Hpages' Hup Hreq' Hfuel' Hfull)
        as (n & w' & Hn & Hrun & Hreqs & Hcompl & Hstop & Hbefore).
      rewrite length_app in Hrun, Hreqs, Hstop, Hbefore.
      cbn [List.length] in Hrun, Hreqs, Hstop, Hbefore.
      exists (S n), w'.
      replace (List.length done + S n)%nat
        with (List.length done + 1 + n)%nat by lia.
      split; [cbn [List.length]; lia |].
      split; [exact Hrun |].
      split; [lia |].
      split; [exact Hcompl |].
      split; [exact Hstop |].
      intros j Hj.
      destruct (Nat.eq_dec j (List.length done)) as [-> | Hne].
      * intros [Hfull' | (page & Hpage & Hfalsy)].
        -- rewrite Hthrough, <- concat_snoc in Hfull'. lia.
        -- rewrite <- Hreq, Hnth in Hpage. injection Hpage as <-.
           rewrite Hfalsy in Hcur. discriminate.
      * apply Hbefore. lia.
Qed.

End PaginationFacts.

Section ListingTools.

Import ReaderMcp.

Lemma listDocumentsLoop_shape (fuel : nat) (this_props : Props) (limit : Z) :
  forall (params : URLSearchParams) (acc : list ReaderDocument)
         (cursor : option string) (total : Z) (env : Env) (w : World),
    listDocumentsLoop fuel this_props limit params acc cursor total env w
    = paginateLoop listEndpoint (fun p c => setIf p "pageCursor" c) jsonList
        nextPageCursor results fuel this_props limit params acc cursor total
        env w.
Proof.
  induction fuel as [| fuel IH]; intros params acc cursor total env w.
  - reflexivity.
  - cbn [listDocumentsLoop paginateLoop]. unfold bind at 1 3.
    destruct (fetch _ env w) as [[r | e |] w1]; [| reflexivity ..].
    destruct (negb (ok r)); [reflexivity |].
    unfold bind at 1 2.
    destruct (jsonList r env w1) as [[data | e |] w2]; [| reflexivity ..].
    match goal with
    | |- context [if ?c then _ else _] => destruct c
    end; [reflexivity | apply IH].
Qed.

Lemma tagListLoop_shape (fuel : nat) (this_props : Props) (limit : Z) :
  forall (params : URLSearchParams) (acc : list ReaderTag)
         (cursor : option string) (total : Z) (env : Env) (w : World),
    tagListLoop fuel this_props limit acc cursor total env w
    = paginateLoop tagsEndpoint (fun _ c => setIf [] "pageCursor" c) jsonTags
        tags_nextPageCursor tags_results fuel this_props limit params acc
        cursor total env w.
Proof.
  induction fuel as [| fuel IH]; intros params acc cursor total env w.
  - reflexivity.
  - cbn [tagListLoop paginateLoop]. unfold bind at 1 3.
    destruct (fetch _ env w) as [[r | e |] w1]; [| reflexivity ..].
    destruct (negb (ok r)); [reflexivity |].
    unfold bind at 1 2.
    destruct (jsonTags r env w1) as [[data | e |] w2]; [| reflexivity ..].
    match goal with
    | |- context [if ?c then _ else _] => destruct c
    end; [reflexivity | apply IH].
Qed.

Lemma limitSchema_bounds (n : Z) : limitSchema n = true -> 1 <= n <= 100.
Proof.
  unfold limitSchema. intros H. apply andb_true_iff in H.
  destruct H as [H1 H2]. apply Z.leb_le in H1, H2. lia.
Qed.

(** The run of the loop of [listDocuments] from a fresh session. *)
Lemma listDocumentsLoop_serves (this_props : Props) (limit : Z)
  (params : URLSearchParams) (front : documentPages)
  (lastPage : ReaderListResponse) (env : Env) (w : World) (fuel : nat) :
  1 <= limit ->
  truthy (nextPageCursor lastPage) = false ->
  upstream env = Mock.servePages ListBody (front ++ [lastPage]) ->
  requests w = [] ->
  (List.length front < fuel)%nat ->
  exists (n : nat) (w' : World),
    (n <= List.length front)%nat
    /\ listDocumentsLoop fuel this_props limit params [] None 0 env w
       = (Val (firstn (Z.to_nat limit)
                 (itemsThrough results (front ++ [lastPage]) n)), w')
    /\ List.length (requests w') = S n
    /\ documentsStopAt limit (front ++ [lastPage]) n
    /\ (forall j : nat, (j < n)%nat ->
                        ~ documentsStopAt limit (front ++ [lastPage]) j).
Proof.
  intros Hlim Hlast Hup Hw Hfuel.
  destruct (loop_serves listEndpoint (fun p c => setIf p "pageCursor" c)
              jsonList nextPageCursor results ListBody
              (fun page => eq_refl) this_props limit lastPage Hlast
              front [] fuel params None env w (front ++ [lastPage])
              eq_refl Hup)
    as (n & w' & Hn & Hrun & Hreqs & _ & Hstop & Hbefore);
    [rewrite Hw; reflexivity | exact Hfuel | cbn; lia |].
  exists n, w'. rewrite listDocumentsLoop_shape.
  cbn [map List.concat List.length Nat.add Z.of_nat] in Hrun, Hreqs, Hstop,
    Hbefore.
  repeat (split; [assumption |]).
  intros j Hj. apply Hbefore. lia.
Qed.

Lemma tagListLoop_serves (this_props : Props) (limit : Z)
  (front : tagPages) (lastPage : ReaderTagsResponse) (env : Env) (w : World)
  (fuel : nat) :
  1 <= limit ->
  truthy (tags_nextPageCursor lastPage) = false ->
  upstream env = Mock.servePages TagsBody (front ++ [lastPage]) ->
  requests w = [] ->
  (List.length front < fuel)%nat ->
  exists (n : nat) (w' : World),
    (n <= List.length front)%nat
    /\ tagListLoop fuel this_props limit [] None 0 env w
       = (Val (firstn (Z.to_nat limit)
                 (itemsThrough tags_results (front ++ [lastPage]) n)), w')
    /\ List.length (requests w') = S n
    /\ tagsStopAt limit (front ++ [lastPage]) n
    /\ (forall j : nat, (j < n)%nat ->
                        ~ tagsStopAt limit (front ++ [lastPage]) j).
Proof.
  intros Hlim Hlast Hup Hw Hfuel.
  destruct (loop_serves tagsEndpoint (fun _ c => setIf [] "pageCursor" c)
              jsonTags tags_nextPageCursor tags_results TagsBody
              (fun page => eq_refl) this_props limit lastPage Hlast
              front [] fuel [] None env w (front ++ [lastPage])
              eq_refl Hup)
    as (n & w' & Hn & Hrun & Hreqs & _ & Hstop & Hbefore);
    [rewrite Hw; reflexivity | exact Hfuel | cbn; lia |].
  exists n, w'. rewrite (tagListLoop_shape fuel this_props limit []).
  cbn [map List.concat List.length Nat.add Z.of_nat] in Hrun, Hreqs, Hstop,
    Hbefore.
  repeat (split; [assumption |]).
  intros j Hj. apply Hbefore. lia.
Qed.

End ListingTools.

(** ** The listing loops at a limit that may have a fraction *)

Section NumberFacts.

Import NumberLimit.

Lemma Qfloor_unique (x : Q) (z : Z) :
  (inject_Z z <= x)%Q -> (x < inject_Z (z + 1))%Q -> Qfloor x = z.
Proof.
  intros Hle Hlt.
  assert (H1 : z <= Qfloor x).
  { rewrite <- (Qfloor_Z z). apply Qfloor_resp_le. exact Hle. }
  assert (H2 : Qfloor x < z + 1).
  { rewrite Zlt_Qlt. eapply Qle_lt_trans; [apply Qfloor_le | exact Hlt]. }
  lia.
Qed.

Lemma Qfloor_minus (x : Q) (z : Z) : Qfloor (x - inject_Z z) = Qfloor x - z.
Proof.
  apply Qfloor_unique.
  - unfold Z.sub. rewrite inject_Z_plus, inject_Z_opp.
    pose proof (Qfloor_le x). lra.
  - replace (Qfloor x - z + 1) with ((Qfloor x + 1) + - z) by lia.
    rewrite inject_Z_plus, inject_Z_opp.
    pose proof (Qlt_floor x). lra.
Qed.

(** While the count is within the whole part of the limit, the end index
    of the slice is what is left of the whole part. *)
Lemma toInteger_remaining (limit : Q) (total : Z) :
  total <= Qfloor limit ->
  toInteger (limit - inject_Z total) = Qfloor limit - total.
Proof.
  intros Hle. unfold toInteger.
  assert (H0 : (0 <= limit - inject_Z total)%Q).
  { rewrite Zle_Qle in Hle. pose proof (Qfloor_le limit). lra. }
  apply Qle_bool_iff in H0. rewrite H0. apply Qfloor_minus.
Qed.

(** A count within the whole part of the limit reaches the limit only
    when the limit is whole and the count is the limit. *)
Lemma reached_whole (limit : Q) (count : Z) :
  count <= Qfloor limit -> (limit <= inject_Z count)%Q ->
  isWhole limit /\ count = Qfloor limit.
Proof.
  intros Hle Hreach.
  assert (Qfloor limit <= count).
  { rewrite <- (Qfloor_Z count). apply Qfloor_resp_le, Hreach. }
  assert (count = Qfloor limit) by lia. subst count.
  split; [| reflexivity].
  apply Qle_antisym; [exact Hreach | apply Qfloor_le].
Qed.

Lemma whole_at (z t : Z) : toInteger (inject_Z z - inject_Z t) = z - t.
Proof.
  unfold toInteger.
  assert (E : (inject_Z z - inject_Z t == inject_Z (z - t))%Q).
  { unfold Z.sub. rewrite inject_Z_plus, inject_Z_opp. reflexivity. }
  rewrite (Qleb_comp _ _ (Qeq_refl 0) _ _ E).
  rewrite (Qfloor_comp _ _ E), (Qceiling_comp _ _ E), Qfloor_Z, Qceiling_Z.
  destruct (Qle_bool 0 (inject_Z (z - t))); reflexivity.
Qed.

Lemma reached_at (z t : Z) : Qle_bool (inject_Z z) (inject_Z t) = (t >=? z).
Proof.
  rewrite Z.geb_leb. destruct (z <=? t) eqn:E.
  - apply Qle_bool_iff. rewrite <- Zle_Qle. apply Z.leb_le, E.
  - destruct (Qle_bool (inject_Z z) (inject_Z t)) eqn:E2; [| reflexivity].
    apply Qle_bool_iff in E2. rewrite <- Zle_Qle in E2.
    apply Z.leb_gt in E. lia.
Qed.

Lemma limitSchema_number (n : Q) :
  limitSchema n = true -> (1 <= n)%Q /\ (n <= 100)%Q /\ 1 <= Qfloor n <= 100.
Proof.
  unfold limitSchema. intros H. apply andb_true_iff in H.
  destruct H as [H1 H2]. apply Qle_bool_iff in H1, H2.
  split; [exact H1 |]. split; [exact H2 |]. split.
  - change 1 with (Qfloor 1). apply Qfloor_resp_le. exact H1.
  - change 100 with (Qfloor 100). apply Qfloor_resp_le. exact H2.
Qed.

Lemma firstn_firstn_app {X : Type} (n : nat) (l1 l2 : list X) :
  firstn n (firstn n l1 ++ l2) = firstn n (l1 ++ l2).
Proof.
  rewrite !firstn_app, firstn_firstn, Nat.min_id, length_firstn.
  f_equal. f_equal. lia.
Qed.

Lemma kept_within (limit : Q) {X : Type} (l : list X) :
  0 <= Qfloor limit ->
  Z.of_nat (List.length (firstn (Z.to_nat (Qfloor limit)) l)) <= Qfloor limit.
Proof. intros H. rewrite length_firstn. lia. Qed.

End NumberFacts.

Section PaginationAtFacts.

Context {P A : Type}.
Variable endpoint : string.
Variable nextParams : URLSearchParams -> option string -> URLSearchParams.
Variable parse : Response -> M P.
Variable cursorOf : P -> option string.
Variable itemsOf : P -> list A.
Variable wrap : P -> Body.
Hypothesis parse_wrap :
  forall page : P, parse (mkResponse 200 "OK" (wrap page)) = ret page.

Local Abbreviation loopAt :=
  (paginateLoopAt endpoint nextParams parse cursorOf itemsOf).
Local Abbreviation through := (itemsThrough itemsOf).
Local Abbreviation kept := (keptThrough itemsOf).
Local Abbreviation doneWith := (doneAt cursorOf itemsOf).
Local Abbreviation trace := (requestsFor endpoint nextParams cursorOf).

(** One round of the loop when the upstream answers with the page [p]:
    what is kept is cut at the whole part of the limit, the test is against
    the limit itself. *)
Lemma loopAt_round (fuel : nat) (this_props : Props) (limit : Q)
  (params : URLSearchParams) (acc : list A) (cursor : option string)
  (env : Env) (w : World) (p : P) :
  upstream env (requests w)
    (mkRequest GET endpoint (nextParams params cursor)
       (ReaderMcp.authorization this_props) None)
  = Responds (mkResponse 200 "OK" (wrap p)) ->
  Z.of_nat (List.length acc) <= Qfloor limit ->
  loopAt (S fuel) this_props limit params acc cursor
    (Z.of_nat (List.length acc)) env w
  = if Qle_bool limit
         (inject_Z
            (Z.of_nat
               (List.length
                  (firstn (Z.to_nat (Qfloor limit)) (acc ++ itemsOf p)))))
       || negb (truthy (cursorOf p))
    then (Val (firstn (Z.to_nat (Qfloor limit)) (acc ++ itemsOf p)),
          mkWorld
            (requests w
             ++ [mkRequest GET endpoint (nextParams params cursor)
                   (ReaderMcp.authorization this_props) None])
            (completions w))
    else loopAt fuel this_props limit (nextParams params cursor)
           (firstn (Z.to_nat (Qfloor limit)) (acc ++ itemsOf p)) (cursorOf p)
           (Z.of_nat
              (List.length
                 (firstn (Z.to_nat (Qfloor limit)) (acc ++ itemsOf p))))
           env
           (mkWorld
              (requests w
               ++ [mkRequest GET endpoint (nextParams params cursor)
                     (ReaderMcp.authorization this_props) None])
              (completions w)).
Proof.
  intros Hup Hfit. cbn [paginateLoopAt].
  unfold bind at 1. unfold fetch. rewrite Hup.
  change (ok (mkResponse 200 "OK" (wrap p))) with true. cbn [negb].
  unfold bind at 1. rewrite parse_wrap. cbn [ret].
  rewrite toInteger_remaining by exact Hfit.
  rewrite slice_prefix by lia.
  set (toAdd := firstn _ (itemsOf p)).
  assert (Hfill : acc ++ toAdd
                  = firstn (Z.to_nat (Qfloor limit)) (acc ++ itemsOf p))
    by (apply firstn_fill; exact Hfit).
  replace (Z.of_nat (List.length acc) + Z.of_nat (List.length toAdd))
    with (Z.of_nat (List.length (acc ++ toAdd)))
    by (rewrite length_app; lia).
  rewrite Hfill.
  destruct (Qle_bool limit _ || negb (truthy (cursorOf p))); reflexivity.
Qed.

Lemma kept_served (limit : Q) (done rest : list P) (p : P) :
  kept limit (done ++ p :: rest) (List.length done)
  = firstn (Z.to_nat (Qfloor limit))
      (firstn (Z.to_nat (Qfloor limit)) (List.concat (map itemsOf done))
       ++ itemsOf p).
Proof.
  unfold keptThrough. rewrite through_served, firstn_firstn_app. reflexivity.
Qed.

(** The loop against an upstream that serves [done ++ front ++ [lastPage]],
    entered when the pages of [done] have been read: it returns, after
    reading up to the first page at which it is done, what it kept of the
    pages read. *)
Lemma loopAt_serves (this_props : Props) (limit : Q) (lastPage : P) :
  0 <= Qfloor limit ->
  truthy (cursorOf lastPage) = false ->
  forall (front done : list P) (fuel : nat) (params : URLSearchParams)
         (cursor : option string) (env : Env) (w : World) (pages : list P),
    pages = done ++ front ++ [lastPage] ->
    upstream env = Mock.servePages wrap pages ->
    List.length (requests w) = List.length done ->
    (List.length front < fuel)%nat ->
    exists (n : nat) (w' : World),
      (n <= List.length front)%nat
      /\ loopAt fuel this_props limit params
           (firstn (Z.to_nat (Qfloor limit)) (List.concat (map itemsOf done)))
           cursor
           (Z.of_nat
              (List.length
                 (firstn (Z.to_nat (Qfloor limit))
                    (List.concat (map itemsOf done)))))
           env w
         = (Val (kept limit pages (List.length done + n)), w')
      /\ requests w'
         = requests w
           ++ trace this_props params cursor
                (firstn (S n) (front ++ [lastPage]))
      /\ completions w' = completions w
      /\ doneWith limit pages (List.length done + n)
      /\ (forall j : nat,
             (List.length done <= j < List.length done + n)%nat ->
             ~ doneWith limit pages j).
Proof.
  intros Hlim Hlast front.
  induction front as [| p front IH];
    intros done fuel params cursor env w pages Hpages Hup Hreq Hfuel;
    (destruct fuel as [| fuel]; [cbn in Hfuel; lia |]).
  - cbn [app] in Hpages.
    rewrite loopAt_round with (p := lastPage);
      [| | apply kept_within; exact Hlim].
    2:{ rewrite Hup. unfold Mock.servePages.
        rewrite Hreq, Hpages, nth_error_served. reflexivity. }
    rewrite Hlast. cbn [negb]. rewrite orb_true_r.
    eexists 0%nat, _. rewrite Nat.add_0_r.
    split; [cbn; lia |]. split.
    { rewrite Hpages, kept_served. reflexivity. }
    split; [reflexivity |]. split; [reflexivity |]. split.
    + right. exists lastPage. rewrite Hpages.
      split; [apply nth_error_served | exact Hlast].
    + intros j Hj. lia.
  - cbn [app] in Hpages.
    assert (Hnth : nth_error pages (List.length done) = Some p)
      by (rewrite Hpages; apply nth_error_served).
    assert (Hkept : kept limit pages (List.length done)
                    = firstn (Z.to_nat (Qfloor limit))
                        (firstn (Z.to_nat (Qfloor limit))
                           (List.concat (map itemsOf done))
                         ++ itemsOf p))
      by (rewrite Hpages; apply kept_served).
    rewrite loopAt_round with (p := p);
      [| | apply kept_within; exact Hlim].
    2:{ rewrite Hup. unfold Mock.servePages. rewrite Hreq, Hnth.
        reflexivity. }
    rewrite <- Hkept.
    destruct (Qle_bool limit
                (inject_Z (Z.of_nat (List.length (kept limit pages
                                                    (List.length done)))))
              || negb (truthy (cursorOf p))) eqn:Hcond.
    + eexists 0%nat, _. rewrite Nat.add_0_r.
      split; [lia |]. split; [reflexivity |].
      split; [reflexivity |]. split; [reflexivity |]. split.
      * apply orb_true_iff in Hcond. destruct Hcond as [Hfull | Hcur].
        -- left. apply Qle_bool_iff. exact Hfull.
        -- right. exists p. split; [exact Hnth |].
           destruct (truthy (cursorOf p)); [discriminate | reflexivity].
      * intros j Hj. lia.
    + apply orb_false_iff in Hcond. destruct Hcond as [Hfull Hcur].
      set (w1 := mkWorld _ _).
      assert (Hpages' : pages = (done ++ [p]) ++ front ++ [lastPage])
        by (rewrite Hpages, <- app_assoc; reflexivity).
      assert (Hreq' : List.length (requests w1) = List.length (done ++ [p]))
        by (unfold w1; cbn [requests]; rewrite !length_app;
            cbn [List.length]; lia).
      assert (Hfuel' : (List.length front < fuel)%nat)
        by (cbn [List.length] in Hfuel; lia).
      assert (Hacc : kept limit pages (List.length done)
                     = firstn (Z.to_nat (Qfloor limit))
                         (List.concat (map itemsOf (done ++ [p])))).
      { rewrite Hkept, firstn_firstn_app, concat_snoc. reflexivity. }
      rewrite Hacc.
      destruct (IH (done ++ [p]) fuel (nextParams params cursor)
                  (cursorOf p) env w1 pages Hpages' Hup Hreq' Hfuel')
        as (n & w' & Hn & Hrun & Hreqs & Hcompl & Hstop & Hbefore).
      rewrite length_app in Hrun, Hstop, Hbefore.
      cbn [List.length] in Hrun, Hstop, Hbefore.
      exists (S n), w'.
      replace (List.length done + S n)%nat
        with (List.length done + 1 + n)%nat by lia.
      split; [cbn [List.length]; lia |].
      split; [exact Hrun |]. split.
      { rewrite Hreqs. unfold w1. cbn [requests].
        rewrite <- app_assoc. reflexivity. }
      split; [exact Hcompl |].
      split; [exact Hstop |].
      intros j Hj.
      destruct (Nat.eq_dec j (List.length done)) as [-> | Hne].
      * intros [Hfull' | (page & Hpage & Hfalsy)].
        -- apply Qle_bool_iff in Hfull'. rewrite Hfull' in Hfull.
           discriminate.
        -- rewrite Hnth in Hpage. injection Hpage as <-.
           rewrite Hfalsy in Hcur. discriminate.
      * apply Hbefore. lia.
Qed.

End PaginationAtFacts.

Section NumberListing.

Import ReaderMcp.

Lemma listDocumentsLoop_number_shape (fuel : nat) (this_props : Props)
  (limit : Q) :
  forall (params : URLSearchParams) (acc : list ReaderDocument)
         (cursor : option string) (total : Z) (env : Env) (w : World),
    NumberLimit.listDocumentsLoop fuel this_props limit params acc cursor
      total env w
    = paginateLoopAt listEndpoint (fun p c => setIf p "pageCursor" c)
        jsonList nextPageCursor results fuel this_props limit params acc
        cursor total env w.
Proof.
  induction fuel as [| fuel IH]; intros params acc cursor total env w.
  - reflexivity.
  - cbn [NumberLimit.listDocumentsLoop paginateLoopAt]. unfold bind at 1 3.
    destruct (fetch _ env w) as [[r | e |] w1]; [| reflexivity ..].
    destruct (negb (ok r)); [reflexivity |].
    unfold bind at 1 2.
    destruct (jsonList r env w1) as [[data | e |] w2]; [| reflexivity ..].
    match goal with
    | |- context [if ?c then _ else _] => destruct c
    end; [reflexivity | apply IH].
Qed.

Lemma tagListLoop_number_shape (fuel : nat) (this_props : Props)
  (limit : Q) :
  forall (params : URLSearchParams) (acc : list ReaderTag)
         (cursor : option string) (total : Z) (env : Env) (w : World),
    NumberLimit.tagListLoop fuel this_props limit acc cursor total env w
    = paginateLoopAt tagsEndpoint (fun _ c => setIf [] "pageCursor" c)
        jsonTags tags_nextPageCursor tags_results fuel this_props limit
        params acc cursor total env w.
Proof.
  induction fuel as [| fuel IH]; intros params acc cursor total env w.
  - reflexivity.
  - cbn [NumberLimit.tagListLoop paginateLoopAt]. unfold bind at 1 3.
    destruct (fetch _ env w) as [[r | e |] w1]; [| reflexivity ..].
    destruct (negb (ok r)); [reflexivity |].
    unfold bind at 1 2.
    destruct (jsonTags r env w1) as [[data | e |] w2]; [| reflexivity ..].
    match goal with
    | |- context [if ?c then _ else _] => destruct c
    end; [reflexivity | apply IH].
Qed.

Lemma length_requestsFor {P : Type} (endpoint : string)
  (nextParams : URLSearchParams -> option string -> URLSearchParams)
  (cursorOf : P -> option string) (this_props : Props) (pages : list P) :
  forall (params : URLSearchParams) (cursor : option string),
    List.length
      (requestsFor endpoint nextParams cursorOf this_props params cursor pages)
    = List.length pages.
Proof.
  induction pages as [| p pages IH]; intros params cursor.
  - reflexivity.
  - cbn [requestsFor List.length]. f_equal. apply IH.
Qed.

(** The run of the loop of [listDocuments] from a fresh session, at any
    limit of at least 1. *)
Lemma listDocumentsLoop_number_serves (this_props : Props) (limit : Q)
  (params : URLSearchParams) (front : documentPages)
  (lastPage : ReaderListResponse) (env : Env) (w : World) (fuel : nat) :
  1 <= Qfloor limit ->
  truthy (nextPageCursor lastPage) = false ->
  upstream env = Mock.servePages ListBody (front ++ [lastPage]) ->
  requests w = [] ->
  (List.length front < fuel)%nat ->
  exists (n : nat) (w' : World),
    (n <= List.length front)%nat
    /\ NumberLimit.listDocumentsLoop fuel this_props limit params [] None 0
         env w
       = (Val (keptThrough results limit (front ++ [lastPage]) n), w')
    /\ List.length (requests w') = S n
    /\ documentsDoneAt limit (front ++ [lastPage]) n
    /\ (forall j : nat, (j < n)%nat ->
                        ~ documentsDoneAt limit (front ++ [lastPage]) j).
Proof.
  intros Hlim Hlast Hup Hw Hfuel.
  destruct (loopAt_serves listEndpoint (fun p c => setIf p "pageCursor" c)
              jsonList nextPageCursor results ListBody
              (fun page => eq_refl) this_props limit lastPage
              ltac:(lia) Hlast
              front [] fuel params None env w (front ++ [lastPage])
              eq_refl Hup)
    as (n & w' & Hn & Hrun & Hreqs & _ & Hstop & Hbefore);
    [rewrite Hw; reflexivity | exact Hfuel |].
  exists n, w'. rewrite listDocumentsLoop_number_shape.
  cbn [map List.concat List.length Nat.add Z.of_nat] in Hrun, Hstop, Hbefore.
  rewrite firstn_nil in Hrun.
  split; [exact Hn |]. split; [exact Hrun |]. split.
  { rewrite Hreqs, Hw. cbn [app]. rewrite length_requestsFor.
    rewrite length_firstn, length_app. cbn [List.length]. lia. }
  split; [exact Hstop |].
  intros j Hj. apply Hbefore. lia.
Qed.

Lemma tagListLoop_number_serves (this_props : Props) (limit : Q)
  (front : tagPages) (lastPage : ReaderTagsResponse) (env : Env) (w : World)
  (fuel : nat) :
  1 <= Qfloor limit ->
  truthy (tags_nextPageCursor lastPage) = false ->
  upstream env = Mock.servePages TagsBody (front ++ [lastPage]) ->
  requests w = [] ->
  (List.length front < fuel)%nat ->
  exists (n : nat) (w' : World),
    (n <= List.length front)%nat
    /\ NumberLimit.tagListLoop fuel this_props limit [] None 0 env w
       = (Val (keptThrough tags_results limit (front ++ [lastPage]) n), w')
    /\ List.length (requests w') = S n
    /\ tagsDoneAt limit (front ++ [lastPage]) n
    /\ (forall j : nat, (j < n)%nat ->
                        ~ tagsDoneAt limit (front ++ [lastPage]) j).
Proof.
  intros Hlim Hlast Hup Hw Hfuel.
  destruct (loopAt_serves tagsEndpoint (fun _ c => setIf [] "pageCursor" c)
              jsonTags tags_nextPageCursor tags_results TagsBody
              (fun page => eq_refl) this_props limit lastPage
              ltac:(lia) Hlast
              front [] fuel [] None env w (front ++ [lastPage])
              eq_refl Hup)
    as (n & w' & Hn & Hrun & Hreqs & _ & Hstop & Hbefore);
    [rewrite Hw; reflexivity | exact Hfuel |].
  exists n, w'. rewrite (tagListLoop_number_shape fuel this_props limit []).
  cbn [map List.concat List.length Nat.add Z.of_nat] in Hrun, Hstop, Hbefore.
  rewrite firstn_nil in Hrun.
  split; [exact Hn |]. split; [exact Hrun |]. split.
  { rewrite Hreqs, Hw. cbn [app]. rewrite length_requestsFor.
    rewrite length_firstn, length_app. cbn [List.length]. lia. }
  split; [exact Hstop |].
  intros j Hj. apply Hbefore. lia.
Qed.

End NumberListing.

Section ListingTheorems.

Import ReaderMcp.

Lemma firstn_snoc {X : Type} (l : list X) (n : nat) (x : X) :
  nth_error l n = Some x -> firstn (S n) l = firstn n l ++ [x].
Proof.
  revert n. induction l as [| y l IH]; intros [| n] H; cbn in H.
  - discriminate.
  - discriminate.
  - injection H as ->. reflexivity.
  - cbn [firstn app]. f_equal. apply IH. exact H.
Qed.

Lemma listDocuments_output_fields (a : ListDocumentsArgs)
  (docs : list ReaderDocument) :
  property "documents" (listDocumentsOutput a docs)
  = Some (JArr (map formatDocument docs))
  /\ property "count" (listDocumentsOutput a docs)
     = Some (JNum (Z.of_nat (List.length docs))).
Proof.
  unfold listDocumentsOutput. cbn [property lookup String.eqb Ascii.eqb
                                   Bool.eqb].
  rewrite length_map. split; reflexivity.
Qed.

(** Whatever the upstream answers, a run of the loop that returns gives
    at most [limit] documents. *)
Lemma listDocumentsLoop_bounded (this_props : Props) (limit : Z) (fuel : nat) :
  forall (params : URLSearchParams) (acc : list ReaderDocument)
         (cursor : option string) (env : Env) (w w' : World)
         (docs : list ReaderDocument),
    Z.of_nat (List.length acc) < limit ->
    listDocumentsLoop fuel this_props limit params acc cursor
      (Z.of_nat (List.length acc)) env w = (Val docs, w') ->
    Z.of_nat (List.length docs) <= limit.
Proof.
  induction fuel as [| fuel IH];
    intros params acc cursor env w w' docs Hroom Hrun.
  - discriminate Hrun.
  - cbn [listDocumentsLoop] in Hrun. unfold bind at 1 in Hrun.
    destruct (fetch _ env w) as [[r | e |] w1]; try discriminate Hrun.
    destruct (negb (ok r)); [discriminate Hrun |].
    unfold bind at 1 in Hrun.
    destruct (jsonList r env w1) as [[data | e |] w2]; try discriminate Hrun.
    rewrite slice_prefix in Hrun by lia.
    set (toAdd := firstn _ (results data)) in Hrun.
    assert (Hlen : (List.length toAdd
                    <= Z.to_nat (limit - Z.of_nat (List.length acc)))%nat)
      by (unfold toAdd; rewrite length_firstn; lia).
    destruct (Z.of_nat (List.length acc) + Z.of_nat (List.length toAdd)
              >=? limit) eqn:Hfull; cbn [orb] in Hrun.
    + injection Hrun as <- _. rewrite length_app. lia.
    + destruct (negb (truthy (nextPageCursor data))).
      * injection Hrun as <- _. rewrite length_app. lia.
      * rewrite Z.geb_leb in Hfull. apply Z.leb_gt in Hfull.
        replace (Z.of_nat (List.length acc) + Z.of_nat (List.length toAdd))
          with (Z.of_nat (List.length (acc ++ toAdd))) in Hrun
          by (rewrite length_app; lia).
        apply (IH _ _ _ _ _ _ _) in Hrun; [exact Hrun |].
        rewrite length_app. lia.
Qed.

(** For every upstream, a successful result of [listDocuments] lists at
    most [limit] documents. *)
Lemma listDocuments_never_exceeds_limit (fuel : nat) (this_props : Props)
  (a : ListDocumentsArgs) (env : Env) (w w' : World) (result : ToolResult) :
  limitSchema (limit a) = true ->
  listDocuments fuel this_props a env w = (Val result, w') ->
  isError result = false ->
  exists docs : list ReaderDocument,
    content result = Stringified (listDocumentsOutput a docs)
    /\ Z.of_nat (List.length docs) <= limit a.
Proof.
  intros Hschema Hrun Hok. apply limitSchema_bounds in Hschema.
  unfold listDocuments, tryCatch, bind in Hrun.
  match type of Hrun with
  | context [listDocumentsLoop fuel ?p ?l ?params ?acc ?c ?t env w] =>
      pose proof (listDocumentsLoop_bounded p l fuel params acc c env w) as Hb;
      destruct (listDocumentsLoop fuel p l params acc c t env w)
        as [[docs | e |] w1] eqn:Hloop
  end.
  - cbn [ret] in Hrun. injection Hrun as <- _.
    exists docs. split; [reflexivity |].
    apply (Hb w1 docs); [cbn; lia | exact Hloop].
  - cbn [ret] in Hrun. injection Hrun as <- _. discriminate Hok.
  - discriminate Hrun.
Qed.

End ListingTheorems.

Section NumberOrder.

Context {P A : Type}.
Variable cursorOf : P -> option string.
Variable itemsOf : P -> list A.

(** What was kept is within the limit. *)
Lemma kept_bounded (limit : Q) (pages : list P) (k : nat) :
  0 <= Qfloor limit ->
  (inject_Z (Z.of_nat (List.length (keptThrough itemsOf limit pages k)))
   <= limit)%Q.
Proof.
  intros Hlim. eapply Qle_trans; [| apply Qfloor_le].
  rewrite <- Zle_Qle. unfold keptThrough. apply kept_within. exact Hlim.
Qed.

(** At a whole limit, a page the loop is not done with has been kept in
    full, with the pages before it. *)
Lemma whole_limit_keeps_pages (limit : Q) (pages : list P) (k : nat) :
  0 <= Qfloor limit ->
  isWhole limit ->
  ~ doneAt cursorOf itemsOf limit pages k ->
  Z.of_nat (List.length (itemsThrough itemsOf pages k)) < Qfloor limit.
Proof.
  intros Hlim Hwhole Hnot. apply Z.lt_nge. intros Hfull.
  apply Hnot. left. unfold keptThrough.
  rewrite firstn_length_le by lia. rewrite Z2Nat.id by exact Hlim.
  unfold isWhole in Hwhole. rewrite <- Hwhole. apply Qle_refl.
Qed.

(** At a limit with a fraction, the count never reaches the limit: the
    loop is done only with a page that has no cursor. *)
Lemma fraction_reads_on (limit : Q) (pages : list P) (k : nat) :
  0 <= Qfloor limit ->
  ~ isWhole limit ->
  doneAt cursorOf itemsOf limit pages k ->
  exists page : P,
    nth_error pages k = Some page /\ truthy (cursorOf page) = false.
Proof.
  intros Hlim Hfrac [Hfull | Hlast]; [| exact Hlast].
  exfalso. apply Hfrac.
  apply (reached_whole limit _ (kept_within limit _ Hlim) Hfull).
Qed.

(** The items kept through page [n], when the pages before it were kept
    in full. *)
Lemma kept_last_cut (limit : Q) (pages : list P) (n : nat) (page : P) :
  nth_error pages n = Some page ->
  Z.of_nat (List.length (List.concat (map itemsOf (firstn n pages))))
  <= Qfloor limit ->
  keptThrough itemsOf limit pages n
  = List.concat (map itemsOf (firstn n pages))
    ++ firstn (Z.to_nat (Qfloor limit)
               - List.length (List.concat (map itemsOf (firstn n pages))))
         (itemsOf page).
Proof.
  intros Hpage Hfit. unfold keptThrough, itemsThrough.
  rewrite (firstn_snoc pages n page Hpage), map_app, concat_app.
  cbn [map List.concat]. rewrite app_nil_r.
  rewrite firstn_app, firstn_all2 by lia. reflexivity.
Qed.

End NumberOrder.

Section NumberTheorems.

Import ReaderMcp.


(** At a whole limit the tools are the ones of [ReaderMcp]. *)
Lemma listDocumentsLoop_at_whole_limit (fuel : nat) (this_props : Props)
  (limit : Z) :
  forall (params : URLSearchParams) (acc : list ReaderDocument)
         (cursor : option string) (total : Z) (env : Env) (w : World),
    NumberLimit.listDocumentsLoop fuel this_props (inject_Z limit) params acc
      cursor total env w
    = listDocumentsLoop fuel this_props limit params acc cursor total env w.
Proof.
  induction fuel as [| fuel IH]; intros params acc cursor total env w.
  - reflexivity.
  - cbn [NumberLimit.listDocumentsLoop listDocumentsLoop].
    unfold bind at 1 3.
    destruct (fetch _ env w) as [[r | e |] w1]; [| reflexivity ..].
    destruct (negb (ok r)); [reflexivity |].
    unfold bind at 1 2.
    destruct (jsonList r env w1) as [[data | e |] w2]; [| reflexivity ..].
    rewrite whole_at, reached_at.
    match goal with
    | |- context [if ?c then _ else _] => destruct c
    end; [reflexivity | apply IH].
Qed.

Lemma tagListLoop_at_whole_limit (fuel : nat) (this_props : Props)
  (limit : Z) :
  forall (acc : list ReaderTag) (cursor : option string) (total : Z)
         (env : Env) (w : World),
    NumberLimit.tagListLoop fuel this_props (inject_Z limit) acc cursor total
      env w
    = tagListLoop fuel this_props limit acc cursor total env w.
Proof.
  induction fuel as [| fuel IH]; intros acc cursor total env w.
  - reflexivity.
  - cbn [NumberLimit.tagListLoop tagListLoop].
    unfold bind at 1 3.
    destruct (fetch _ env w) as [[r | e |] w1]; [| reflexivity ..].
    destruct (negb (ok r)); [reflexivity |].
    unfold bind at 1 2.
    destruct (jsonTags r env w1) as [[data | e |] w2]; [| reflexivity ..].
    rewrite whole_at, reached_at.
    match goal with
    | |- context [if ?c then _ else _] => destruct c
    end; [reflexivity | apply IH].
Qed.

Lemma tools_at_whole_limit (fuel : nat) (this_props : Props)
  (a : ListDocumentsArgs) (tagLimit : Z) (env : Env) (w : World) :
  NumberLimit.listDocuments fuel this_props (NumberLimit.ofWhole a) env w
  = listDocuments fuel this_props a env w
  /\ NumberLimit.tagList fuel this_props (inject_Z tagLimit) env w
     = tagList fuel this_props tagLimit env w.
Proof.
  split.
  - unfold NumberLimit.listDocuments, listDocuments, tryCatch, bind.
    cbn [NumberLimit.ofWhole NumberLimit.limit NumberLimit.list_location
         NumberLimit.list_category NumberLimit.list_tag
         NumberLimit.list_updatedAfter].
    rewrite listDocumentsLoop_at_whole_limit.
    destruct (listDocumentsLoop _ _ _ _ _ _ _ env w) as [[docs | e |] w1];
      reflexivity.
  - unfold NumberLimit.tagList, tagList, tryCatch, bind.
    rewrite tagListLoop_at_whole_limit.
    destruct (tagListLoop _ _ _ _ _ _ env w) as [[found | e |] w1];
      reflexivity.
Qed.

(** Whatever the upstream answers, a run of the loop that returns gives
    no more documents than the whole part of the limit. *)
Lemma listDocumentsLoop_number_bounded (this_props : Props) (limit : Q)
  (fuel : nat) :
  forall (params : URLSearchParams) (acc : list ReaderDocument)
         (cursor : option string) (env : Env) (w w' : World)
         (docs : list ReaderDocument),
    Z.of_nat (List.length acc) <= Qfloor limit ->
    NumberLimit.listDocumentsLoop fuel this_props limit params acc cursor
      (Z.of_nat (List.length acc)) env w = (Val docs, w') ->
    Z.of_nat (List.length docs) <= Qfloor limit.
Proof.
  induction fuel as [| fuel IH];
    intros params acc cursor env w w' docs Hfit Hrun.
  - discriminate Hrun.
  - cbn [NumberLimit.listDocumentsLoop] in Hrun. unfold bind at 1 in Hrun.
    destruct (fetch _ env w) as [[r | e |] w1]; try discriminate Hrun.
    destruct (negb (ok r)); [discriminate Hrun |].
    unfold bind at 1 in Hrun.
    destruct (jsonList r env w1) as [[data | e |] w2]; try discriminate Hrun.
    rewrite toInteger_remaining in Hrun by exact Hfit.
    rewrite slice_prefix in Hrun by lia.
    set (toAdd := firstn _ (results data)) in Hrun.
    assert (Hlen : (List.length toAdd
                    <= Z.to_nat (Qfloor limit - Z.of_nat (List.length acc)))%nat)
      by (unfold toAdd; rewrite length_firstn; lia).
    replace (Z.of_nat (List.length acc) + Z.of_nat (List.length toAdd))
      with (Z.of_nat (List.length (acc ++ toAdd))) in Hrun
      by (rewrite length_app; lia).
    assert (Hfit' : Z.of_nat (List.length (acc ++ toAdd)) <= Qfloor limit)
      by (rewrite length_app; lia).
    destruct (Qle_bool limit _ || negb (truthy (nextPageCursor data))).
    + injection Hrun as <- _. exact Hfit'.
    + apply (IH _ _ _ _ _ _ _ Hfit' Hrun).
Qed.

(** For every upstream, a successful result of [listDocuments] lists no
    more documents than the limit. *)
Lemma listDocuments_never_exceeds_number (fuel : nat) (this_props : Props)
  (a : NumberLimit.ListDocumentsArgs) (env : Env) (w w' : World)
  (result : ToolResult) :
  NumberLimit.limitSchema (NumberLimit.limit a) = true ->
  NumberLimit.listDocuments fuel this_props a env w = (Val result, w') ->
  isError result = false ->
  exists docs : list ReaderDocument,
    content result = Stringified (NumberLimit.listDocumentsOutput a docs)
    /\ (inject_Z (Z.of_nat (List.length docs)) <= NumberLimit.limit a)%Q.
Proof.
  intros Hschema Hrun Hok. apply limitSchema_number in Hschema.
  destruct Hschema as (_ & _ & Hfloor).
  unfold NumberLimit.listDocuments, tryCatch, bind in Hrun.
  match type of Hrun with
  | context [NumberLimit.listDocumentsLoop fuel ?p ?l ?params ?acc ?c ?t
               env w] =>
      pose proof (listDocumentsLoop_number_bounded p l fuel params acc c env w)
        as Hb;
      destruct (NumberLimit.listDocumentsLoop fuel p l params acc c t env w)
        as [[docs | e |] w1] eqn:Hloop
  end.
  - cbn [ret] in Hrun. injection Hrun as <- _.
    exists docs. split; [reflexivity |].
    eapply Qle_trans; [| apply Qfloor_le]. rewrite <- Zle_Qle.
    apply (Hb w1 docs); [cbn; lia | exact Hloop].
  - cbn [ret] in Hrun. injection Hrun as <- _. discriminate Hok.
  - discriminate Hrun.
Qed.



(** C4.  Against an upstream that serves a finite sequence of pages whose
    last page has no next cursor, the loops of [listDocuments] and of
    [tagList] return, at any limit from 1 to 100: they issue one request
    for each page up to the first one at which the count of the items kept
    has reached the limit or the page has no next cursor, and none beyond
    it.  At a limit with a fraction the count cannot reach the limit, and
    that page is the first without a next cursor. *)
Theorem pagination_stops (this_props : Props)
  (a : NumberLimit.ListDocumentsArgs) (tagLimit : Q)
  (documents : documentPages) (lastDocuments : ReaderListResponse)
  (tags : tagPages) (lastTags : ReaderTagsResponse) (envD envT : Env)
  (w : World) :
  NumberLimit.limitSchema (NumberLimit.limit a) = true ->
  NumberLimit.limitSchema tagLimit = true ->
  truthy (nextPageCursor lastDocuments) = false ->
  truthy (tags_nextPageCursor lastTags) = false ->
  upstream envD = Mock.servePages ListBody (documents ++ [lastDocuments]) ->
  upstream envT = Mock.servePages TagsBody (tags ++ [lastTags]) ->
  requests w = [] ->
  (forall fuel : nat,
      (List.length documents < fuel)%nat ->
      exists (n : nat) (result : ToolResult) (w' : World),
        NumberLimit.listDocuments fuel this_props a envD w = (Val result, w')
        /\ isError result = false
        /\ List.length (requests w') = S n
        /\ documentsDoneAt (NumberLimit.limit a)
             (documents ++ [lastDocuments]) n
        /\ (forall j : nat,
               (j < n)%nat ->
               ~ documentsDoneAt (NumberLimit.limit a)
                   (documents ++ [lastDocuments]) j)
        /\ (~ isWhole (NumberLimit.limit a) ->
            exists page : ReaderListResponse,
              nth_error (documents ++ [lastDocuments]) n = Some page
              /\ truthy (nextPageCursor page) = false))
  /\ (forall fuel : nat,
         (List.length tags < fuel)%nat ->
         exists (n : nat) (result : ToolResult) (w' : World),
           NumberLimit.tagList fuel this_props tagLimit envT w
           = (Val result, w')
           /\ isError result = false
           /\ List.length (requests w') = S n
           /\ tagsDoneAt tagLimit (tags ++ [lastTags]) n
           /\ (forall j : nat,
                  (j < n)%nat ->
                  ~ tagsDoneAt tagLimit (tags ++ [lastTags]) j)
           /\ (~ isWhole tagLimit ->
               exists page : ReaderTagsResponse,
                 nth_error (tags ++ [lastTags]) n = Some page
                 /\ truthy (tags_nextPageCursor page) = false)).
Proof.
  intros HschemaD HschemaT HlastD HlastT HupD HupT Hw.
  apply limitSchema_number in HschemaD, HschemaT.
  destruct HschemaD as (_ & _ & HfloorD).
  destruct HschemaT as (_ & _ & HfloorT). split.
  - intros fuel Hfuel.
    set (params :=
           append
             (appendIf
                (appendIf
                   (appendIf
                      (appendIf [] "location" (NumberLimit.list_location a))
                      "category" (NumberLimit.list_category a))
                   "tag" (NumberLimit.list_tag a))
                "updatedAfter" (NumberLimit.list_updatedAfter a))
             "withHtmlContent" "true").
    destruct (listDocumentsLoop_number_serves this_props
                (NumberLimit.limit a) params documents lastDocuments envD w
                fuel)
      as (n & w' & _ & Hrun & Hreqs & Hstop & Hbefore);
      try assumption; [lia |].
    exists n. eexists. exists w'. split.
    { unfold NumberLimit.listDocuments. fold params.
      apply (wrapped_value _
               (fun allDocuments =>
                  mkResult
                    (Stringified
                       (NumberLimit.listDocumentsOutput a allDocuments))
                    false)).
      exact Hrun. }
    split; [reflexivity |]. split; [exact Hreqs |].
    split; [exact Hstop |]. split; [exact Hbefore |].
    intros Hfrac.
    apply (fraction_reads_on nextPageCursor results (NumberLimit.limit a)
             (documents ++ [lastDocuments]) n ltac:(lia) Hfrac Hstop).
  - intros fuel Hfuel.
    destruct (tagListLoop_number_serves this_props tagLimit tags lastTags
                envT w fuel)
      as (n & w' & _ & Hrun & Hreqs & Hstop & Hbefore);
      try assumption; [lia |].
    exists n. eexists. exists w'. split.
    { unfold NumberLimit.tagList.
      apply (wrapped_value _
               (fun allTags =>
                  mkResult
                    (Stringified
                       (JObj [ ("tags", JArr (map tagJson allTags));
                               ("count",
                                JNum (Z.of_nat (List.length allTags))) ]))
                    false)).
      exact Hrun. }
    split; [reflexivity |]. split; [exact Hreqs |].
    split; [exact Hstop |]. split; [exact Hbefore |].
    intros Hfrac.
    apply (fraction_reads_on tags_nextPageCursor tags_results tagLimit
             (tags ++ [lastTags]) n ltac:(lia) Hfrac Hstop).
Qed.

End NumberTheorems.

Section ListingExamples.

Import ReaderMcp.

(** With limit 3 the loop reads two pages and keeps one document of the
    second; with limit 10 it reads the three pages. *)
Example listDocuments_limit_3 :
  listedIds (fst (listDocuments 3 Mock.props (Mock.listArgs 3) listingEnv
                    emptyWorld))
  = [Some (JStr "a"); Some (JStr "b"); Some (JStr "c")]
  /\ List.length
       (requests (snd (listDocuments 3 Mock.props (Mock.listArgs 3)
                         listingEnv emptyWorld))) = 2%nat.
Proof. vm_compute. split; reflexivity. Qed.

Example listDocuments_limit_10 :
  listedIds (fst (listDocuments 3 Mock.props (Mock.listArgs 10) listingEnv
                    emptyWorld))
  = [Some (JStr "a"); Some (JStr "b"); Some (JStr "c"); Some (JStr "d");
     Some (JStr "e")]
  /\ map search
       (requests (snd (listDocuments 3 Mock.props (Mock.listArgs 10)
                         listingEnv emptyWorld)))
     = [ [("withHtmlContent", "true")];
         [("withHtmlContent", "true"); ("pageCursor", "cursor-1")];
         [("withHtmlContent", "true"); ("pageCursor", "cursor-2")] ].
Proof. vm_compute. split; reflexivity. Qed.

(** One page with one document, read through [listDocuments]: the
    progress 0.734 is listed as 73 and the long summary is cut at 100
    characters. *)
Example listing_formats_documents :
  match fst (listDocuments 1 Mock.props (Mock.listArgs 20)
               (Mock.env
                  (Mock.servePages ListBody
                     [mkListResponse 1 None
                        [Mock.document "d1" (Some longSummary) 0.734%float]]))
               emptyWorld) with
  | Val (mkResult (Stringified out) false) =>
      match property "documents" out with
      | Some (JArr [d]) =>
          property "reading_progress" d = Some (JNum 73)
          /\ property "summary" d
             = Some (JStr (String.substring 0 100 longSummary ++ "..."))
      | _ => False
      end
  | _ => False
  end.
Proof. vm_compute. split; reflexivity. Qed.


Lemma pagination_stops_witness :
  (forall fuel : nat,
      (List.length [page1; page2] < fuel)%nat ->
      exists (n : nat) (result : ToolResult) (w' : World),
        NumberLimit.listDocuments fuel Mock.props (listArgsAt 2.5) listingEnv
          emptyWorld
        = (Val result, w')
        /\ isError result = false
        /\ List.length (requests w') = S n
        /\ documentsDoneAt (NumberLimit.limit (listArgsAt 2.5))
             ([page1; page2] ++ [page3]) n
        /\ (forall j : nat,
               (j < n)%nat ->
               ~ documentsDoneAt (NumberLimit.limit (listArgsAt 2.5))
                   ([page1; page2] ++ [page3]) j)
        /\ (~ isWhole (NumberLimit.limit (listArgsAt 2.5)) ->
            exists page : ReaderListResponse,
              nth_error ([page1; page2] ++ [page3]) n = Some page
              /\ truthy (nextPageCursor page) = false))
  /\ (forall fuel : nat,
         (List.length [tagPage1] < fuel)%nat ->
         exists (n : nat) (result : ToolResult) (w' : World),
           NumberLimit.tagList fuel Mock.props 50 tagsEnv emptyWorld
           = (Val result, w')
           /\ isError result = false
           /\ List.length (requests w') = S n
           /\ tagsDoneAt 50 ([tagPage1] ++ [tagPage2]) n
           /\ (forall j : nat,
                  (j < n)%nat ->
                  ~ tagsDoneAt 50 ([tagPage1] ++ [tagPage2]) j)
           /\ (~ isWhole 50 ->
               exists page : ReaderTagsResponse,
                 nth_error ([tagPage1] ++ [tagPage2]) n = Some page
                 /\ truthy (tags_nextPageCursor page) = false)).
Proof.
  apply (pagination_stops Mock.props (listArgsAt 2.5) 50
           [page1; page2] page3 [tagPage1] tagPage2 listingEnv tagsEnv
           emptyWorld); reflexivity.
Defined.

(** At limit 2.5 the loop keeps two documents and reads on to the page
    without a cursor; at limit 3 it stops after the second page. *)
Example listDocuments_limit_2_5 :
  listedIds (fst (NumberLimit.listDocuments 3 Mock.props (listArgsAt 2.5)
                    listingEnv emptyWorld))
  = [Some (JStr "a"); Some (JStr "b")]
  /\ List.length
       (requests (snd (NumberLimit.listDocuments 3 Mock.props
                         (listArgsAt 2.5) listingEnv emptyWorld))) = 3%nat
  /\ List.length
       (requests (snd (NumberLimit.listDocuments 3 Mock.props (listArgsAt 3)
                         listingEnv emptyWorld))) = 2%nat.
Proof. vm_compute. repeat split; reflexivity. Qed.

(** Without a last page the loop need not end: an upstream whose every
    page is empty and points to a next one keeps it going for ever. *)
Lemma listDocumentsLoop_endless (fuel : nat) :
  forall (params : URLSearchParams) (cursor : option string) (w : World),
    fst (listDocumentsLoop fuel Mock.props 20 params [] cursor 0
           (Mock.env (Mock.always (mkResponse 200 "OK" (ListBody endlessPage))))
           w)
    = OutOfFuel.
Proof.
  induction fuel as [| fuel IH]; intros params cursor w.
  - reflexivity.
  - cbn [listDocumentsLoop]. unfold bind at 1. unfold fetch.
    cbn [upstream Mock.env Mock.always].
    change (negb (ok (mkResponse 200 "OK" (ListBody endlessPage))))
      with false.
    cbv iota. unfold bind at 1. cbn [jsonList json ret].
    change (slice (results endlessPage) 0 (20 - 0)) with (@nil ReaderDocument).
    cbn [app List.length Z.of_nat Z.add Z.geb Z.compare orb negb truthy
         nextPageCursor endlessPage].
    change (negb ("again" =? "")%string) with true. cbn [negb].
    apply IH.
Qed.

Lemma listDocuments_may_not_return (fuel : nat) :
  fst (listDocuments fuel Mock.props (Mock.listArgs 20)
         (Mock.env (Mock.always (mkResponse 200 "OK" (ListBody endlessPage))))
         emptyWorld)
  = OutOfFuel.
Proof.
  unfold listDocuments, tryCatch, bind.
  change (limit (Mock.listArgs 20)) with 20.
  match goal with
  | |- context [listDocumentsLoop fuel ?p ?l ?params ?acc ?c ?t ?env ?w] =>
      generalize (listDocumentsLoop_endless fuel params c w);
      destruct (listDocumentsLoop fuel p l params acc c t env w) as [res w']
  end.
  cbn [fst]. intros ->. reflexivity.
Qed.

End ListingExamples.

(** * Further properties of the tools and of the handler *)

(** ** The payloads of createDocument and updateDocument *)

Section Payloads.

Import ReaderMcp.

Lemma truthy_nonempty (s : string) : s <> "" -> truthy (Some s) = true.
Proof.
  intros Hne. unfold truthy.
  destruct (s =? "")%string eqn:E; [| reflexivity].
  apply String.eqb_eq in E. contradiction.
Qed.

Lemma lookup_assignIf_at (payload : list (string * Json)) (k key : string)
  (v : option string) :
  lookup k (assignIf payload key v)
  = if (key =? k)%string && truthy v then option_map JStr v
    else lookup k payload.
Proof.
  unfold assignIf. destruct v as [s |].
  - destruct (truthy (Some s)).
    + rewrite lookup_assign. destruct (key =? k)%string; reflexivity.
    + rewrite andb_false_r. reflexivity.
  - rewrite andb_false_r. reflexivity.
Qed.

Ltac read_payload :=
  repeat first
    [ rewrite lookup_assignIf_at
    | rewrite lookup_assign ];
  cbn [String.eqb Ascii.eqb Bool.eqb andb lookup].

Lemma createPayload_strings (a : CreateDocumentArgs) (key : string)
  (v : option string) :
  In (key, v) (createStrings a) ->
  lookup key (createPayload a)
  = if truthy v then option_map JStr v else None.
Proof.
  unfold createStrings. cbn [In]. intros H.
  repeat match goal with
         | H : _ \/ _ |- _ => destruct H as [H | H]
         | H : False |- _ => contradiction
         end;
    injection H as <- <-;
    unfold createPayload;
    destruct (create_should_clean_html a), (create_tags a);
    read_payload; reflexivity.
Qed.

Lemma createPayload_flag_and_tags (a : CreateDocumentArgs) :
  lookup "should_clean_html" (createPayload a)
  = option_map JBool (create_should_clean_html a)
  /\ lookup "tags" (createPayload a)
     = option_map (fun tags => JArr (map JStr tags)) (create_tags a).
Proof.
  unfold createPayload.
  destruct (create_should_clean_html a), (create_tags a);
    read_payload; split; reflexivity.
Qed.

(** X1.  The JSON payload [createDocument] posts carries every optional
    string the caller supplied non-empty, under its key and unchanged; a
    string supplied empty leaves no key; [should_clean_html] is carried
    whenever supplied, [false] included, and [tags] whenever supplied, the
    empty list included. *)
Theorem createDocument_transmits (this_props : Props)
  (a : CreateDocumentArgs) (env : Env) (w : World) (key : string)
  (v : option string) :
  In (key, v) (createStrings a) ->
  exists payload : Json,
    requests (snd (createDocument this_props a env w))
    = requests w ++ [createRequest this_props payload]
    /\ (forall s : string,
          v = Some s -> s <> "" -> property key payload = Some (JStr s))
    /\ (v = Some "" -> hasKey key payload = false)
    /\ property "should_clean_html" payload
       = option_map JBool (create_should_clean_html a)
    /\ property "tags" payload
       = option_map (fun tags => JArr (map JStr tags)) (create_tags a).
Proof.
  intros Hkey. exists (JObj (createPayload a)).
  split; [apply createDocument_request |].
  unfold hasKey. cbn [property].
  rewrite (createPayload_strings a key v Hkey).
  split; [| split].
  - intros s -> Hne. rewrite truthy_nonempty by exact Hne. reflexivity.
  - intros ->. reflexivity.
  - apply createPayload_flag_and_tags.
Qed.

Lemma createDocument_transmits_witness :
  exists payload : Json,
    requests (snd (createDocument Mock.props articleToSave
                     (Mock.env (Mock.always (mkResponse 201 "Created" NoBody)))
                     emptyWorld))
    = [createRequest Mock.props payload]
    /\ property "title" payload = Some (JStr "On pagination")
    /\ property "should_clean_html" payload = Some (JBool false)
    /\ property "tags" payload = Some (JArr []).
Proof.
  destruct (createDocument_transmits Mock.props articleToSave
              (Mock.env (Mock.always (mkResponse 201 "Created" NoBody)))
              emptyWorld "title" (Some "On pagination"))
    as (payload & Hreq & Hsome & _ & Hflag & Htags).
  - simpl. tauto.
  - exists payload. split; [exact Hreq |].
    split; [apply Hsome; [reflexivity | discriminate] |].
    split; [exact Hflag | exact Htags].
Defined.

Lemma updateDocument_request (this_props : Props) (a : UpdateDocumentArgs)
  (env : Env) (w : World) :
  requests (snd (updateDocument this_props a env w))
  = requests w
    ++ [updateRequest this_props (update_documentId a)
          (JObj (updatePayload a))].
Proof.
  unfold updateDocument, tryCatch, bind, fetch.
  fold (updateEndpoint (update_documentId a)).
  destruct (upstream env (requests w) _) as [r | e]; [| reflexivity].
  destruct (negb (ok r)); [reflexivity |].
  unfold jsonCreate. destruct (json r); reflexivity.
Qed.

Lemma updatePayload_strings (a : UpdateDocumentArgs) (key : string)
  (v : option string) :
  In (key, v) (updateStrings a) ->
  lookup key (updatePayload a)
  = if truthy v then option_map JStr v else None.
Proof.
  unfold updateStrings. cbn [In]. intros H.
  repeat match goal with
         | H : _ \/ _ |- _ => destruct H as [H | H]
         | H : False |- _ => contradiction
         end;
    injection H as <- <-;
    unfold updatePayload; read_payload; reflexivity.
Qed.

Lemma assign_keys (payload : list (string * Json)) (key : string)
  (value : Json) (k : string) :
  In k (map fst (assign payload key value)) ->
  k = key \/ In k (map fst payload).
Proof.
  induction payload as [| [k0 v0] rest IH]; cbn [assign map fst In].
  - intros [H | []]. left. symmetry. exact H.
  - destruct (k0 =? key)%string eqn:E; cbn [map fst In].
    + intros [H | H]; right; [left | right]; assumption.
    + intros [H | H]; [right; left; exact H |].
      destruct (IH H) as [Hk | Hk]; [left | right; right]; assumption.
Qed.

Lemma assignIf_keys (payload : list (string * Json)) (key : string)
  (v : option string) (k : string) :
  In k (map fst (assignIf payload key v)) ->
  (k = key /\ truthy v = true) \/ In k (map fst payload).
Proof.
  unfold assignIf. destruct v as [s |]; [| right; assumption].
  destruct (truthy (Some s)); [| right; assumption].
  intros H. destruct (assign_keys _ _ _ _ H) as [Hk | Hk];
    [left; split; [exact Hk | reflexivity] | right; exact Hk].
Qed.

Lemma updatePayload_keys (a : UpdateDocumentArgs) (k : string) :
  In k (map fst (updatePayload a)) ->
  exists v : option string, In (k, v) (updateStrings a) /\ truthy v = true.
Proof.
  unfold updatePayload, updateStrings. intros H.
  repeat match goal with
         | H : In _ (map fst (assignIf _ _ _)) |- _ =>
             apply assignIf_keys in H; destruct H as [[-> Ht] | H];
             [eexists; split; [| exact Ht]; cbn [In]; tauto |]
         end.
  contradiction.
Qed.

(** X2.  [updateDocument] sends one PATCH to /api/v3/update/<documentId>/
    whose JSON body has a key for each field supplied non-empty, with the
    value given, and no other key: a field supplied as the empty string is
    left out like an absent one, and the document id travels in the path
    only.  With nothing to change the body is the empty object, and the
    request is sent all the same. *)
Theorem updateDocument_sends_supplied_fields (this_props : Props)
  (a : UpdateDocumentArgs) (env : Env) (w : World) :
  exists fields : list (string * Json),
    requests (snd (updateDocument this_props a env w))
    = requests w
      ++ [updateRequest this_props (update_documentId a) (JObj fields)]
    /\ (forall (key : string) (v : option string),
          In (key, v) (updateStrings a) ->
          lookup key fields = if truthy v then option_map JStr v else None)
    /\ (forall key : string,
          In key (map fst fields) ->
          exists v : option string,
            In (key, v) (updateStrings a) /\ truthy v = true)
    /\ ((forall (key : string) (v : option string),
           In (key, v) (updateStrings a) -> truthy v = false) ->
        fields = []).
Proof.
  exists (updatePayload a).
  split; [apply updateDocument_request |].
  split; [apply updatePayload_strings |].
  split; [apply updatePayload_keys |].
  intros Hnone. destruct (updatePayload a) as [| [k0 v0] rest] eqn:E;
    [reflexivity | exfalso].
  destruct (updatePayload_keys a k0) as (v & Hin & Ht);
    [rewrite E; left; reflexivity |].
  rewrite (Hnone k0 v Hin) in Ht. discriminate.
Qed.

End Payloads.

(** ** What the tools return *)

Section ToolResults.

Import ReaderMcp.

Ltac run_tool :=
  cbv beta iota zeta
      delta [tryCatch bind ret throw fetch jsonCreate jsonList jsonTags];
  cbn [requests completions snd fst].

(** X3.  [getDocument] issues one request.  When the upstream answers it
    with a success status and a list body, the result is the first document
    of the list, whatever follows it, and is not an error; an empty list
    gives the error result "Document not found", which names no status. *)
Theorem getDocument_results (this_props : Props) (documentId : string)
  (env : Env) (w : World) (r : Response) (data : ReaderListResponse) :
  upstream env (requests w) (documentRequest this_props documentId)
  = Responds r ->
  ok r = true ->
  json r = ListBody data ->
  requests (snd (getDocument this_props documentId env w))
  = requests w ++ [documentRequest this_props documentId]
  /\ fst (getDocument this_props documentId env w)
     = match results data with
       | [] => Val (mkDocumentResult (Message "Document not found") true)
       | doc :: _ => Val (mkDocumentResult (StringifiedDocument doc) false)
       end.
Proof.
  intros Hup Hok Hbody. unfold getDocument. run_tool.
  fold (documentUrl documentId).
  change (mkRequest GET (documentUrl documentId) []
            (authorization this_props) None)
    with (documentRequest this_props documentId).
  rewrite Hup, Hok. cbn [negb]. run_tool. rewrite Hbody.
  destruct (results data); split; reflexivity.
Qed.

Lemma getDocument_results_witness :
  fst (getDocument Mock.props "b"
         (Mock.env (Mock.always (mkResponse 200 "OK" (ListBody twoFound))))
         emptyWorld)
  = Val (mkDocumentResult
           (StringifiedDocument (Mock.document "b" None 0%float)) false)
  /\ fst (getDocument Mock.props "zz"
            (Mock.env (Mock.always (mkResponse 200 "OK" (ListBody noneFound))))
            emptyWorld)
     = Val (mkDocumentResult (Message "Document not found") true).
Proof.
  split.
  - apply (getDocument_results Mock.props "b"
             (Mock.env (Mock.always (mkResponse 200 "OK" (ListBody twoFound))))
             emptyWorld (mkResponse 200 "OK" (ListBody twoFound)) twoFound);
      reflexivity.
  - apply (getDocument_results Mock.props "zz"
             (Mock.env (Mock.always (mkResponse 200 "OK" (ListBody noneFound))))
             emptyWorld (mkResponse 200 "OK" (ListBody noneFound)) noneFound);
      reflexivity.
Defined.

(** X4.  When the upstream answers the first request of a tool with a
    status outside 200..299, the tool returns an error result whose message
    is the tool's prefix followed by "API request failed: ", the status code
    and the reason phrase.  This holds for each of the six tools. *)
Theorem tools_report_upstream_status (this_props : Props) (env : Env)
  (w : World) (r : Response) :
  (forall req : Request, upstream env (requests w) req = Responds r) ->
  ok r = false ->
  (forall a : CreateDocumentArgs,
      fst (createDocument this_props a env w)
      = Val (toolError "Error creating document" (failureMessage r)))
  /\ (forall a : UpdateDocumentArgs,
         fst (updateDocument this_props a env w)
         = Val (toolError "Error updating document" (failureMessage r)))
  /\ (forall documentId : string,
         fst (deleteDocument this_props documentId env w)
         = Val (toolError "Error deleting document" (failureMessage r)))
  /\ (forall documentId : string,
         fst (getDocument this_props documentId env w)
         = Val (mkDocumentResult
                  (Message ("Error fetching document: " ++ failureMessage r))
                  true))
  /\ (forall (a : ListDocumentsArgs) (fuel : nat),
         fst (listDocuments (S fuel) this_props a env w)
         = Val (toolError "Error fetching documents" (failureMessage r)))
  /\ (forall (tagLimit : Z) (fuel : nat),
         fst (tagList (S fuel) this_props tagLimit env w)
         = Val (toolError "Error fetching tags" (failureMessage r))).
Proof.
  intros Hup Hbad.
  repeat split; intros;
    [ unfold createDocument | unfold updateDocument | unfold deleteDocument
    | unfold getDocument | unfold listDocuments; cbn [listDocumentsLoop]
    | unfold tagList; cbn [tagListLoop] ];
    run_tool; rewrite Hup, Hbad; reflexivity.
Qed.

Lemma tools_report_upstream_status_witness :
  fst (updateDocument Mock.props
         (mkUpdateArgs "doc42" (Some "New title") None None None None None
            None)
         (Mock.env (Mock.always (mkResponse 403 "Forbidden" NoBody)))
         emptyWorld)
  = Val (mkResult
           (Plain "Error updating document: API request failed: 403 Forbidden")
           true)
  /\ fst (tagList 1 Mock.props 50
            (Mock.env (Mock.always (mkResponse 500 "Server Error" NoBody)))
            emptyWorld)
     = Val (mkResult
              (Plain "Error fetching tags: API request failed: 500 Server Error")
              true).
Proof.
  split.
  - apply (tools_report_upstream_status Mock.props
             (Mock.env (Mock.always (mkResponse 403 "Forbidden" NoBody)))
             emptyWorld (mkResponse 403 "Forbidden" NoBody));
      reflexivity.
  - apply (tools_report_upstream_status Mock.props
             (Mock.env (Mock.always (mkResponse 500 "Server Error" NoBody)))
             emptyWorld (mkResponse 500 "Server Error" NoBody));
      reflexivity.
Defined.

(** X5.  When [fetch] itself rejects, each of the six tools returns an
    error result made of its prefix and the message of the error thrown
    ("Unknown error occurred" when what was thrown is not an [Error]); the
    rejection does not leave the tool. *)
Theorem tools_report_rejected_fetch (this_props : Props) (env : Env)
  (w : World) (e : Exn) :
  (forall req : Request, upstream env (requests w) req = Rejects e) ->
  (forall a : CreateDocumentArgs,
      fst (createDocument this_props a env w)
      = Val (toolError "Error creating document" (errorMessage e)))
  /\ (forall a : UpdateDocumentArgs,
         fst (updateDocument this_props a env w)
         = Val (toolError "Error updating document" (errorMessage e)))
  /\ (forall documentId : string,
         fst (deleteDocument this_props documentId env w)
         = Val (toolError "Error deleting document" (errorMessage e)))
  /\ (forall documentId : string,
         fst (getDocument this_props documentId env w)
         = Val (mkDocumentResult
                  (Message ("Error fetching document: " ++ errorMessage e))
                  true))
  /\ (forall (a : ListDocumentsArgs) (fuel : nat),
         fst (listDocuments (S fuel) this_props a env w)
         = Val (toolError "Error fetching documents" (errorMessage e)))
  /\ (forall (tagLimit : Z) (fuel : nat),
         fst (tagList (S fuel) this_props tagLimit env w)
         = Val (toolError "Error fetching tags" (errorMessage e))).
Proof.
  intros Hup.
  repeat split; intros;
    [ unfold createDocument | unfold updateDocument | unfold deleteDocument
    | unfold getDocument | unfold listDocuments; cbn [listDocumentsLoop]
    | unfold tagList; cbn [tagListLoop] ];
    run_tool; rewrite Hup; reflexivity.
Qed.

Lemma tools_report_rejected_fetch_witness :
  fst (createDocument Mock.props onlyUrl
         (Mock.env (fun _ _ => Rejects (JsError "fetch failed"))) emptyWorld)
  = Val (mkResult (Plain "Error creating document: fetch failed") true)
  /\ fst (listDocuments 1 Mock.props (Mock.listArgs 20)
            (Mock.env (fun _ _ => Rejects JsValue)) emptyWorld)
     = Val (mkResult
              (Plain "Error fetching documents: Unknown error occurred") true).
Proof.
  split.
  - apply (tools_report_rejected_fetch Mock.props
             (Mock.env (fun _ _ => Rejects (JsError "fetch failed")))
             emptyWorld (JsError "fetch failed")).
    reflexivity.
  - apply (tools_report_rejected_fetch Mock.props
             (Mock.env (fun _ _ => Rejects JsValue)) emptyWorld JsValue).
    reflexivity.
Defined.



(** A success status with the body of a listing: the tool reports a
    success all the same, and shows the listing as the document saved. *)
Example list_body_is_echoed :
  exists data : Json,
    fst (createDocument Mock.props onlyUrl
           (Mock.env (Mock.always (mkResponse 200 "OK" (ListBody page3))))
           emptyWorld)
    = Val (mkResult
             (Stringified (savedOutput "Document created successfully" data))
             false)
    /\ property "count" data = Some (JNum 5).
Proof. eexists. split; reflexivity. Qed.

(** X7.  No tool lets an exception out: whatever the upstream does, the
    four single-request tools return a result, and the two listing tools
    return a result unless their loop is still running. *)
Theorem tools_never_throw (this_props : Props) (env : Env) (w : World) :
  (forall a : CreateDocumentArgs,
      exists result : ToolResult,
        fst (createDocument this_props a env w) = Val result)
  /\ (forall a : UpdateDocumentArgs,
         exists result : ToolResult,
           fst (updateDocument this_props a env w) = Val result)
  /\ (forall documentId : string,
         exists result : ToolResult,
           fst (deleteDocument this_props documentId env w) = Val result)
  /\ (forall documentId : string,
         exists result : DocumentResult,
           fst (getDocument this_props documentId env w) = Val result)
  /\ (forall (a : ListDocumentsArgs) (fuel : nat) (e : Exn),
         fst (listDocuments fuel this_props a env w) <> Throw e)
  /\ (forall (tagLimit : Z) (fuel : nat) (e : Exn),
         fst (tagList fuel this_props tagLimit env w) <> Throw e).
Proof.
  repeat split; intros.
  - unfold createDocument. run_tool.
    destruct (upstream env (requests w) _) as [r | e];
      [| eexists; reflexivity].
    destruct (ok r); cbn [negb]; [| eexists; reflexivity].
    destruct (json r); eexists; reflexivity.
  - unfold updateDocument. run_tool.
    destruct (upstream env (requests w) _) as [r | e];
      [| eexists; reflexivity].
    destruct (ok r); cbn [negb]; [| eexists; reflexivity].
    destruct (json r); eexists; reflexivity.
  - unfold deleteDocument. run_tool.
    destruct (upstream env (requests w) _) as [r | e];
      [| eexists; reflexivity].
    destruct (ok r); eexists; reflexivity.
  - unfold getDocument. run_tool.
    destruct (upstream env (requests w) _) as [r | e];
      [| eexists; reflexivity].
    destruct (ok r); cbn [negb]; [| eexists; reflexivity].
    destruct (json r) as [| data | | |]; try (eexists; reflexivity).
    destruct (results data); eexists; reflexivity.
  - unfold listDocuments, tryCatch, bind, ret.
    destruct (listDocumentsLoop _ _ _ _ _ _ _ env w) as [[docs | e' |] w'];
      discriminate.
  - unfold tagList, tryCatch, bind, ret.
    destruct (tagListLoop _ _ _ _ _ _ env w) as [[found | e' |] w'];
      discriminate.
Qed.

End ToolResults.

(** ** The keys of an object *)

Section ObjectKeys.

(** An array index is the numeral of its number. *)
Lemma arrayIndex_numeral (key : string) (n : Z) :
  arrayIndex key = Some n -> numberToString n = key.
Proof.
  unfold arrayIndex. destruct (NilZero.uint_of_string key) as [digits |];
    [| discriminate].
  cbv zeta.
  destruct ((numberToString (Z.of_uint digits) =? key)%string) eqn:E;
    cbn [andb]; [| discriminate].
  apply String.eqb_eq in E.
  destruct (Z.of_uint digits <=? 4294967294); [| discriminate].
  intros [= <-]. exact E.
Qed.

Lemma isArrayIndex_false (key : string) :
  negb (isArrayIndex key) = true <-> arrayIndex key = None.
Proof.
  unfold isArrayIndex. destruct (arrayIndex key); cbn; split;
    congruence.
Qed.

Lemma createdKeys_in (keys : list string) (key : string) :
  In key (createdKeys keys) <-> In key keys.
Proof.
  induction keys as [| k rest IH]; [reflexivity |].
  cbn [createdKeys In]. rewrite filter_In, IH.
  destruct (String.eqb_spec key k) as [-> | Hne]; cbn [negb].
  - split; intros _; left; reflexivity.
  - split.
    + intros [H | [H _]]; [left; exact H | right; exact H].
    + intros [H | H]; [left; exact H | right; split; [exact H | reflexivity]].
Qed.

Lemma createdKeys_NoDup (keys : list string) : NoDup (createdKeys keys).
Proof.
  induction keys as [| k rest IH]; cbn [createdKeys]; constructor.
  - rewrite filter_In. intros [_ H]. rewrite String.eqb_refl in H.
    discriminate.
  - apply NoDup_filter, IH.
Qed.

(** When every key comes once, they are the keys as given. *)
Lemma createdKeys_distinct (keys : list string) :
  NoDup keys -> createdKeys keys = keys.
Proof.
  induction keys as [| k rest IH]; intros Hnd; [reflexivity |].
  inversion Hnd as [| k' rest' Hout Hrest]; subst k' rest'.
  cbn [createdKeys]. rewrite (IH Hrest). f_equal.
  apply forallb_filter_id. apply forallb_forall. intros k' Hin.
  destruct (String.eqb_spec k' k) as [-> | _]; [contradiction | reflexivity].
Qed.

Lemma insertIndex_in (n m : Z) (sorted : list Z) :
  In m (insertIndex n sorted) <-> m = n \/ In m sorted.
Proof.
  induction sorted as [| x rest IH]; cbn [insertIndex In].
  - intuition.
  - destruct (n <? x); cbn [In]; [intuition |].
    destruct (n =? x) eqn:E; cbn [In].
    + apply Z.eqb_eq in E. subst x. intuition.
    + rewrite IH. intuition.
Qed.

Lemma insertIndex_HdRel (a n : Z) (sorted : list Z) :
  a < n -> HdRel Z.lt a sorted -> HdRel Z.lt a (insertIndex n sorted).
Proof.
  intros Han Hhd. destruct sorted as [| x rest]; cbn [insertIndex].
  - constructor. exact Han.
  - inversion Hhd; subst. destruct (n <? x); [constructor; exact Han |].
    destruct (n =? x); constructor; assumption.
Qed.

Lemma insertIndex_Sorted (n : Z) (sorted : list Z) :
  Sorted Z.lt sorted -> Sorted Z.lt (insertIndex n sorted).
Proof.
  induction sorted as [| x rest IH]; intros Hs; cbn [insertIndex].
  - repeat constructor.
  - inversion Hs as [| x' rest' Hrest Hhd]; subst x' rest'.
    destruct (n <? x) eqn:Elt.
    + apply Z.ltb_lt in Elt. constructor; [exact Hs |].
      constructor. exact Elt.
    + destruct (n =? x) eqn:Eeq; [exact Hs |].
      apply Z.ltb_ge in Elt. apply Z.eqb_neq in Eeq.
      constructor; [apply IH, Hrest |].
      apply insertIndex_HdRel; [lia | exact Hhd].
Qed.

Lemma sorted_indices (l : list Z) :
  Sorted Z.lt (fold_right insertIndex [] l)
  /\ forall n : Z, In n (fold_right insertIndex [] l) <-> In n l.
Proof.
  induction l as [| x rest [IHs IHin]]; cbn [fold_right].
  - split; [constructor | reflexivity].
  - split; [apply insertIndex_Sorted, IHs |].
    intros n. rewrite insertIndex_in, IHin. cbn [In]. intuition.
Qed.

Lemma Sorted_lt_NoDup (l : list Z) : Sorted Z.lt l -> NoDup l.
Proof.
  intros Hs. apply Sorted_StronglySorted in Hs; [| exact Z.lt_trans].
  induction Hs as [| x rest Hrest IH Hall]; constructor; [| exact IH].
  intros Hin. rewrite Forall_forall in Hall. specialize (Hall x Hin). lia.
Qed.

Lemma numerals_NoDup (l : list Z) :
  NoDup l -> NoDup (map numberToString l).
Proof.
  induction 1 as [| n rest Hout Hnd IH]; cbn [map]; constructor;
    [| exact IH].
  intros Hin. apply in_map_iff in Hin. destruct Hin as (m & Heq & Hm).
  apply numberToString_inj in Heq. subst m. contradiction.
Qed.

Lemma indicesOf_in (keys : list string) (n : Z) :
  In n (indicesOf keys) <-> exists key, In key keys /\ arrayIndex key = Some n.
Proof.
  unfold indicesOf. rewrite in_flat_map. split.
  - intros (key & Hin & Hn). exists key. split; [exact Hin |].
    destruct (arrayIndex key) as [m |]; [| contradiction].
    destruct Hn as [-> | []]. reflexivity.
  - intros (key & Hin & Hn). exists key. split; [exact Hin |].
    rewrite Hn. left. reflexivity.
Qed.

(** [Object.keys] lists each key of the object once: first the array
    indices, in ascending order, then the other keys, in the order in
    which the object has them. *)
Lemma Object_keys_order (o : list (string * Json)) :
  (forall key : string, In key (Object_keys o) <-> In key (map fst o))
  /\ NoDup (Object_keys o)
  /\ exists (indices : list Z) (names : list string),
       Object_keys o = map numberToString indices ++ names
       /\ Sorted Z.lt indices
       /\ Forall (fun n => arrayIndex (numberToString n) = Some n) indices
       /\ Forall (fun key => arrayIndex key = None) names
       /\ (NoDup (map fst o) ->
           names = filter (fun key => negb (isArrayIndex key)) (map fst o)).
Proof.
  unfold Object_keys. set (keys := createdKeys (map fst o)).
  destruct (sorted_indices (indicesOf keys)) as [Hsorted Hin].
  set (indices := fold_right insertIndex [] (indicesOf keys)) in *.
  assert (Hindex : forall n : Z,
             In n indices ->
             In (numberToString n) keys
             /\ arrayIndex (numberToString n) = Some n).
  { intros n Hn. apply Hin, indicesOf_in in Hn.
    destruct Hn as (key & Hkey & Hidx).
    rewrite (arrayIndex_numeral key n Hidx). split; assumption. }
  split; [| split].
  - intros key. rewrite in_app_iff, in_map_iff, filter_In.
    rewrite <- (createdKeys_in (map fst o) key). fold keys. split.
    + intros [(n & <- & Hn) | [Hkey _]]; [apply Hindex, Hn | exact Hkey].
    + intros Hkey. destruct (arrayIndex key) as [n |] eqn:Hidx.
      * left. exists n. split; [apply arrayIndex_numeral, Hidx |].
        apply Hin, indicesOf_in. exists key. split; assumption.
      * right. split; [exact Hkey |]. apply isArrayIndex_false, Hidx.
  - apply NoDup_app.
    + apply numerals_NoDup, Sorted_lt_NoDup, Hsorted.
    + apply NoDup_filter, createdKeys_NoDup.
    + intros key Hkey Hname. apply in_map_iff in Hkey.
      destruct Hkey as (n & <- & Hn). apply filter_In in Hname.
      destruct Hname as [_ Hname]. apply isArrayIndex_false in Hname.
      rewrite (proj2 (Hindex n Hn)) in Hname. discriminate.
  - exists indices, (filter (fun key => negb (isArrayIndex key)) keys).
    split; [reflexivity |]. split; [exact Hsorted |]. split; [| split].
    + apply Forall_forall. intros n Hn. apply Hindex, Hn.
    + apply Forall_forall. intros key Hkey. apply filter_In in Hkey.
      apply isArrayIndex_false, Hkey.
    + intros Hnd. unfold keys. rewrite (createdKeys_distinct _ Hnd).
      reflexivity.
Qed.

Example keys_of_zebra_10_2 :
  Object_keys [("zebra", JNull); ("10", JNull); ("2", JNull)]
  = ["2"; "10"; "zebra"].
Proof. reflexivity. Qed.

End ObjectKeys.

(** ** The other fields of a listed document *)

Section ListedFields.

Import ReaderMcp.

Lemma string_length_append (a b : string) :
  String.length (a ++ b) = (String.length a + String.length b)%nat.
Proof.
  induction a as [| c a IH]; cbn; [reflexivity | rewrite IH; reflexivity].
Qed.

Lemma stdlib_substring_bound (s : string) (n : nat) :
  (String.length (String.substring 0 n s) <= n)%nat.
Proof.
  revert n. induction s as [| c s IH]; intros [| n]; cbn; try lia.
  specialize (IH n). lia.
Qed.

(** X8.  Whatever the document, the summary shown in the listing is
    between 1 and 103 characters long, and the author shown is never empty:
    it is the author of the document when there is one, "Unknown"
    otherwise.  The tags shown are the keys of the document's tags, each
    once, in the order of [Object.keys]: the keys that are array indices
    first, in ascending numeric order, then the other keys in the order in
    which the document has them; a document without tags shows the empty
    list. *)
Theorem listed_fields (doc : ReaderDocument) :
  (exists shown : string,
      property "summary" (formatDocument doc) = Some (JStr shown)
      /\ (1 <= String.length shown <= 103)%nat)
  /\ (exists shown : string,
         property "author" (formatDocument doc) = Some (JStr shown)
         /\ shown <> ""
         /\ (forall name : string,
                author doc = Some name -> name <> "" -> shown = name)
         /\ (author doc = None \/ author doc = Some "" ->
             shown = "Unknown"))
  /\ (exists shown : list string,
         property "tags" (formatDocument doc) = Some (JArr (map JStr shown))
         /\ (tags doc = None -> shown = [])
         /\ (forall entries : list (string * Json),
                tags doc = Some entries ->
                (forall key : string,
                    In key shown <-> In key (map fst entries))
                /\ NoDup shown
                /\ exists (indices : list Z) (names : list string),
                     shown = map numberToString indices ++ names
                     /\ Sorted Z.lt indices
                     /\ Forall
                          (fun n => arrayIndex (numberToString n) = Some n)
                          indices
                     /\ Forall (fun key => arrayIndex key = None) names
                     /\ (NoDup (map fst entries) ->
                         names
                         = filter (fun key => negb (isArrayIndex key))
                             (map fst entries)))).
Proof.
  split; [| split].
  - exists (formatSummary (summary doc)). split; [reflexivity |].
    unfold formatSummary. destruct (summary doc) as [s |]; [| cbn; lia].
    destruct (truthy (Some s)); [| cbn; lia].
    rewrite substring_prefix by lia. rewrite string_length_append.
    change (Z.to_nat 100) with 100%nat.
    pose proof (stdlib_substring_bound s 100). cbn [String.length]. lia.
  - exists (orElse (author doc) "Unknown"). split; [reflexivity |].
    unfold orElse. destruct (author doc) as [name |].
    + destruct (name =? "")%string eqn:E.
      * apply String.eqb_eq in E. subst name.
        split; [discriminate |]. split; [| reflexivity].
        intros name [= <-] Hne. contradiction.
      * apply String.eqb_neq in E.
        split; [exact E |]. split.
        -- intros name' [= <-] _. reflexivity.
        -- intros [H | H]; [discriminate | injection H as ->; contradiction].
    + split; [discriminate |]. split; [| reflexivity].
      intros name H. discriminate.
  - exists (match tags doc with
            | Some entries => Object_keys entries
            | None => []
            end).
    split; [| split].
    + unfold formatDocument, tagKeys.
      cbn [property lookup String.eqb Ascii.eqb Bool.eqb].
      destruct (tags doc); reflexivity.
    + intros ->. reflexivity.
    + intros entries ->. apply Object_keys_order.
Qed.

(** A document whose tags are [zebra], [10] and [2], in this order, shows
    them as [2], [10], [zebra]. *)
Example listed_tags_of_zebra_10_2 :
  property "tags"
    (formatDocument
       (mkDocument "d1" "u" "s" "t" None "src" "article" "new"
          (Some [("zebra", JObj []); ("10", JObj []); ("2", JObj [])])
          "site" 0 "c" "u" "" None None "" None 0%float None None "s" "m"))
  = Some (JArr [JStr "2"; JStr "10"; JStr "zebra"]).
Proof. reflexivity. Qed.

End ListedFields.

(** ** The other paths of POST /authorize *)

Section AuthorizePaths.

Import ReaderHandler.

Variable decodeState : option string -> Exn + AuthRequest.
Variable parseRedirectApproval :
  HttpRequest -> Exn + (option AuthRequest * list (string * string)).

Local Abbreviation handler :=
  (postAuthorize decodeState parseRedirectApproval).



(** X10.  In a token submission the state is decoded before anything
    else: when it does not decode, the handler throws what the decoder
    threw, having sent nothing upstream and completed no authorization. *)
Theorem undecodable_state (c_req : HttpRequest) (f : FormData)
  (token : string) (e : Exn) (env : Env) (w : World) :
  form c_req = Some f -> get f "apiToken" = Some token -> token <> "" ->
  decodeState (get f "state") = inl e ->
  handler c_req env w = (Throw e, w).
Proof.
  intros Hf Htok Hne Hdec.
  rewrite (postAuthorize_token decodeState parseRedirectApproval c_req f
             token Hf Htok Hne).
  unfold tokenSubmission. run_handler. rewrite Hdec. reflexivity.
Qed.

(** X11.  When the token is verified (204) and the list request succeeds,
    the handler asks the provider to complete one authorization: for the
    request decoded from the form, with the scope of that request, the
    label "Readwise Reader User" and, as properties, the very token that
    was submitted.  It then redirects to the target the provider returns,
    or throws what the provider threw. *)
Theorem verified_token_is_granted (c_req : HttpRequest) (f : FormData)
  (token : string) (info : AuthRequest) (r1 r2 : Response)
  (outcome : Exn + string) (env : Env) (w : World) :
  form c_req = Some f -> get f "apiToken" = Some token -> token <> "" ->
  decodeState (get f "state") = inr info ->
  upstream env (requests w) (verifyRequest token) = Responds r1 ->
  status r1 = 204 ->
  upstream env (requests w ++ [verifyRequest token]) (userRequest token)
  = Responds r2 ->
  ok r2 = true ->
  provider env (grantFor token info env) = outcome ->
  exists o : CompleteAuthorizationOptions,
    completions (snd (handler c_req env w)) = completions w ++ [o]
    /\ props o = mkProps token
    /\ request o = info
    /\ opt_scope o = scope info
    /\ metadata_label o = "Readwise Reader User"
    /\ fst (handler c_req env w)
       = match outcome with
         | inr redirectTo => Val (Redirect redirectTo)
         | inl e => Throw e
         end.
Proof.
  intros Hf Htok Hne Hdec Hup1 H204 Hup2 Hok Hprov.
  rewrite (postAuthorize_token decodeState parseRedirectApproval c_req f
             token Hf Htok Hne).
  exists (grantFor token info env).
  unfold tokenSubmission. run_handler. rewrite Hdec. run_handler.
  rewrite Hup1, H204. cbn [Z.eqb Pos.eqb]. run_handler.
  rewrite Hup2, Hok. fold (grantFor token info env). rewrite Hprov.
  destruct outcome as [e | redirectTo]; repeat split; reflexivity.
Qed.

End AuthorizePaths.

Section AuthorizePathsExamples.

Import ReaderHandler.


Lemma undecodable_state_witness :
  postAuthorize (fun _ => inl (JsError "Unexpected token")) noApproval
    (tokenForm "readwise_good") (Mock.env (Mock.statuses [204; 200]))
    emptyWorld
  = (Throw (JsError "Unexpected token"), emptyWorld).
Proof.
  apply (undecodable_state (fun _ => inl (JsError "Unexpected token"))
           noApproval (tokenForm "readwise_good")
           [("state", "eyJ9"); ("apiToken", "readwise_good")]
           "readwise_good" (JsError "Unexpected token")
           (Mock.env (Mock.statuses [204; 200])) emptyWorld);
    try reflexivity.
  discriminate.
Defined.

Lemma verified_token_is_granted_witness :
  exists o : CompleteAuthorizationOptions,
    completions
      (snd (postAuthorize sampleDecode noApproval (tokenForm "readwise_good")
              (Mock.env (Mock.statuses [204; 200])) emptyWorld))
    = completions emptyWorld ++ [o]
    /\ props o = mkProps "readwise_good"
    /\ request o = sampleAuthRequest
    /\ opt_scope o = scope sampleAuthRequest
    /\ metadata_label o = "Readwise Reader User"
    /\ fst (postAuthorize sampleDecode noApproval
              (tokenForm "readwise_good")
              (Mock.env (Mock.statuses [204; 200])) emptyWorld)
       = Val (Redirect
                "https://client.example/callback?user=reader_user_1700000000000").
Proof.
  apply (verified_token_is_granted sampleDecode noApproval
           (tokenForm "readwise_good")
           [("state", "eyJ9"); ("apiToken", "readwise_good")]
           "readwise_good" sampleAuthRequest (mkResponse 204 "" NoBody)
           (mkResponse 200 "" NoBody)
           (inr "https://client.example/callback?user=reader_user_1700000000000")
           (Mock.env (Mock.statuses [204; 200])) emptyWorld);
    try reflexivity.
  discriminate.
Defined.

End AuthorizePathsExamples.

(** ** More on the listing loops *)

Section PaginationMore.

Context {P A : Type}.
Variable endpoint : string.
Variable nextParams : URLSearchParams -> option string -> URLSearchParams.
Variable parse : Response -> M P.
Variable cursorOf : P -> option string.
Variable itemsOf : P -> list A.
Variable wrap : P -> Body.
Hypothesis parse_wrap :
  forall page : P, parse (mkResponse 200 "OK" (wrap page)) = ret page.

Local Abbreviation loop :=
  (paginateLoop endpoint nextParams parse cursorOf itemsOf).
Local Abbreviation through := (itemsThrough itemsOf).
Local Abbreviation stops := (stopsAt cursorOf itemsOf).
Local Abbreviation trace := (requestsFor endpoint nextParams cursorOf).

(** One round of the loop when the upstream answers with the page [p]. *)
Lemma loop_round_at (fuel : nat) (this_props : Props) (limit : Z)
  (params : URLSearchParams) (acc : list A) (cursor : option string)
  (env : Env) (w : World) (p : P) :
  upstream env (requests w)
    (mkRequest GET endpoint (nextParams params cursor)
       (ReaderMcp.authorization this_props) None)
  = Responds (mkResponse 200 "OK" (wrap p)) ->
  Z.of_nat (List.length acc) < limit ->
  loop (S fuel) this_props limit params acc cursor
    (Z.of_nat (List.length acc)) env w
  = if (limit <=? Z.of_nat (List.length (acc ++ itemsOf p)))
       || negb (truthy (cursorOf p))
    then (Val (firstn (Z.to_nat limit) (acc ++ itemsOf p)),
          mkWorld
            (requests w
             ++ [mkRequest GET endpoint (nextParams params cursor)
                   (ReaderMcp.authorization this_props) None])
            (completions w))
    else loop fuel this_props limit (nextParams params cursor)
           (acc ++ itemsOf p) (cursorOf p)
           (Z.of_nat (List.length (acc ++ itemsOf p))) env
           (mkWorld
              (requests w
               ++ [mkRequest GET endpoint (nextParams params cursor)
                     (ReaderMcp.authorization this_props) None])
              (completions w)).
Proof.
  intros Hup Hlt. cbn [paginateLoop].
  unfold bind at 1. unfold fetch. rewrite Hup.
  change (ok (mkResponse 200 "OK" (wrap p))) with true. cbn [negb].
  unfold bind at 1. rewrite parse_wrap. cbn [ret].
  rewrite slice_prefix by lia.
  set (toAdd := firstn _ (itemsOf p)).
  assert (Hlen : List.length toAdd
                 = Nat.min (Z.to_nat (limit - Z.of_nat (List.length acc)))
                     (List.length (itemsOf p)))
    by apply length_firstn.
  assert (Hfill : acc ++ toAdd = firstn (Z.to_nat limit) (acc ++ itemsOf p))
    by (apply firstn_fill; lia).
  rewrite length_app.
  destruct (limit <=? Z.of_nat (List.length acc + List.length (itemsOf p)))
    eqn:Hfull.
  - apply Z.leb_le in Hfull.
    replace (Z.of_nat (List.length acc) + Z.of_nat (List.length toAdd)
             >=? limit) with true
      by (symmetry; apply Z.geb_le; lia).
    cbn [orb]. rewrite Hfill. reflexivity.
  - apply Z.leb_gt in Hfull.
    replace (Z.of_nat (List.length acc) + Z.of_nat (List.length toAdd)
             >=? limit) with false
      by (symmetry; rewrite Z.geb_leb; apply Z.leb_gt; lia).
    cbn [orb].
    destruct (negb (truthy (cursorOf p))).
    + rewrite Hfill. reflexivity.
    + assert (Hall : toAdd = itemsOf p)
        by (apply firstn_all2; lia).
      rewrite Hall. f_equal. lia.
Qed.

(** The requests of a run against an upstream that serves
    [done ++ front ++ [lastPage]]: the loop reads pages up to the one it
    stops at, each of the pages before it pointing on to the next. *)
Lemma loop_serves_trace (this_props : Props) (limit : Z) (lastPage : P) :
  truthy (cursorOf lastPage) = false ->
  forall (front done : list P) (fuel : nat) (params : URLSearchParams)
         (cursor : option string) (env : Env) (w : World) (pages : list P),
    pages = done ++ front ++ [lastPage] ->
    upstream env = Mock.servePages wrap pages ->
    List.length (requests w) = List.length done ->
    (List.length front < fuel)%nat ->
    Z.of_nat (List.length (List.concat (map itemsOf done))) < limit ->
    exists (n : nat) (w' : World),
      (n <= List.length front)%nat
      /\ loop fuel this_props limit params (List.concat (map itemsOf done))
           cursor (Z.of_nat (List.length (List.concat (map itemsOf done))))
           env w
         = (Val (firstn (Z.to_nat limit)
                   (through pages (List.length done + n))), w')
      /\ requests w'
         = requests w
           ++ trace this_props params cursor
                (firstn (S n) (front ++ [lastPage]))
      /\ allPointOn cursorOf (firstn n (front ++ [lastPage])).
Proof.
  intros Hlast front.
  induction front as [| p front IH];
    intros done fuel params cursor env w pages Hpages Hup Hreq Hfuel Hroom;
    (destruct fuel as [| fuel]; [cbn in Hfuel; lia |]).
  - cbn [app] in Hpages.
    assert (Hnth : nth_error pages (List.length (requests w)) = Some lastPage)
      by (rewrite Hreq, Hpages; apply nth_error_served).
    rewrite (loop_round endpoint nextParams parse cursorOf itemsOf wrap
               parse_wrap fuel this_props limit params _ cursor env w pages
               lastPage Hup Hnth Hroom).
    rewrite Hlast. cbn [negb]. rewrite orb_true_r.
    eexists 0%nat, _. rewrite Nat.add_0_r.
    split; [cbn; lia |]. split.
    { rewrite Hpages, through_served. reflexivity. }
    split; [reflexivity | constructor].
  - cbn [app] in Hpages.
    assert (Hnth : nth_error pages (List.length (requests w)) = Some p)
      by (rewrite Hreq, Hpages; apply nth_error_served).
    assert (Hthrough : through pages (List.length done)
                       = List.concat (map itemsOf done) ++ itemsOf p)
      by (rewrite Hpages; apply through_served).
    rewrite (loop_round endpoint nextParams parse cursorOf itemsOf wrap
               parse_wrap fuel this_props limit params _ cursor env w pages
               p Hup Hnth Hroom).
    destruct ((limit <=? Z.of_nat
                 (List.length (List.concat (map itemsOf done) ++ itemsOf p)))
              || negb (truthy (cursorOf p))) eqn:Hcond.
    + eexists 0%nat, _. rewrite Nat.add_0_r.
      split; [lia |]. split.
      { rewrite Hthrough. reflexivity. }
      split; [reflexivity | constructor].
    + apply orb_false_iff in Hcond. destruct Hcond as [Hfull Hcur].
      apply Z.leb_gt in Hfull.
      rewrite <- (concat_snoc itemsOf) in Hfull |- *.
      set (w1 := mkWorld _ _).
      assert (Hpages' : pages = (done ++ [p]) ++ front ++ [lastPage])
        by (rewrite Hpages, <- app_assoc; reflexivity).
      assert (Hreq' : List.length (requests w1) = List.length (done ++ [p]))
        by (unfold w1; cbn [requests]; rewrite !length_app;
            cbn [List.length]; lia).
      assert (Hfuel' : (List.length front < fuel)%nat)
        by (cbn [List.length] in Hfuel; lia).
      destruct (IH (done ++ [p]) fuel (nextParams params cursor)
                  (cursorOf p) env w1 pages Hpages' Hup Hreq' Hfuel' Hfull)
        as (n & w' & Hn & Hrun & Hreqs & Hpoint).
      rewrite length_app in Hrun. cbn [List.length] in Hrun.
      exists (S n), w'.
      replace (List.length done + S n)%nat
        with (List.length done + 1 + n)%nat by lia.
      split; [cbn [List.length]; lia |].
      split; [exact Hrun |]. split.
      * rewrite Hreqs. unfold w1. cbn [requests].
        rewrite <- app_assoc. reflexivity.
      * cbn [app firstn]. constructor; [| exact Hpoint].
        destruct (truthy (cursorOf p)); [reflexivity | discriminate].
Qed.

(** The loop against an upstream that serves pages which all point on,
    without filling the limit, and then answers with a failure status:
    the failure is thrown, whatever was read before. *)
Lemma loop_fails (this_props : Props) (limit : Z) (r : Response) :
  ok r = false ->
  forall (rest done : list P) (fuel : nat) (params : URLSearchParams)
         (cursor : option string) (env : Env) (w : World) (pages : list P),
    pages = done ++ rest ->
    upstream env = Mock.servePagesThen wrap pages (Responds r) ->
    List.length (requests w) = List.length done ->
    (List.length rest < fuel)%nat ->
    allPointOn cursorOf rest ->
    Z.of_nat (List.length (List.concat (map itemsOf pages))) < limit ->
    exists w' : World,
      loop fuel this_props limit params (List.concat (map itemsOf done))
        cursor (Z.of_nat (List.length (List.concat (map itemsOf done))))
        env w
      = (Throw (apiRequestFailed r), w')
      /\ List.length (requests w') = S (List.length pages).
Proof.
  intros Hbad rest.
  induction rest as [| p rest IH];
    intros done fuel params cursor env w pages Hpages Hup Hreq Hfuel Hpoint
           Hroom;
    (destruct fuel as [| fuel]; [cbn in Hfuel; lia |]).
  - rewrite app_nil_r in Hpages. subst pages.
    eexists. cbn [paginateLoop]. unfold bind at 1. unfold fetch.
    rewrite Hup. unfold Mock.servePagesThen. rewrite Hreq.
    rewrite (proj2 (nth_error_None done (List.length done)))
      by apply Nat.le_refl.
    rewrite Hbad. cbn [negb]. split; [reflexivity |].
    cbn [requests]. rewrite length_app. cbn [List.length]. lia.
  - inversion Hpoint as [| p' rest' Hp Hrest]; subst p' rest'.
    assert (Hsplit :
              List.concat (map itemsOf pages)
              = (List.concat (map itemsOf done) ++ itemsOf p)
                ++ List.concat (map itemsOf rest)).
    { rewrite Hpages, map_app, concat_app. cbn [map List.concat].
      rewrite app_assoc. reflexivity. }
    assert (Hless :
              Z.of_nat
                (List.length (List.concat (map itemsOf done) ++ itemsOf p))
              < limit).
    { rewrite Hsplit in Hroom. rewrite length_app in Hroom. lia. }
    assert (Hacc : Z.of_nat (List.length (List.concat (map itemsOf done)))
                   < limit)
      by (rewrite length_app in Hless; lia).
    rewrite loop_round_at with (p := p); [| | exact Hacc].
    2:{ rewrite Hup. unfold Mock.servePagesThen.
        rewrite Hreq, Hpages, nth_error_served. reflexivity. }
    rewrite Hp. cbn [negb]. rewrite orb_false_r.
    destruct (limit <=? _) eqn:Hfull; [apply Z.leb_le in Hfull; lia |].
    rewrite <- (concat_snoc itemsOf) in Hless |- *.
    set (w1 := mkWorld _ _).
    apply (IH (done ++ [p]) fuel (nextParams params cursor) (cursorOf p)
             env w1 pages).
    + rewrite Hpages, <- app_assoc. reflexivity.
    + exact Hup.
    + unfold w1. cbn [requests]. rewrite !length_app. cbn [List.length]. lia.
    + cbn [List.length] in Hfuel. lia.
    + exact Hrest.
    + exact Hroom.
Qed.

Lemma through_prefix (pages : list P) (k : nat) :
  exists beyond : list A,
    List.concat (map itemsOf pages) = through pages k ++ beyond.
Proof.
  exists (List.concat (map itemsOf (skipn (S k) pages))).
  unfold itemsThrough. rewrite <- concat_app, <- map_app, firstn_skipn.
  reflexivity.
Qed.

(** When the pages before the last all point on and the upstream holds no
    more items than the limit, the loop returns every item. *)
Lemma loop_returns_all (this_props : Props) (limit : Z) (lastPage : P)
  (front : list P) (fuel : nat) (params : URLSearchParams) (env : Env)
  (w : World) :
  0 < limit ->
  truthy (cursorOf lastPage) = false ->
  allPointOn cursorOf front ->
  Z.of_nat (List.length (List.concat (map itemsOf (front ++ [lastPage]))))
  <= limit ->
  upstream env = Mock.servePages wrap (front ++ [lastPage]) ->
  requests w = [] ->
  (List.length front < fuel)%nat ->
  fst (loop fuel this_props limit params [] None 0 env w)
  = Val (List.concat (map itemsOf (front ++ [lastPage]))).
Proof.
  intros Hlim Hlast Hpoint Htotal Hup Hw Hfuel.
  destruct (loop_serves endpoint nextParams parse cursorOf itemsOf wrap
              parse_wrap this_props limit lastPage Hlast front [] fuel
              params None env w (front ++ [lastPage]) eq_refl Hup)
    as (n & w' & Hn & Hrun & _ & _ & Hstop & _);
    [rewrite Hw; reflexivity | exact Hfuel | cbn; lia |].
  cbn [map List.concat List.length Nat.add Z.of_nat] in Hrun, Hstop.
  rewrite Hrun. cbn [fst]. f_equal.
  set (pages := front ++ [lastPage]) in *.
  destruct (through_prefix pages n) as (beyond & Hall).
  assert (Hlen : (List.length (List.concat (map itemsOf pages))
                  = List.length (through pages n) + List.length beyond)%nat)
    by (rewrite Hall, length_app; reflexivity).
  destruct Hstop as [Hfull | (page & Hpage & Hfalsy)].
  - assert (Hnil : beyond = [])
      by (apply length_zero_iff_nil; lia).
    rewrite Hall, Hnil, app_nil_r. apply firstn_all2. lia.
  - assert (Hlastn : n = List.length front).
    { destruct (Nat.eq_dec n (List.length front)) as [E | E]; [exact E |].
      exfalso. unfold pages in Hpage.
      rewrite nth_error_app1 in Hpage by lia.
      unfold allPointOn in Hpoint. rewrite Forall_forall in Hpoint.
      apply nth_error_In in Hpage. rewrite (Hpoint page Hpage) in Hfalsy.
      discriminate. }
    assert (Hwhole : through pages n = List.concat (map itemsOf pages)).
    { unfold itemsThrough. rewrite firstn_all2; [reflexivity |].
      unfold pages. rewrite length_app. cbn [List.length]. lia. }
    rewrite Hwhole. apply firstn_all2. lia.
Qed.

End PaginationMore.

(** ** The queries of the listing tools *)

Section Queries.

Import ReaderMcp.

Context {P : Type}.
Variable cursorOf : P -> option string.

Lemma appendIf_filterPair (params : URLSearchParams) (name : string)
  (v : option string) :
  appendIf params name v = params ++ filterPair name v.
Proof.
  unfold appendIf, filterPair, truthy, append.
  destruct v as [s |]; [| rewrite app_nil_r; reflexivity].
  destruct (s =? "")%string; cbn [negb];
    [rewrite app_nil_r |]; reflexivity.
Qed.

Lemma filterQuery_params (a : ListDocumentsArgs) :
  append
    (appendIf
       (appendIf
          (appendIf (appendIf [] "location" (list_location a)) "category"
             (list_category a))
          "tag" (list_tag a))
       "updatedAfter" (list_updatedAfter a))
    "withHtmlContent" "true"
  = filterQuery a.
Proof.
  rewrite !appendIf_filterPair. unfold append, filterQuery.
  cbn [app]. rewrite <- !app_assoc. reflexivity.
Qed.

Lemma filterQuery_lacks_cursor (a : ListDocumentsArgs) :
  lacks "pageCursor" (filterQuery a).
Proof.
  unfold filterQuery, lacks, filterPair.
  repeat (apply Forall_app; split);
    repeat match goal with
           | |- context [match ?v with Some _ => _ | None => _ end] =>
               destruct v
           | |- context [if ?c then _ else _] => destruct c
           end;
    repeat constructor.
Qed.

Lemma set_appends (base : URLSearchParams) (name value : string) :
  lacks name base -> set base name value = base ++ [(name, value)].
Proof.
  induction 1 as [| [n v] rest Hn Hrest IH]; cbn [set app].
  - reflexivity.
  - cbn [fst] in Hn. rewrite Hn, IH. reflexivity.
Qed.

Lemma set_replaces (base : URLSearchParams) (name old value : string) :
  lacks name base ->
  set (base ++ [(name, old)]) name value = base ++ [(name, value)].
Proof.
  induction 1 as [| [n v] rest Hn Hrest IH]; cbn [set app].
  - rewrite String.eqb_refl. reflexivity.
  - cbn [fst] in Hn. rewrite Hn, IH. reflexivity.
Qed.

(** The query of the next request of [listDocuments], from the query of
    the one before: the cursor pair is added once and overwritten after. *)
Lemma next_query (base params : URLSearchParams) (cursor : option string) :
  lacks "pageCursor" base ->
  params = base \/ (exists old : string, params = base ++ [("pageCursor", old)]) ->
  truthy cursor = true ->
  setIf params "pageCursor" cursor = base ++ cursorPair cursor.
Proof.
  intros Hlacks Hparams Hcur. unfold setIf, cursorPair.
  destruct cursor as [c |]; [| discriminate].
  rewrite Hcur. unfold truthy in Hcur.
  destruct (c =? "")%string; [discriminate |].
  destruct Hparams as [-> | (old & ->)];
    [apply set_appends | apply set_replaces]; exact Hlacks.
Qed.

Lemma listing_trace (this_props : Props) (base : URLSearchParams) :
  lacks "pageCursor" base ->
  forall (pages : list P) (params : URLSearchParams)
         (cursor : option string),
    (truthy cursor = true
     /\ (params = base
         \/ exists old : string, params = base ++ [("pageCursor", old)]))
    \/ (cursor = None /\ params = base) ->
    allPointOn cursorOf (removelast pages) ->
    map search
      (requestsFor listEndpoint (fun p c => setIf p "pageCursor" c) cursorOf
         this_props params cursor pages)
    = map (fun c => base ++ cursorPair c)
        (firstn (List.length pages) (cursor :: map cursorOf pages)).
Proof.
  intros Hlacks pages.
  induction pages as [| p rest IH]; intros params cursor Hstart Hpoint.
  - reflexivity.
  - cbn [requestsFor map search List.length firstn]. f_equal.
    + destruct Hstart as [[Hcur Hparams] | [-> ->]].
      * apply next_query; assumption.
      * cbn. rewrite app_nil_r. reflexivity.
    + destruct rest as [| q rest]; [reflexivity |].
      assert (Hp : truthy (cursorOf p) = true
                   /\ allPointOn cursorOf (removelast (q :: rest))).
      { change (removelast (p :: q :: rest))
          with (p :: removelast (q :: rest)) in Hpoint.
        inversion Hpoint; subst. split; assumption. }
      apply IH; [| apply Hp]. left. split; [apply Hp |].
      destruct Hstart as [[Hcur Hparams] | [-> ->]].
      * right. rewrite (next_query base params cursor Hlacks Hparams Hcur).
        unfold cursorPair. destruct cursor as [c |]; [| discriminate].
        unfold truthy in Hcur. destruct (c =? "")%string; [discriminate |].
        exists c. reflexivity.
      * left. reflexivity.
Qed.

Lemma tags_trace (this_props : Props) :
  forall (pages : list P) (params : URLSearchParams)
         (cursor : option string),
    map search
      (requestsFor tagsEndpoint (fun _ c => setIf [] "pageCursor" c) cursorOf
         this_props params cursor pages)
    = map cursorPair
        (firstn (List.length pages) (cursor :: map cursorOf pages)).
Proof.
  induction pages as [| p rest IH]; intros params cursor.
  - reflexivity.
  - cbn [requestsFor map search List.length firstn]. f_equal.
    + unfold setIf, cursorPair, truthy. destruct cursor as [c |];
        [| reflexivity].
      destruct (c =? "")%string; reflexivity.
    + apply IH.
Qed.

Lemma removelast_firstn_succ (pages : list P) (n : nat) :
  (n < List.length pages)%nat ->
  removelast (firstn (S n) pages) = firstn n pages.
Proof.
  revert n. induction pages as [| p rest IH]; intros n Hn;
    [cbn in Hn; lia |].
  destruct n as [| m]; [reflexivity |].
  destruct rest as [| q rest]; [cbn in Hn; lia |].
  assert (Hm : (m < List.length (q :: rest))%nat)
    by (cbn [List.length] in Hn |- *; lia).
  specialize (IH m Hm).
  change (firstn (S (S m)) (p :: q :: rest))
    with (p :: q :: firstn m rest).
  change (firstn (S m) (p :: q :: rest)) with (p :: firstn m (q :: rest)).
  change (firstn (S m) (q :: rest)) with (q :: firstn m rest) in IH.
  cbn [removelast] in IH |- *. rewrite IH. reflexivity.
Qed.

Lemma cursors_sent (pages : list P) (n : nat) (cursor : option string) :
  (n < List.length pages)%nat ->
  firstn (List.length (firstn (S n) pages))
    (cursor :: map cursorOf (firstn (S n) pages))
  = cursor :: map cursorOf (firstn n pages).
Proof.
  intros Hn. rewrite length_firstn, Nat.min_l by lia.
  rewrite firstn_cons. f_equal.
  rewrite firstn_map, firstn_firstn, Nat.min_l by lia. reflexivity.
Qed.

End Queries.

(** ** More on listDocuments and tagList *)

Section ListingMore.

Import ReaderMcp.

Lemma listDocuments_runs (fuel : nat) (this_props : Props)
  (a : ListDocumentsArgs) (env : Env) (w w' : World)
  (docs : list ReaderDocument) :
  paginateLoop listEndpoint (fun p c => setIf p "pageCursor" c) jsonList
    nextPageCursor results fuel this_props (limit a) (filterQuery a) [] None
    0 env w
  = (Val docs, w') ->
  listDocuments fuel this_props a env w
  = (Val (mkResult (Stringified (listDocumentsOutput a docs)) false), w').
Proof.
  intros Hrun. unfold listDocuments. rewrite filterQuery_params.
  apply (wrapped_value _
           (fun allDocuments =>
              mkResult (Stringified (listDocumentsOutput a allDocuments))
                false)).
  rewrite listDocumentsLoop_shape. exact Hrun.
Qed.

Lemma tagList_runs (fuel : nat) (this_props : Props) (tagLimit : Z)
  (env : Env) (w w' : World) (found : list ReaderTag) :
  paginateLoop tagsEndpoint (fun _ c => setIf [] "pageCursor" c) jsonTags
    tags_nextPageCursor tags_results fuel this_props tagLimit [] [] None 0
    env w
  = (Val found, w') ->
  tagList fuel this_props tagLimit env w
  = (Val (mkResult (Stringified (tagListOutput found)) false), w').
Proof.
  intros Hrun. unfold tagList.
  apply (wrapped_value _
           (fun allTags =>
              mkResult (Stringified (tagListOutput allTags)) false)).
  rewrite (tagListLoop_shape fuel this_props tagLimit []). exact Hrun.
Qed.

(** X12.  Against an upstream that serves a sequence of tag pages, and for
    a limit from 1 to 100, whole or not, [tagList] reads the pages up to
    the first one at which the count of the tags kept has reached the limit
    or which has no next cursor, one request for each.  It returns no more
    tags than the limit, in page order: the first tags of the pages read,
    as many as the whole part of the limit allows; [count] is their number.
    When the limit is a whole number, these are the pages read, every one
    in full except the last one read, of which the tags are kept that the
    limit leaves room for. *)
Theorem tagList_page_order (this_props : Props) (tagLimit : Q)
  (front : tagPages) (lastPage : ReaderTagsResponse) (env : Env) (w : World)
  (fuel : nat) :
  NumberLimit.limitSchema tagLimit = true ->
  truthy (tags_nextPageCursor lastPage) = false ->
  upstream env = Mock.servePages TagsBody (front ++ [lastPage]) ->
  requests w = [] ->
  (List.length front < fuel)%nat ->
  exists (n : nat) (page : ReaderTagsResponse) (found : list ReaderTag)
         (out : Json) (w' : World),
    NumberLimit.tagList fuel this_props tagLimit env w
    = (Val (mkResult (Stringified out) false), w')
    /\ List.length (requests w') = S n
    /\ tagsDoneAt tagLimit (front ++ [lastPage]) n
    /\ (forall j : nat,
           (j < n)%nat -> ~ tagsDoneAt tagLimit (front ++ [lastPage]) j)
    /\ nth_error (front ++ [lastPage]) n = Some page
    /\ property "tags" out = Some (JArr (map tagJson found))
    /\ property "count" out = Some (JNum (Z.of_nat (List.length found)))
    /\ (inject_Z (Z.of_nat (List.length found)) <= tagLimit)%Q
    /\ found = firstn (Z.to_nat (Qfloor tagLimit))
                 (List.concat
                    (map tags_results (firstn (S n) (front ++ [lastPage]))))
    /\ (isWhole tagLimit ->
        found
        = List.concat (map tags_results (firstn n (front ++ [lastPage])))
          ++ firstn
               (Z.to_nat (Qfloor tagLimit)
                - List.length
                    (List.concat
                       (map tags_results (firstn n (front ++ [lastPage])))))
               (tags_results page)).
Proof.
  intros Hschema Hlast Hup Hw Hfuel.
  apply limitSchema_number in Hschema. destruct Hschema as (_ & _ & Hfloor).
  destruct (tagListLoop_number_serves this_props tagLimit front lastPage env
              w fuel)
    as (n & w' & Hn & Hrun & Hreqs & Hstop & Hbefore); try assumption;
    [lia |].
  set (pages := front ++ [lastPage]) in *.
  destruct (nth_error pages n) as [page |] eqn:Hpage.
  2:{ apply nth_error_None in Hpage. unfold pages in Hpage.
      rewrite length_app in Hpage. cbn in Hpage. lia. }
  set (found := keptThrough tags_results tagLimit pages n) in *.
  exists n, page, found, (tagListOutput found), w'.
  split.
  { unfold NumberLimit.tagList.
    apply (wrapped_value _
             (fun allTags =>
                mkResult (Stringified (tagListOutput allTags)) false)).
    exact Hrun. }
  split; [exact Hreqs |]. split; [exact Hstop |]. split; [exact Hbefore |].
  split; [exact Hpage |]. split; [reflexivity |]. split; [reflexivity |].
  split; [apply kept_bounded; lia |].
  split; [reflexivity |].
  intros Hwhole. apply kept_last_cut; [exact Hpage |].
  destruct n as [| m]; [cbn; lia |].
  apply Z.lt_le_incl.
  apply (whole_limit_keeps_pages tags_nextPageCursor tags_results tagLimit
           pages m ltac:(lia) Hwhole).
  apply Hbefore. lia.
Qed.

Lemma tagList_page_order_witness :
  exists (n : nat) (page : ReaderTagsResponse) (found : list ReaderTag)
         (out : Json) (w' : World),
    NumberLimit.tagList 2 Mock.props 1.5 tagsEnv emptyWorld
    = (Val (mkResult (Stringified out) false), w')
    /\ List.length (requests w') = S n
    /\ tagsDoneAt 1.5 ([tagPage1] ++ [tagPage2]) n
    /\ (forall j : nat,
           (j < n)%nat -> ~ tagsDoneAt 1.5 ([tagPage1] ++ [tagPage2]) j)
    /\ nth_error ([tagPage1] ++ [tagPage2]) n = Some page
    /\ property "tags" out = Some (JArr (map tagJson found))
    /\ property "count" out = Some (JNum (Z.of_nat (List.length found)))
    /\ (inject_Z (Z.of_nat (List.length found)) <= 1.5)%Q
    /\ found = firstn (Z.to_nat (Qfloor 1.5))
                 (List.concat
                    (map tags_results
                       (firstn (S n) ([tagPage1] ++ [tagPage2]))))
    /\ (isWhole 1.5 ->
        found
        = List.concat
            (map tags_results (firstn n ([tagPage1] ++ [tagPage2])))
          ++ firstn
               (Z.to_nat (Qfloor 1.5)
                - List.length
                    (List.concat
                       (map tags_results
                          (firstn n ([tagPage1] ++ [tagPage2])))))
               (tags_results page)).
Proof.
  apply (tagList_page_order Mock.props 1.5 [tagPage1] tagPage2 tagsEnv
           emptyWorld 2); try reflexivity.
  simpl. lia.
Defined.

(** X13.  Against an upstream that serves a sequence of pages,
    [listDocuments] sends, for the pages it reads, one request each: the
    first with the non-empty filters of the call, in the order location,
    category, tag, updatedAfter, followed by [withHtmlContent=true]; each
    later one with that same query followed by one [pageCursor], the
    [nextPageCursor] of the page read just before.  *)
Theorem listDocuments_queries (this_props : Props) (a : ListDocumentsArgs)
  (front : documentPages) (lastPage : ReaderListResponse) (env : Env)
  (w : World) (fuel : nat) :
  limitSchema (limit a) = true ->
  truthy (nextPageCursor lastPage) = false ->
  upstream env = Mock.servePages ListBody (front ++ [lastPage]) ->
  requests w = [] ->
  (List.length front < fuel)%nat ->
  exists n : nat,
    (n <= List.length front)%nat
    /\ fst (listDocuments fuel this_props a env w)
       = Val (mkResult
                (Stringified
                   (listDocumentsOutput a
                      (firstn (Z.to_nat (limit a))
                         (itemsThrough results (front ++ [lastPage]) n))))
                false)
    /\ map search (requests (snd (listDocuments fuel this_props a env w)))
       = map (fun cursor => filterQuery a ++ cursorPair cursor)
           (None :: map nextPageCursor (firstn n (front ++ [lastPage])))
    /\ allPointOn nextPageCursor (firstn n (front ++ [lastPage])).
Proof.
  intros Hschema Hlast Hup Hw Hfuel.
  apply limitSchema_bounds in Hschema.
  destruct (loop_serves_trace listEndpoint (fun p c => setIf p "pageCursor" c)
              jsonList nextPageCursor results ListBody (fun page => eq_refl)
              this_props (limit a) lastPage Hlast front [] fuel
              (filterQuery a) None env w (front ++ [lastPage]) eq_refl Hup)
    as (n & w' & Hn & Hrun & Hreqs & Hpoint);
    [rewrite Hw; reflexivity | exact Hfuel | cbn; lia |].
  cbn [map List.concat List.length Nat.add Z.of_nat] in Hrun.
  exists n. split; [exact Hn |].
  rewrite (listDocuments_runs fuel this_props a env w w' _ Hrun).
  cbn [fst snd]. split; [reflexivity |]. split; [| exact Hpoint].
  assert (Hlen : (n < List.length (front ++ [lastPage]))%nat)
    by (rewrite length_app; cbn [List.length]; lia).
  rewrite Hreqs, Hw. cbn [app].
  rewrite (listing_trace nextPageCursor this_props (filterQuery a)
             (filterQuery_lacks_cursor a)).
  - rewrite cursors_sent by exact Hlen. reflexivity.
  - right. split; reflexivity.
  - rewrite removelast_firstn_succ by exact Hlen. exact Hpoint.
Qed.

Lemma listDocuments_queries_witness :
  exists n : nat,
    (n <= List.length [page1; page2])%nat
    /\ fst (listDocuments 3 Mock.props
              (mkListArgs (Some "later") None (Some "") None 10) listingEnv
              emptyWorld)
       = Val (mkResult
                (Stringified
                   (listDocumentsOutput
                      (mkListArgs (Some "later") None (Some "") None 10)
                      (firstn (Z.to_nat 10)
                         (itemsThrough results ([page1; page2] ++ [page3])
                            n))))
                false)
    /\ map search
         (requests
            (snd (listDocuments 3 Mock.props
                    (mkListArgs (Some "later") None (Some "") None 10)
                    listingEnv emptyWorld)))
       = map (fun cursor =>
                filterQuery (mkListArgs (Some "later") None (Some "") None 10)
                ++ cursorPair cursor)
           (None :: map nextPageCursor (firstn n ([page1; page2] ++ [page3])))
    /\ allPointOn nextPageCursor (firstn n ([page1; page2] ++ [page3])).
Proof.
  apply (listDocuments_queries Mock.props
           (mkListArgs (Some "later") None (Some "") None 10)
           [page1; page2] page3 listingEnv emptyWorld 3); try reflexivity.
  simpl. lia.
Defined.

(** X14.  Against an upstream that serves a sequence of tag pages,
    [tagList] sends one request for each page it reads: the first with an
    empty query, each later one with the single pair [pageCursor], the
    [nextPageCursor] of the page read just before. *)
Theorem tagList_queries (this_props : Props) (tagLimit : Z)
  (front : tagPages) (lastPage : ReaderTagsResponse) (env : Env) (w : World)
  (fuel : nat) :
  limitSchema tagLimit = true ->
  truthy (tags_nextPageCursor lastPage) = false ->
  upstream env = Mock.servePages TagsBody (front ++ [lastPage]) ->
  requests w = [] ->
  (List.length front < fuel)%nat ->
  exists n : nat,
    (n <= List.length front)%nat
    /\ fst (tagList fuel this_props tagLimit env w)
       = Val (mkResult
                (Stringified
                   (tagListOutput
                      (firstn (Z.to_nat tagLimit)
                         (itemsThrough tags_results (front ++ [lastPage])
                            n))))
                false)
    /\ map search (requests (snd (tagList fuel this_props tagLimit env w)))
       = map cursorPair
           (None :: map tags_nextPageCursor (firstn n (front ++ [lastPage])))
    /\ allPointOn tags_nextPageCursor (firstn n (front ++ [lastPage])).
Proof.
  intros Hschema Hlast Hup Hw Hfuel.
  apply limitSchema_bounds in Hschema.
  destruct (loop_serves_trace tagsEndpoint
              (fun _ c => setIf [] "pageCursor" c) jsonTags
              tags_nextPageCursor tags_results TagsBody (fun page => eq_refl)
              this_props tagLimit lastPage Hlast front [] fuel [] None env w
              (front ++ [lastPage]) eq_refl Hup)
    as (n & w' & Hn & Hrun & Hreqs & Hpoint);
    [rewrite Hw; reflexivity | exact Hfuel | cbn; lia |].
  cbn [map List.concat List.length Nat.add Z.of_nat] in Hrun.
  exists n. split; [exact Hn |].
  rewrite (tagList_runs fuel this_props tagLimit env w w' _ Hrun).
  cbn [fst snd]. split; [reflexivity |]. split; [| exact Hpoint].
  assert (Hlen : (n < List.length (front ++ [lastPage]))%nat)
    by (rewrite length_app; cbn [List.length]; lia).
  rewrite Hreqs, Hw. cbn [app].
  rewrite tags_trace, cursors_sent by exact Hlen. reflexivity.
Qed.

Lemma tagList_queries_witness :
  exists n : nat,
    (n <= List.length [tagPage1])%nat
    /\ fst (tagList 2 Mock.props 50 tagsEnv emptyWorld)
       = Val (mkResult
                (Stringified
                   (tagListOutput
                      (firstn (Z.to_nat 50)
                         (itemsThrough tags_results ([tagPage1] ++ [tagPage2])
                            n))))
                false)
    /\ map search (requests (snd (tagList 2 Mock.props 50 tagsEnv emptyWorld)))
       = map cursorPair
           (None
            :: map tags_nextPageCursor (firstn n ([tagPage1] ++ [tagPage2])))
    /\ allPointOn tags_nextPageCursor (firstn n ([tagPage1] ++ [tagPage2])).
Proof.
  apply (tagList_queries Mock.props 50 [tagPage1] tagPage2 tagsEnv
           emptyWorld 2); try reflexivity.
  simpl. lia.
Defined.

Lemma wrapped_throw {X Y : Type} (m : M X) (f : X -> Y) (g : Exn -> Y)
  (env : Env) (w : World) (e : Exn) (w' : World) :
  m env w = (Throw e, w') ->
  tryCatch (bind m (fun x => ret (f x))) (fun e => ret (g e)) env w
  = (Val (g e), w').
Proof.
  intros H. unfold tryCatch, bind, ret. rewrite H. reflexivity.
Qed.

(** X15.  When every page but the last points on to a next one and the
    upstream holds no more documents than the limit, [listDocuments]
    returns all of them, in page order. *)
Theorem listDocuments_returns_everything (this_props : Props)
  (a : ListDocumentsArgs) (front : documentPages)
  (lastPage : ReaderListResponse) (env : Env) (w : World) (fuel : nat) :
  limitSchema (limit a) = true ->
  truthy (nextPageCursor lastPage) = false ->
  allPointOn nextPageCursor front ->
  Z.of_nat (List.length (List.concat (map results (front ++ [lastPage]))))
  <= limit a ->
  upstream env = Mock.servePages ListBody (front ++ [lastPage]) ->
  requests w = [] ->
  (List.length front < fuel)%nat ->
  fst (listDocuments fuel this_props a env w)
  = Val (mkResult
           (Stringified
              (listDocumentsOutput a
                 (List.concat (map results (front ++ [lastPage])))))
           false).
Proof.
  intros Hschema Hlast Hpoint Htotal Hup Hw Hfuel.
  apply limitSchema_bounds in Hschema.
  pose proof (loop_returns_all listEndpoint
                (fun p c => setIf p "pageCursor" c) jsonList nextPageCursor
                results ListBody (fun page => eq_refl) this_props (limit a)
                lastPage front fuel (filterQuery a) env w ltac:(lia) Hlast
                Hpoint Htotal Hup Hw Hfuel) as Hall.
  destruct (paginateLoop _ _ _ _ _ fuel this_props (limit a) (filterQuery a)
              [] None 0 env w) as [res w'] eqn:Hrun.
  cbn [fst] in Hall. subst res.
  rewrite (listDocuments_runs fuel this_props a env w w' _ Hrun).
  reflexivity.
Qed.

Lemma listDocuments_returns_everything_witness :
  fst (listDocuments 3 Mock.props (Mock.listArgs 5) listingEnv emptyWorld)
  = Val (mkResult
           (Stringified
              (listDocumentsOutput (Mock.listArgs 5)
                 (List.concat (map results ([page1; page2] ++ [page3])))))
           false).
Proof.
  apply (listDocuments_returns_everything Mock.props (Mock.listArgs 5)
           [page1; page2] page3 listingEnv emptyWorld 3);
    try reflexivity; first [solve [repeat constructor] | simpl; lia].
Defined.

(** X16.  When every page of tags but the last points on to a next one and
    the upstream holds no more tags than the limit, [tagList] returns all
    of them, in page order. *)
Theorem tagList_returns_everything (this_props : Props) (tagLimit : Z)
  (front : tagPages) (lastPage : ReaderTagsResponse) (env : Env) (w : World)
  (fuel : nat) :
  limitSchema tagLimit = true ->
  truthy (tags_nextPageCursor lastPage) = false ->
  allPointOn tags_nextPageCursor front ->
  Z.of_nat
    (List.length (List.concat (map tags_results (front ++ [lastPage]))))
  <= tagLimit ->
  upstream env = Mock.servePages TagsBody (front ++ [lastPage]) ->
  requests w = [] ->
  (List.length front < fuel)%nat ->
  fst (tagList fuel this_props tagLimit env w)
  = Val (mkResult
           (Stringified
              (tagListOutput
                 (List.concat (map tags_results (front ++ [lastPage])))))
           false).
Proof.
  intros Hschema Hlast Hpoint Htotal Hup Hw Hfuel.
  apply limitSchema_bounds in Hschema.
  pose proof (loop_returns_all tagsEndpoint
                (fun _ c => setIf [] "pageCursor" c) jsonTags
                tags_nextPageCursor tags_results TagsBody
                (fun page => eq_refl) this_props tagLimit lastPage front fuel
                [] env w ltac:(lia) Hlast Hpoint Htotal Hup Hw Hfuel) as Hall.
  destruct (paginateLoop _ _ _ _ _ fuel this_props tagLimit [] [] None 0
              env w) as [res w'] eqn:Hrun.
  cbn [fst] in Hall. subst res.
  rewrite (tagList_runs fuel this_props tagLimit env w w' _ Hrun).
  reflexivity.
Qed.

Lemma tagList_returns_everything_witness :
  fst (tagList 2 Mock.props 50 tagsEnv emptyWorld)
  = Val (mkResult
           (Stringified
              (tagListOutput
                 (List.concat (map tags_results ([tagPage1] ++ [tagPage2])))))
           false).
Proof.
  apply (tagList_returns_everything Mock.props 50 [tagPage1] tagPage2
           tagsEnv emptyWorld 2);
    try reflexivity; first [solve [repeat constructor] | simpl; lia].
Defined.

(** X17.  A listing fails as a whole: when the upstream serves pages that
    all point on, without filling the limit, and then answers with a
    failure status, [listDocuments] and [tagList] return the error result
    for that status and none of the items read so far, after one request
    more than the pages served. *)
Theorem listing_fails_as_a_whole (this_props : Props)
  (a : ListDocumentsArgs) (tagLimit : Z) (documents : documentPages)
  (tags : tagPages) (r : Response) (envD envT : Env) (w : World)
  (fuel : nat) :
  limitSchema (limit a) = true ->
  limitSchema tagLimit = true ->
  ok r = false ->
  allPointOn nextPageCursor documents ->
  allPointOn tags_nextPageCursor tags ->
  Z.of_nat (List.length (List.concat (map results documents))) < limit a ->
  Z.of_nat (List.length (List.concat (map tags_results tags))) < tagLimit ->
  upstream envD = Mock.servePagesThen ListBody documents (Responds r) ->
  upstream envT = Mock.servePagesThen TagsBody tags (Responds r) ->
  requests w = [] ->
  (List.length documents < fuel)%nat ->
  (List.length tags < fuel)%nat ->
  (fst (listDocuments fuel this_props a envD w)
   = Val (toolError "Error fetching documents" (failureMessage r))
   /\ List.length (requests (snd (listDocuments fuel this_props a envD w)))
      = S (List.length documents))
  /\ (fst (tagList fuel this_props tagLimit envT w)
      = Val (toolError "Error fetching tags" (failureMessage r))
      /\ List.length (requests (snd (tagList fuel this_props tagLimit envT w)))
         = S (List.length tags)).
Proof.
  intros HschemaD HschemaT Hbad HpointD HpointT HroomD HroomT HupD HupT Hw
         HfuelD HfuelT.
  split.
  - destruct (loop_fails listEndpoint (fun p c => setIf p "pageCursor" c)
                jsonList nextPageCursor results ListBody
                (fun page => eq_refl) this_props (limit a) r Hbad documents
                [] fuel (filterQuery a) None envD w documents eq_refl HupD)
      as (w' & Hrun & Hreqs);
      [rewrite Hw; reflexivity | exact HfuelD | exact HpointD | exact HroomD
      |].
    cbn [map List.concat List.length Z.of_nat] in Hrun.
    unfold listDocuments. rewrite filterQuery_params.
    rewrite (wrapped_throw _
               (fun allDocuments =>
                  mkResult (Stringified (listDocumentsOutput a allDocuments))
                    false)
               (fun error =>
                  mkResult
                    (Plain ("Error fetching documents: "
                            ++ errorMessage error)%string) true)
               envD w (apiRequestFailed r) w').
    + split; [reflexivity | exact Hreqs].
    + rewrite listDocumentsLoop_shape. exact Hrun.
  - destruct (loop_fails tagsEndpoint (fun _ c => setIf [] "pageCursor" c)
                jsonTags tags_nextPageCursor tags_results TagsBody
                (fun page => eq_refl) this_props tagLimit r Hbad tags
                [] fuel [] None envT w tags eq_refl HupT)
      as (w' & Hrun & Hreqs);
      [rewrite Hw; reflexivity | exact HfuelT | exact HpointT | exact HroomT
      |].
    cbn [map List.concat List.length Z.of_nat] in Hrun.
    unfold tagList.
    rewrite (wrapped_throw _
               (fun allTags =>
                  mkResult (Stringified (tagListOutput allTags)) false)
               (fun error =>
                  mkResult
                    (Plain ("Error fetching tags: "
                            ++ errorMessage error)%string) true)
               envT w (apiRequestFailed r) w').
    + split; [reflexivity | exact Hreqs].
    + rewrite (tagListLoop_shape fuel this_props tagLimit []). exact Hrun.
Qed.

Lemma listing_fails_as_a_whole_witness :
  (fst (listDocuments 3 Mock.props (Mock.listArgs 10) failingEnv emptyWorld)
   = Val (mkResult
            (Plain
               "Error fetching documents: API request failed: 502 Bad Gateway")
            true)
   /\ List.length
        (requests
           (snd (listDocuments 3 Mock.props (Mock.listArgs 10) failingEnv
                   emptyWorld)))
      = 3%nat)
  /\ (fst (tagList 3 Mock.props 50
             (Mock.env
                (Mock.servePagesThen TagsBody [tagPage1]
                   (Responds (mkResponse 502 "Bad Gateway" NoBody))))
             emptyWorld)
      = Val (mkResult
               (Plain "Error fetching tags: API request failed: 502 Bad Gateway")
               true)
      /\ List.length
           (requests
              (snd (tagList 3 Mock.props 50
                      (Mock.env
                         (Mock.servePagesThen TagsBody [tagPage1]
                            (Responds (mkResponse 502 "Bad Gateway" NoBody))))
                      emptyWorld)))
         = 2%nat).
Proof.
  apply (listing_fails_as_a_whole Mock.props (Mock.listArgs 10) 50
           [page1; page2] [tagPage1] (mkResponse 502 "Bad Gateway" NoBody)
           failingEnv
           (Mock.env
              (Mock.servePagesThen TagsBody [tagPage1]
                 (Responds (mkResponse 502 "Bad Gateway" NoBody))))
           emptyWorld 3);
    try reflexivity; first [solve [repeat constructor] | simpl; lia].
Defined.

End ListingMore.

(** ** Where the token goes *)

Section Credential.

Import ReaderMcp.

(** Whatever the upstream answers, the loop issues requests of one shape
    only. *)
Lemma paginateLoop_requests {P A : Type} (endpoint : string)
  (nextParams : URLSearchParams -> option string -> URLSearchParams)
  (parse : Response -> M P) (cursorOf : P -> option string)
  (itemsOf : P -> list A) (this_props : Props) (limit : Z) :
  (forall (r : Response) (env : Env) (w : World), snd (parse r env w) = w) ->
  forall (fuel : nat) (params : URLSearchParams) (acc : list A)
         (cursor : option string) (total : Z) (env : Env) (w : World),
    exists issued : list Request,
      requests
        (snd (paginateLoop endpoint nextParams parse cursorOf itemsOf fuel
                this_props limit params acc cursor total env w))
      = requests w ++ issued
      /\ Forall (loopRequest endpoint this_props) issued.
Proof.
  intros Hpure fuel.
  induction fuel as [| fuel IH]; intros params acc cursor total env w.
  - exists []. cbn. rewrite app_nil_r. split; [reflexivity | constructor].
  - cbn [paginateLoop].
    set (req := mkRequest GET endpoint (nextParams params cursor)
                  (authorization this_props) None).
    assert (Hreq : loopRequest endpoint this_props req)
      by (repeat split).
    set (w1 := mkWorld (requests w ++ [req]) (completions w)).
    assert (Hone : forall (X : Type) (res : Res X),
               exists issued : list Request,
                 requests (snd (res, w1)) = requests w ++ issued
                 /\ Forall (loopRequest endpoint this_props) issued).
    { intros X res. exists [req]. split; [reflexivity |].
      constructor; [exact Hreq | constructor]. }
    unfold bind at 1. unfold fetch. fold w1.
    destruct (upstream env (requests w) req) as [r | e]; [| apply Hone].
    destruct (negb (ok r)); [apply Hone |].
    unfold bind at 1.
    pose proof (Hpure r env w1) as Hw.
    destruct (parse r env w1) as [[data | e |] w2]; cbn [snd] in Hw; subst w2;
      try apply Hone.
    match goal with
    | |- context [if ?c then _ else _] => destruct c
    end; [apply Hone |].
    match goal with
    | |- context [paginateLoop _ _ _ _ _ fuel this_props limit ?p ?a ?c ?t
                    env w1] =>
        destruct (IH p a c t env w1) as (issued & Hissued & Hall)
    end.
    exists (req :: issued). rewrite Hissued. unfold w1. cbn [requests].
    rewrite <- app_assoc. split; [reflexivity |].
    constructor; assumption.
Qed.

Lemma loopRequest_bearsToken (endpoint : string) (this_props : Props)
  (r : Request) :
  String.prefix "https://readwise.io/api/v3/" endpoint = true ->
  loopRequest endpoint this_props r -> bearsToken this_props r.
Proof.
  intros Hprefix (_ & Hurl & Hheaders & _). unfold bearsToken.
  rewrite Hurl, Hheaders. split; [exact Hprefix |].
  exists []. split; [reflexivity | constructor].
Qed.

Lemma one_request_bearsToken (this_props : Props) (w w' : World)
  (r : Request) :
  requests w' = requests w ++ [r] ->
  bearsToken this_props r ->
  exists issued : list Request,
    requests w' = requests w ++ issued
    /\ Forall (bearsToken this_props) issued.
Proof.
  intros Hw Hr. exists [r]. split; [exact Hw |].
  constructor; [exact Hr | constructor].
Qed.

Lemma deleteDocument_request (this_props : Props) (documentId : string)
  (env : Env) (w : World) :
  requests (snd (deleteDocument this_props documentId env w))
  = requests w ++ [deleteRequest this_props documentId].
Proof.
  unfold deleteDocument, tryCatch, bind, fetch.
  fold (deleteRequest this_props documentId).
  destruct (upstream env (requests w) _) as [r | e]; [| reflexivity].
  destruct (negb (ok r)); reflexivity.
Qed.

Lemma getDocument_request (this_props : Props) (documentId : string)
  (env : Env) (w : World) :
  requests (snd (getDocument this_props documentId env w))
  = requests w ++ [documentRequest this_props documentId].
Proof.
  unfold getDocument, tryCatch, bind, fetch.
  change (mkRequest GET (documentUrl documentId) []
            (authorization this_props) None)
    with (documentRequest this_props documentId).
  destruct (upstream env (requests w) _) as [r | e]; [| reflexivity].
  destruct (negb (ok r)); [reflexivity |].
  unfold jsonList. destruct (json r) as [| data | | |]; try reflexivity.
  cbn [ret]. destruct (results data); reflexivity.
Qed.

(** X18.  Whatever the arguments and whatever the upstream answers, every
    request a tool issues is for a URL that, as handed to [fetch], starts
    with https://readwise.io/api/v3/, and carries exactly one
    [Authorization] header, "Token " followed by the token bound to the
    session. *)
Theorem every_request_bears_the_token (this_props : Props) (env : Env)
  (w : World) :
  (forall a : CreateDocumentArgs,
      exists issued : list Request,
        requests (snd (createDocument this_props a env w))
        = requests w ++ issued
        /\ Forall (bearsToken this_props) issued)
  /\ (forall a : UpdateDocumentArgs,
         exists issued : list Request,
           requests (snd (updateDocument this_props a env w))
           = requests w ++ issued
           /\ Forall (bearsToken this_props) issued)
  /\ (forall documentId : string,
         exists issued : list Request,
           requests (snd (deleteDocument this_props documentId env w))
           = requests w ++ issued
           /\ Forall (bearsToken this_props) issued)
  /\ (forall documentId : string,
         exists issued : list Request,
           requests (snd (getDocument this_props documentId env w))
           = requests w ++ issued
           /\ Forall (bearsToken this_props) issued)
  /\ (forall (a : ListDocumentsArgs) (fuel : nat),
         exists issued : list Request,
           requests (snd (listDocuments fuel this_props a env w))
           = requests w ++ issued
           /\ Forall (bearsToken this_props) issued)
  /\ (forall (tagLimit : Z) (fuel : nat),
         exists issued : list Request,
           requests (snd (tagList fuel this_props tagLimit env w))
           = requests w ++ issued
           /\ Forall (bearsToken this_props) issued).
Proof.
  assert (Hjson : forall (r : Response) (env0 : Env) (w0 : World),
             snd (jsonList r env0 w0) = w0)
    by (intros r env0 w0; unfold jsonList; destruct (json r); reflexivity).
  assert (Htags : forall (r : Response) (env0 : Env) (w0 : World),
             snd (jsonTags r env0 w0) = w0)
    by (intros r env0 w0; unfold jsonTags; destruct (json r); reflexivity).
  repeat split.
  - intros a. eapply one_request_bearsToken; [apply createDocument_request |].
    split; [reflexivity |]. eexists. split; [reflexivity |].
    repeat constructor. discriminate.
  - intros a. eapply one_request_bearsToken; [apply updateDocument_request |].
    split; [reflexivity |]. eexists. split; [reflexivity |].
    repeat constructor. discriminate.
  - intros documentId.
    eapply one_request_bearsToken; [apply deleteDocument_request |].
    split; [reflexivity |]. eexists. split; [reflexivity | constructor].
  - intros documentId.
    eapply one_request_bearsToken; [apply getDocument_request |].
    split; [reflexivity |]. eexists. split; [reflexivity | constructor].
  - intros a fuel. unfold listDocuments. rewrite wrapped_world.
    rewrite listDocumentsLoop_shape.
    match goal with
    | |- context [paginateLoop ?e ?np ?ps ?c ?i fuel this_props ?l ?p ?acc
                    ?cur ?t env w] =>
        destruct (paginateLoop_requests e np ps c i this_props l Hjson fuel
                    p acc cur t env w) as (issued & Hissued & Hall)
    end.
    exists issued. split; [exact Hissued |].
    eapply Forall_impl; [| exact Hall].
    intros r. apply loopRequest_bearsToken. reflexivity.
  - intros tagLimit fuel. unfold tagList. rewrite wrapped_world.
    rewrite (tagListLoop_shape fuel this_props tagLimit []).
    match goal with
    | |- context [paginateLoop ?e ?np ?ps ?c ?i fuel this_props ?l ?p ?acc
                    ?cur ?t env w] =>
        destruct (paginateLoop_requests e np ps c i this_props l Htags fuel
                    p acc cur t env w) as (issued & Hissued & Hall)
    end.
    exists issued. split; [exact Hissued |].
    eapply Forall_impl; [| exact Hall].
    intros r. apply loopRequest_bearsToken. reflexivity.
Qed.

End Credential.

(** ** The earlier listDocuments *)

Section Legacy.

Import ReaderMcp.

Lemma lacks_not_in (name : string) (params : URLSearchParams) (v : string) :
  lacks name params -> ~ In (name, v) params.
Proof.
  unfold lacks. rewrite Forall_forall. intros Hl Hin.
  specialize (Hl _ Hin). cbn [fst] in Hl.
  rewrite String.eqb_refl in Hl. discriminate.
Qed.

Lemma set_lacks (params : URLSearchParams) (name value k : string) :
  (name =? k)%string = false ->
  lacks k params -> lacks k (set params name value).
Proof.
  intros Hk. unfold lacks.
  induction params as [| [n v] rest IH]; cbn [set]; intros Hl.
  - constructor; [exact Hk | constructor].
  - inversion Hl as [| x l Hn Hrest]; subst x l. cbn [fst] in Hn.
    destruct (n =? name)%string.
    + constructor; [exact Hk |].
      rewrite Forall_forall in Hrest |- *.
      intros pair Hpair. apply filter_In in Hpair. apply Hrest, Hpair.
    + constructor; [exact Hn | apply IH, Hrest].
Qed.

Lemma setIf_lacks_html (params : URLSearchParams) (cursor : option string) :
  lacks "withHtmlContent" params ->
  lacks "withHtmlContent" (setIf params "pageCursor" cursor).
Proof.
  intros H. unfold setIf. destruct cursor as [c |]; [| exact H].
  destruct (truthy (Some c)); [| exact H].
  apply set_lacks; [reflexivity | exact H].
Qed.

Lemma filters_lack_html (a : ListDocumentsArgs) :
  lacks "withHtmlContent"
    (appendIf
       (appendIf
          (appendIf (appendIf [] "location" (list_location a)) "category"
             (list_category a))
          "tag" (list_tag a))
       "updatedAfter" (list_updatedAfter a)).
Proof.
  rewrite !appendIf_filterPair. cbn [app]. unfold lacks, filterPair.
  repeat (apply Forall_app; split);
    repeat match goal with
           | |- context [match ?v with Some _ => _ | None => _ end] =>
               destruct v
           | |- context [if ?c then _ else _] => destruct c
           end;
    repeat constructor.
Qed.

Lemma listDocumentsLoop_plain (fuel : nat) (this_props : Props) (limit : Z) :
  forall (params : URLSearchParams) (acc : list ReaderDocument)
         (cursor : option string) (total : Z) (env : Env) (w : World),
    lacks "withHtmlContent" params ->
    exists issued : list Request,
      requests (snd (listDocumentsLoop fuel this_props limit params acc
                       cursor total env w))
      = requests w ++ issued
      /\ Forall plainListRequest issued.
Proof.
  induction fuel as [| fuel IH]; intros params acc cursor total env w Hl.
  - exists []. cbn. rewrite app_nil_r. split; [reflexivity | constructor].
  - cbn [listDocumentsLoop].
    set (params' := setIf params "pageCursor" cursor).
    set (req := mkRequest GET listEndpoint params'
                  (authorization this_props) None).
    assert (Hl' : lacks "withHtmlContent" params')
      by apply setIf_lacks_html, Hl.
    assert (Hreq : plainListRequest req).
    { repeat split. intros v. apply lacks_not_in. exact Hl'. }
    set (w1 := mkWorld (requests w ++ [req]) (completions w)).
    assert (Hone : forall (X : Type) (res : Res X),
               exists issued : list Request,
                 requests (snd (res, w1)) = requests w ++ issued
                 /\ Forall plainListRequest issued).
    { intros X res. exists [req]. split; [reflexivity |].
      constructor; [exact Hreq | constructor]. }
    unfold bind at 1. unfold fetch. fold w1.
    destruct (upstream env (requests w) req) as [r | e]; [| apply Hone].
    destruct (negb (ok r)); [apply Hone |].
    unfold bind at 1. unfold jsonList.
    destruct (json r) as [| b | b | b | b]; try apply Hone.
    cbn [ret].
    match goal with
    | |- context [if ?c then _ else _] => destruct c
    end; [apply Hone |].
    match goal with
    | |- context [listDocumentsLoop fuel this_props limit params' ?a ?c ?t
                    env w1] =>
        destruct (IH params' a c t env w1 Hl') as (issued & Hissued & Hall)
    end.
    exists (req :: issued). rewrite Hissued. unfold w1. cbn [requests].
    rewrite <- app_assoc. split; [reflexivity |].
    constructor; assumption.
Qed.

Lemma listDocumentsLoop_by_turn (fuel : nat) (this_props : Props)
  (limit : Z) (env : Env) :
  answersByTurn (upstream env) ->
  forall (params1 params2 : URLSearchParams) (acc : list ReaderDocument)
         (cursor : option string) (total : Z) (w1 w2 : World),
    List.length (requests w1) = List.length (requests w2) ->
    fst (listDocumentsLoop fuel this_props limit params1 acc cursor total
           env w1)
    = fst (listDocumentsLoop fuel this_props limit params2 acc cursor total
             env w2).
Proof.
  intros Hturn.
  induction fuel as [| fuel IH];
    intros params1 params2 acc cursor total w1 w2 Hlen.
  - reflexivity.
  - cbn [listDocumentsLoop]. unfold bind at 1 3. unfold fetch.
    rewrite (Hturn (requests w1) (requests w2)
               (mkRequest GET listEndpoint
                  (setIf params1 "pageCursor" cursor)
                  (authorization this_props) None)
               (mkRequest GET listEndpoint
                  (setIf params2 "pageCursor" cursor)
                  (authorization this_props) None) Hlen).
    destruct (upstream env (requests w2) _) as [r | e]; [| reflexivity].
    destruct (negb (ok r)); [reflexivity |].
    unfold bind at 1 2. unfold jsonList.
    destruct (json r) as [| b | b | b | b]; try reflexivity.
    cbn [ret].
    match goal with
    | |- context [if ?c then _ else _] => destruct c
    end; [reflexivity |].
    apply IH. cbn [requests]. rewrite !length_app. cbn [List.length]. lia.
Qed.

Lemma wrapped_fst {X Y : Type} (m1 m2 : M X) (f : X -> Y) (g : Exn -> Y)
  (env : Env) (w1 w2 : World) :
  fst (m1 env w1) = fst (m2 env w2) ->
  fst (tryCatch (bind m1 (fun x => ret (f x))) (fun e => ret (g e)) env w1)
  = fst (tryCatch (bind m2 (fun x => ret (f x))) (fun e => ret (g e)) env w2).
Proof.
  unfold tryCatch, bind, ret.
  destruct (m1 env w1) as [res1 w1'], (m2 env w2) as [res2 w2'].
  cbn [fst]. intros ->. destruct res2; reflexivity.
Qed.

(** X19.  The earlier [listDocuments] never asks for the HTML content:
    whatever the arguments and the upstream, each of its requests is a GET
    of /api/v3/list/ without a [withHtmlContent] pair.  Against an upstream
    that answers by turn, without looking at the request, it returns what
    the current [listDocuments] returns. *)
Theorem legacy_listDocuments (fuel : nat) (this_props : Props)
  (a : ListDocumentsArgs) (env : Env) (w : World) :
  (exists issued : list Request,
      requests (snd (LegacyMcp.listDocuments fuel this_props a env w))
      = requests w ++ issued
      /\ Forall plainListRequest issued)
  /\ (answersByTurn (upstream env) ->
      fst (LegacyMcp.listDocuments fuel this_props a env w)
      = fst (listDocuments fuel this_props a env w)).
Proof.
  split.
  - unfold LegacyMcp.listDocuments. rewrite wrapped_world.
    apply listDocumentsLoop_plain, filters_lack_html.
  - intros Hturn. unfold LegacyMcp.listDocuments, listDocuments.
    apply (wrapped_fst _ _
             (fun allDocuments =>
                mkResult (Stringified (listDocumentsOutput a allDocuments))
                  false)
             (fun error =>
                mkResult
                  (Plain ("Error fetching documents: "
                          ++ errorMessage error)%string) true)).
    apply listDocumentsLoop_by_turn; [exact Hturn | reflexivity].
Qed.

End Legacy.

Section LegacyExample.

Import ReaderMcp.

Lemma servePages_by_turn {X : Type} (wrap : X -> Body) (pages : list X) :
  answersByTurn (Mock.servePages wrap pages).
Proof.
  intros h1 h2 r1 r2 Hlen. unfold Mock.servePages. rewrite Hlen.
  reflexivity.
Qed.

Lemma legacy_listDocuments_witness :
  fst (LegacyMcp.listDocuments 3 Mock.props (Mock.listArgs 3) listingEnv
         emptyWorld)
  = fst (listDocuments 3 Mock.props (Mock.listArgs 3) listingEnv emptyWorld).
Proof.
  apply (proj2 (legacy_listDocuments 3 Mock.props (Mock.listArgs 3)
                  listingEnv emptyWorld)).
  apply servePages_by_turn.
Defined.

End LegacyExample.

Section LegacyDocument.

Import ReaderMcp.

(** X20.  The earlier [getDocument] sends one GET of
    /api/v3/list/?id=<documentId>, with no [withHtmlContent], and handles
    the answer as the current one does: whatever the upstream answers to
    the request of the one, if it answers the same to the request of the
    other, both return the same result. *)
Theorem legacy_getDocument (this_props : Props) (documentId : string)
  (env : Env) (w : World) :
  requests (snd (LegacyMcp.getDocument this_props documentId env w))
  = requests w ++ [legacyDocumentRequest this_props documentId]
  /\ (upstream env (requests w) (legacyDocumentRequest this_props documentId)
      = upstream env (requests w) (documentRequest this_props documentId) ->
      fst (LegacyMcp.getDocument this_props documentId env w)
      = fst (getDocument this_props documentId env w)).
Proof.
  unfold LegacyMcp.getDocument, getDocument, tryCatch, bind, fetch.
  change (mkRequest GET (LegacyMcp.documentUrl documentId) []
            (authorization this_props) None)
    with (legacyDocumentRequest this_props documentId).
  change (mkRequest GET (documentUrl documentId) []
            (authorization this_props) None)
    with (documentRequest this_props documentId).
  split.
  - destruct (upstream env (requests w) _) as [r | e]; [| reflexivity].
    destruct (negb (ok r)); [reflexivity |].
    unfold jsonList. destruct (json r) as [| data | | |]; try reflexivity.
    cbn [ret]. destruct (results data); reflexivity.
  - intros <-.
    destruct (upstream env (requests w) _) as [r | e]; [| reflexivity].
    destruct (negb (ok r)); [reflexivity |].
    unfold jsonList. destruct (json r) as [| data | | |]; try reflexivity.
    cbn [ret]. destruct (results data); reflexivity.
Qed.

End LegacyDocument.

(** ** The filters of listDocuments *)

Section Filters.

Import ReaderMcp.

(** The queries of a run of the loop all keep what the first query has and
    the step to the next query preserves. *)
Lemma paginateLoop_queries {P A : Type} (endpoint : string)
  (nextParams : URLSearchParams -> option string -> URLSearchParams)
  (parse : Response -> M P) (cursorOf : P -> option string)
  (itemsOf : P -> list A) (this_props : Props) (limit : Z)
  (kept : URLSearchParams -> Prop) :
  (forall (r : Response) (env : Env) (w : World), snd (parse r env w) = w) ->
  (forall (params : URLSearchParams) (cursor : option string),
      kept params -> kept (nextParams params cursor)) ->
  forall (fuel : nat) (params : URLSearchParams) (acc : list A)
         (cursor : option string) (total : Z) (env : Env) (w : World),
    kept params ->
    exists issued : list Request,
      requests
        (snd (paginateLoop endpoint nextParams parse cursorOf itemsOf fuel
                this_props limit params acc cursor total env w))
      = requests w ++ issued
      /\ Forall (fun r => kept (search r)) issued.
Proof.
  intros Hpure Hstep fuel.
  induction fuel as [| fuel IH];
    intros params acc cursor total env w Hkept.
  - exists []. cbn. rewrite app_nil_r. split; [reflexivity | constructor].
  - cbn [paginateLoop].
    set (req := mkRequest GET endpoint (nextParams params cursor)
                  (authorization this_props) None).
    assert (Hreq : kept (search req)) by apply Hstep, Hkept.
    set (w1 := mkWorld (requests w ++ [req]) (completions w)).
    assert (Hone : forall (X : Type) (res : Res X),
               exists issued : list Request,
                 requests (snd (res, w1)) = requests w ++ issued
                 /\ Forall (fun r => kept (search r)) issued).
    { intros X res. exists [req]. split; [reflexivity |].
      constructor; [exact Hreq | constructor]. }
    unfold bind at 1. unfold fetch. fold w1.
    destruct (upstream env (requests w) req) as [r | e]; [| apply Hone].
    destruct (negb (ok r)); [apply Hone |].
    unfold bind at 1.
    pose proof (Hpure r env w1) as Hw.
    destruct (parse r env w1) as [[data | e |] w2]; cbn [snd] in Hw; subst w2;
      try apply Hone.
    match goal with
    | |- context [if ?c then _ else _] => destruct c
    end; [apply Hone |].
    match goal with
    | |- context [paginateLoop _ _ _ _ _ fuel this_props limit ?p ?a ?c ?t
                    env w1] =>
        destruct (IH p a c t env w1 Hreq) as (issued & Hissued & Hall)
    end.
    exists (req :: issued). rewrite Hissued. unfold w1. cbn [requests].
    rewrite <- app_assoc. split; [reflexivity |].
    constructor; assumption.
Qed.

Lemma filterPair_in (name : string) (v : option string) (value : string) :
  v = Some value -> value <> "" -> In (name, value) (filterPair name v).
Proof.
  intros -> Hne. unfold filterPair.
  destruct (value =? "")%string eqn:E;
    [apply String.eqb_eq in E; contradiction | left; reflexivity].
Qed.

Lemma inEnum_nonempty (values : list string) (value : string) :
  existsb (String.eqb "") values = false ->
  inEnum values (Some value) = true -> value <> "".
Proof.
  intros Hnone Hin ->. cbn [inEnum] in Hin. congruence.
Qed.

(** X21.  Whatever the upstream answers, every request of a call of
    [listDocuments] carries each filter the caller supplied non-empty,
    under its name and with its value.  A location or a category that
    passes the schema is never empty, so it is carried by every request of
    the call. *)
Theorem filters_reach_every_request (fuel : nat) (this_props : Props)
  (a : ListDocumentsArgs) (env : Env) (w : World) :
  exists issued : list Request,
    requests (snd (listDocuments fuel this_props a env w))
    = requests w ++ issued
    /\ Forall
         (fun r =>
            (forall value : string,
                list_tag a = Some value -> value <> "" ->
                In ("tag", value) (search r))
            /\ (forall value : string,
                   list_updatedAfter a = Some value -> value <> "" ->
                   In ("updatedAfter", value) (search r))
            /\ (listDocumentsSchema a = true ->
                (forall value : string,
                    list_location a = Some value ->
                    In ("location", value) (search r))
                /\ (forall value : string,
                       list_category a = Some value ->
                       In ("category", value) (search r))))
         issued.
Proof.
  assert (Hjson : forall (r : Response) (env0 : Env) (w0 : World),
             snd (jsonList r env0 w0) = w0)
    by (intros r env0 w0; unfold jsonList; destruct (json r); reflexivity).
  unfold listDocuments. rewrite wrapped_world, filterQuery_params.
  rewrite listDocumentsLoop_shape.
  destruct (paginateLoop_queries listEndpoint
              (fun p c => setIf p "pageCursor" c) jsonList nextPageCursor
              results this_props (limit a)
              (fun params => forall pair : string * string,
                   In pair (filterQuery a) -> In pair params)
              Hjson)
    with (fuel := fuel) (params := filterQuery a)
         (acc := @nil ReaderDocument) (cursor := @None string) (total := 0)
         (env := env) (w := w)
    as (issued & Hissued & Hall).
  - intros params cursor Hkept [name value] Hin.
    unfold setIf. destruct cursor as [c |]; [| apply Hkept, Hin].
    destruct (truthy (Some c)); [| apply Hkept, Hin].
    apply set_keeps; [| apply Hkept, Hin].
    pose proof (filterQuery_lacks_cursor a) as Hlacks.
    unfold lacks in Hlacks. rewrite Forall_forall in Hlacks.
    apply (Hlacks _ Hin).
  - intros pair Hin. exact Hin.
  - exists issued. split; [exact Hissued |].
    eapply Forall_impl; [| exact Hall].
    intros r Hr. cbn beta in Hr. unfold filterQuery in Hr.
    split; [| split].
    + intros value Hv Hne. apply Hr.
      apply in_or_app. right. apply in_or_app. right.
      apply in_or_app. left. apply filterPair_in; assumption.
    + intros value Hv Hne. apply Hr.
      apply in_or_app. right. apply in_or_app. right.
      apply in_or_app. right. apply in_or_app. left.
      apply filterPair_in; assumption.
    + intros Hschema. unfold listDocumentsSchema in Hschema.
      apply andb_true_iff in Hschema. destruct Hschema as [Hschema _].
      apply andb_true_iff in Hschema. destruct Hschema as [Hloc Hcat].
      split.
      * intros value Hv. apply Hr. apply in_or_app. left.
        apply filterPair_in; [exact Hv |].
        rewrite Hv in Hloc.
        eapply inEnum_nonempty; [| exact Hloc]. reflexivity.
      * intros value Hv. apply Hr. apply in_or_app. right.
        apply in_or_app. left. apply filterPair_in; [exact Hv |].
        rewrite Hv in Hcat.
        eapply inEnum_nonempty; [| exact Hcat]. reflexivity.
Qed.

End Filters.
